(** * aidata documents: the command-line processor, the section validator
      and the encryption tool

    A shallow embedding of [scripts/aidata_cli.py] (class [AIDataProcessor]),
    of [scripts/validate_aidata.py] (class [AIDataValidator]) and of
    [scripts/aidata_crypto_cli.py] (class [AIDataCryptoCLI]).

    Python [str] values are modelled as [string]; a character is a code point
    below 256.  The hashing primitive [hashlib.sha256] is modelled by an
    executable SHA-256 over the UTF-8 encoding of such strings. *)

From Stdlib Require Import ZArith Ascii String Lia.
From stdpp Require Import base option list gmap strings pretty.


(** ** Python string primitives *)

Module Py.

(** The line feed, written ['\n'] in the Python sources. *)
Definition LF : ascii := ascii_of_nat 10.
Definition nl : string := String LF "".

(** [s.startswith(p)] *)
Fixpoint startswith (s p : string) {struct p} : bool :=
  match p with
  | EmptyString => true
  | String a p' =>
      match s with
      | EmptyString => false
      | String b s' => Ascii.eqb a b && startswith s' p'
      end
  end.

(** [sub in s] *)
Fixpoint contains (s sub : string) : bool :=
  startswith s sub ||
  match s with
  | EmptyString => false
  | String _ s' => contains s' sub
  end.

(** [s[n:]] *)
Fixpoint drop (n : nat) (s : string) : string :=
  match n, s with
  | O, _ => s
  | S _, EmptyString => EmptyString
  | S n', String _ s' => drop n' s'
  end.

(** [s[:n]] *)
Fixpoint take (n : nat) (s : string) : string :=
  match n, s with
  | O, _ => EmptyString
  | S _, EmptyString => EmptyString
  | S n', String c s' => String c (take n' s')
  end.

(** [s.split('\n')]: the pieces between line feeds; never the empty list. *)
Fixpoint split_lines (s : string) : list string :=
  match s with
  | EmptyString => [EmptyString]
  | String c s' =>
      if Ascii.eqb c LF then EmptyString :: split_lines s'
      else match split_lines s' with
           | line :: rest => String c line :: rest
           | [] => [String c EmptyString]
           end
  end.

(** [sep.join(l)] *)
Fixpoint join (sep : string) (l : list string) : string :=
  match l with
  | [] => EmptyString
  | [x] => x
  | x :: l' => x +:+ sep +:+ join sep l'
  end.

(** [''.join(l)] *)
Definition concat (l : list string) : string := join "" l.

(** [str.isspace] on one character, for code points below 256:
    tab, line feed, vertical tab, form feed, carriage return, the four
    separators 28..31, space, next line (133) and no-break space (160). *)
Definition is_space (c : ascii) : bool :=
  let n := nat_of_ascii c in
  ((9 <=? n) && (n <=? 13)) || ((28 <=? n) && (n <=? 32))
  || (n =? 133) || (n =? 160).

(** [s.lstrip()] *)
Fixpoint lstrip (s : string) : string :=
  match s with
  | EmptyString => EmptyString
  | String c s' => if is_space c then lstrip s' else s
  end.

(** [s.rstrip()] *)
Fixpoint rstrip (s : string) : string :=
  match s with
  | EmptyString => EmptyString
  | String c s' =>
      match rstrip s' with
      | EmptyString => if is_space c then EmptyString else String c EmptyString
      | r => String c r
      end
  end.

(** [s.strip()] *)
Definition strip (s : string) : string := rstrip (lstrip s).

(** [c.lower()] on one character, for code points below 256: the letters
    A..Z and the accented capitals 192..222 (all but the multiplication
    sign 215) move up by 32. *)
Definition lower_char (c : ascii) : ascii :=
  let n := nat_of_ascii c in
  if ((65 <=? n) && (n <=? 90))
     || ((192 <=? n) && (n <=? 222) && negb (n =? 215))
  then ascii_of_nat (n + 32) else c.

(** [s.lower()] *)
Fixpoint lower (s : string) : string :=
  match s with
  | EmptyString => EmptyString
  | String c s' => String (lower_char c) (lower s')
  end.

(** [s.replace(old, new)] for a non-empty [old]: every occurrence, found
    from the left and not overlapping.  [fuel] bounds the characters still
    to be read. *)
Fixpoint replace_from (fuel : nat) (s old new : string) : string :=
  match fuel with
  | O => s
  | S fuel' =>
      if startswith s old then new +:+ replace_from fuel' (drop (String.length old) s) old new
      else match s with
           | EmptyString => EmptyString
           | String c s' => String c (replace_from fuel' s' old new)
           end
  end.

(** [s.replace(old, new)]; with an empty [old] Python puts [new] before
    every character and at the end. *)
Definition replace (s old new : string) : string :=
  match old with
  | EmptyString =>
      new +:+ concat ((λ c, String c new) <$> list_ascii_of_string s)
  | _ => replace_from (String.length s) s old new
  end.

(** [bool(s)]: whether the text is not empty. *)
Definition truthy (s : string) : bool :=
  match s with
  | EmptyString => false
  | String _ _ => true
  end.

(** [l.insert(i, x)] for [0 <= i]; past the end it appends. *)
Definition insert_at {A} (i : nat) (x : A) (l : list A) : list A :=
  firstn i l ++ x :: skipn i l.

(** The carriage return, written ['\r']. *)
Definition CR : ascii := ascii_of_nat 13.

(** What [open(path, 'r')] makes of the characters of a file: in text mode
    a carriage return with the line feed after it, and a carriage return
    alone, are read as one line feed. *)
Fixpoint universal_newlines (s : string) : string :=
  match s with
  | EmptyString => EmptyString
  | String c s' =>
      if Ascii.eqb c CR then
        String LF match s' with
                  | EmptyString => EmptyString
                  | String d s'' =>
                      if Ascii.eqb d LF then universal_newlines s''
                      else universal_newlines s'
                  end
      else String c (universal_newlines s')
  end.

End Py.

(** ** SHA-256 ([hashlib.sha256(...).hexdigest()], FIPS 180-4) *)

Module SHA256.

Local Open Scope Z_scope.

(** 32-bit words are integers in [0, 2^32); sums wrap around. *)
Definition w32 (x : Z) : Z := x mod 2 ^ 32.
Definition add32 (x y : Z) : Z := w32 (x + y).
Definition rotr (n x : Z) : Z :=
  Z.lor (Z.shiftr x n) (w32 (Z.shiftl x (32 - n))).
Definition not32 (x : Z) : Z := Z.lxor x (2 ^ 32 - 1).

Definition Ch (x y z : Z) : Z := Z.lxor (Z.land x y) (Z.land (not32 x) z).
Definition Maj (x y z : Z) : Z :=
  Z.lxor (Z.lxor (Z.land x y) (Z.land x z)) (Z.land y z).
Definition Sigma0 (x : Z) : Z := Z.lxor (Z.lxor (rotr 2 x) (rotr 13 x)) (rotr 22 x).
Definition Sigma1 (x : Z) : Z := Z.lxor (Z.lxor (rotr 6 x) (rotr 11 x)) (rotr 25 x).
Definition sigma0 (x : Z) : Z := Z.lxor (Z.lxor (rotr 7 x) (rotr 18 x)) (Z.shiftr x 3).
Definition sigma1 (x : Z) : Z := Z.lxor (Z.lxor (rotr 17 x) (rotr 19 x)) (Z.shiftr x 10).

(** The round constants: the first 32 bits of the fractional parts of the
    cube roots of the first 64 primes. *)
Definition K : list Z :=
  [1116352408; 1899447441; 3049323471; 3921009573; 961987163; 1508970993;
   2453635748; 2870763221; 3624381080; 310598401; 607225278; 1426881987;
   1925078388; 2162078206; 2614888103; 3248222580; 3835390401; 4022224774;
   264347078; 604807628; 770255983; 1249150122; 1555081692; 1996064986;
   2554220882; 2821834349; 2952996808; 3210313671; 3336571891; 3584528711;
   113926993; 338241895; 666307205; 773529912; 1294757372; 1396182291;
   1695183700; 1986661051; 2177026350; 2456956037; 2730485921; 2820302411;
   3259730800; 3345764771; 3516065817; 3600352804; 4094571909; 275423344;
   430227734; 506948616; 659060556; 883997877; 958139571; 1322822218;
   1537002063; 1747873779; 1955562222; 2024104815; 2227730452; 2361852424;
   2428436474; 2756734187; 3204031479; 3329325298].

(** The eight working variables, also the chaining value. *)
Record state : Type := State {
  sa : Z; sb : Z; sc : Z; sd : Z; se : Z; sf : Z; sg : Z; sh : Z
}.

(** The square roots of the first eight primes. *)
Definition H0 : state :=
  State 1779033703 3144134277 1013904242 2773480762
        1359893119 2600822924 528734635 1541459225.

(** [s.encode('utf-8')] for code points below 256. *)
Definition utf8_char (c : ascii) : list Z :=
  let n := Z.of_nat (nat_of_ascii c) in
  if n <? 128 then [n] else [192 + n / 64; 128 + n mod 64].

Fixpoint utf8 (s : string) : list Z :=
  match s with
  | EmptyString => []
  | String c s' => utf8_char c ++ utf8 s'
  end.

(** Big-endian bytes of [x], [n] of them. *)
Fixpoint be_bytes (n : nat) (x : Z) : list Z :=
  match n with
  | O => []
  | S n' => (x / 256 ^ Z.of_nat n') mod 256 :: be_bytes n' x
  end.

(** The message, a one bit, zeros up to 56 modulo 64 bytes, then the bit
    length on eight bytes. *)
Definition pad (msg : list Z) : list Z :=
  let len := Z.of_nat (length msg) in
  msg ++ 128 :: replicate (Z.to_nat ((55 - len) mod 64)) 0 ++ be_bytes 8 (8 * len).

(** Big-endian words of a byte sequence, four bytes each. *)
Fixpoint words (bytes : list Z) : list Z :=
  match bytes with
  | b0 :: b1 :: b2 :: b3 :: rest =>
      (((b0 * 256 + b1) * 256 + b2) * 256 + b3) :: words rest
  | _ => []
  end.

(** One step of the message schedule; [w] holds the words so far, the
    latest first. *)
Definition schedule_step (w : list Z) : list Z :=
  add32 (add32 (sigma1 (nth 1 w 0)) (nth 6 w 0))
        (add32 (sigma0 (nth 14 w 0)) (nth 15 w 0)) :: w.

(** The 64 words of the schedule of one block of 16 words. *)
Definition schedule (block : list Z) : list Z :=
  rev (Nat.iter 48 schedule_step (rev block)).

Definition round (s : state) (kw : Z * Z) : state :=
  let t1 := add32 (add32 (add32 (sh s) (Sigma1 (se s)))
                         (add32 (Ch (se s) (sf s) (sg s)) (fst kw))) (snd kw) in
  let t2 := add32 (Sigma0 (sa s)) (Maj (sa s) (sb s) (sc s)) in
  State (add32 t1 t2) (sa s) (sb s) (sc s) (add32 (sd s) t1) (se s) (sf s) (sg s).

Definition compress (h : state) (block : list Z) : state :=
  let s := foldl round h (zip K (schedule block)) in
  State (add32 (sa h) (sa s)) (add32 (sb h) (sb s)) (add32 (sc h) (sc s))
        (add32 (sd h) (sd s)) (add32 (se h) (se s)) (add32 (sf h) (sf s))
        (add32 (sg h) (sg s)) (add32 (sh h) (sh s)).

(** The blocks of a word sequence, 16 words each; [n] is their number. *)
Fixpoint blocks (n : nat) (ws : list Z) : list (list Z) :=
  match n with
  | O => []
  | S n' => firstn 16 ws :: blocks n' (skipn 16 ws)
  end.

Definition digest (msg : list Z) : state :=
  let ws := words (pad msg) in
  foldl compress H0 (blocks (length ws / 16) ws).

Definition hex_digit (d : Z) : ascii :=
  match d with
  | 0 => "0" | 1 => "1" | 2 => "2" | 3 => "3" | 4 => "4" | 5 => "5"
  | 6 => "6" | 7 => "7" | 8 => "8" | 9 => "9" | 10 => "a" | 11 => "b"
  | 12 => "c" | 13 => "d" | 14 => "e" | _ => "f"
  end%char.

(** The [n] lowest hexadecimal digits of [x], highest first. *)
Fixpoint hex (n : nat) (x : Z) : string :=
  match n with
  | O => EmptyString
  | S n' => String (hex_digit ((x / 16 ^ Z.of_nat n') mod 16)) (hex n' x)
  end.

Definition hex_state (s : state) : string :=
  hex 8 (sa s) +:+ hex 8 (sb s) +:+ hex 8 (sc s) +:+ hex 8 (sd s) +:+
  hex 8 (se s) +:+ hex 8 (sf s) +:+ hex 8 (sg s) +:+ hex 8 (sh s).

(** [hashlib.sha256(s.encode('utf-8')).hexdigest()] *)
Definition hexdigest (s : string) : string := hex_state (digest (utf8 s)).

End SHA256.

(** ** The regular expressions of the sources

    Most patterns of the scripts are sequences of single-character matchers
    (a literal or [\d]); the others are given by their matcher at the start
    of a text, or are written out where the scripts use them. *)

Module Re.

(** One position of a pattern: a literal character, or [\d]. *)
Inductive atom : Type :=
| Lit (c : ascii)
| Digit.

(** [\d] for code points below 256. *)
Definition is_digit (c : ascii) : bool :=
  (48 <=? nat_of_ascii c) && (nat_of_ascii c <=? 57).

Definition atom_matches (a : atom) (c : ascii) : bool :=
  match a with
  | Lit x => Ascii.eqb x c
  | Digit => is_digit c
  end.

Fixpoint lits (s : string) : list atom :=
  match s with
  | EmptyString => []
  | String c s' => Lit c :: lits s'
  end.

(** [\d{n}] *)
Definition digits (n : nat) : list atom := replicate n Digit.

(** The pattern at the start of [s]: the matched text and what follows. *)
Fixpoint match_at (pat : list atom) (s : string) : option (string * string) :=
  match pat with
  | [] => Some (EmptyString, s)
  | a :: pat' =>
      match s with
      | EmptyString => None
      | String c s' =>
          if atom_matches a c
          then '(m, rest) ← match_at pat' s'; Some (String c m, rest)
          else None
      end
  end.

(** [re.search(pat, s)]: the leftmost match, as the text before it, the
    match and the text after it. *)
Fixpoint search (pat : list atom) (s : string) : option (string * string * string) :=
  match match_at pat s with
  | Some (m, rest) => Some (EmptyString, m, rest)
  | None =>
      match s with
      | EmptyString => None
      | String c s' =>
          '(pre, m, rest) ← search pat s'; Some (String c pre, m, rest)
      end
  end.

(** [re.split('(pat)', s)] for a pattern that matches no empty text:
    the texts between the matches, with the matches themselves in between.
    [fuel] bounds the number of matches. *)
Fixpoint split_from (fuel : nat) (pat : list atom) (s : string) : list string :=
  match fuel with
  | O => [s]
  | S fuel' =>
      match search pat s with
      | None => [s]
      | Some (pre, m, rest) => pre :: m :: split_from fuel' pat rest
      end
  end.

Definition split (pat : list atom) (s : string) : list string :=
  split_from (String.length s) pat s.

(** [\d{4}-\d{2}-\d{2} \d{2}:\d{2}:\d{2}] *)
Definition timestamp : list atom :=
  digits 4 ++ lits "-" ++ digits 2 ++ lits "-" ++ digits 2 ++ lits " " ++
  digits 2 ++ lits ":" ++ digits 2 ++ lits ":" ++ digits 2.

(** [re.search] for a pattern given by its matcher at the start of a text:
    the leftmost match, as the text before it, the match and the text after
    it. *)
Fixpoint search_by (matcher : string → option (string * string)) (s : string)
    : option (string * string * string) :=
  match matcher s with
  | Some (m, rest) => Some (EmptyString, m, rest)
  | None =>
      match s with
      | EmptyString => None
      | String c s' =>
          '(pre, m, rest) ← search_by matcher s'; Some (String c pre, m, rest)
      end
  end.

(** [re.split('(pat)', s)] for such a pattern, when it matches no empty
    text.  [fuel] bounds the number of matches. *)
Fixpoint split_by (fuel : nat) (matcher : string → option (string * string)) (s : string)
    : list string :=
  match fuel with
  | O => [s]
  | S fuel' =>
      match search_by matcher s with
      | None => [s]
      | Some (pre, m, rest) => pre :: m :: split_by fuel' matcher rest
      end
  end.

End Re.

(** ** Effects of the processor

    An operation of the processor ends with a result, dies with an uncaught
    exception, reads a line from the terminal ([input(prompt)], which raises
    [EOFError] at the end of the input) or writes the file ([_write_file],
    which reports whether the write went through). *)

Inductive exn : Type :=
| IndexError
| EOFError.

Inductive io (A : Type) : Type :=
| Ret (a : A)
| Raise (e : exn)
| Input (prompt : string) (k : option string → io A)
| WriteFile (content : string) (k : bool → io A).

Arguments Ret {A} a.
Arguments Raise {A} e.
Arguments Input {A} prompt k.
Arguments WriteFile {A} content k.

(** Running an operation on a writable file, with the lines still to come on
    the terminal: what it returns or raises, and the file afterwards. *)
Fixpoint run {A} (p : io A) (file : string) (stdin : list string) : (exn + A) * string :=
  match p with
  | Ret a => (inr a, file)
  | Raise e => (inl e, file)
  | Input _ k =>
      match stdin with
      | [] => run (k None) file []
      | answer :: stdin' => run (k (Some answer)) file stdin'
      end
  | WriteFile content k => run (k true) content stdin
  end.

(** ** [class AIDataProcessor] of [aidata_cli.py]

    [content] is [self.content]: the text read by [_read_file], or [None]
    when the file could not be read. *)

Module AIDataProcessor.

Import Py.

Definition mandatory_sections : list string :=
  ["FILE METADATA"; "DOMAIN CONTEXT"; "KNOWLEDGE REPRESENTATION";
   "VALIDATION FRAMEWORK"; "APPLICATION CONTEXT"; "EVOLUTION TRACKING";
   "AUTOMATED LEARNINGS"].

(** *** [datetime.strptime(ts, "%Y-%m-%d %H:%M:%S")] on a text of the
    shape [Re.timestamp]: whether it returns, rather than raising
    [ValueError]. *)

Definition int_of_digits (s : string) : nat :=
  foldl (λ n c, 10 * n + (nat_of_ascii c - 48)) 0 (list_ascii_of_string s).

Definition is_leap (year : nat) : bool :=
  (year mod 4 =? 0) && (negb (year mod 100 =? 0) || (year mod 400 =? 0)).

Definition days_in_month (year month : nat) : nat :=
  match month with
  | 2 => if is_leap year then 29 else 28
  | 4 | 6 | 9 | 11 => 30
  | _ => 31
  end.

Definition strptime_ok (ts : string) : bool :=
  let year := int_of_digits (take 4 ts) in
  let month := int_of_digits (take 2 (drop 5 ts)) in
  let day := int_of_digits (take 2 (drop 8 ts)) in
  let hour := int_of_digits (take 2 (drop 11 ts)) in
  let minute := int_of_digits (take 2 (drop 14 ts)) in
  let second := int_of_digits (take 2 (drop 17 ts)) in
  (1 <=? year) && (1 <=? month) && (month <=? 12) &&
  (1 <=? day) && (day <=? days_in_month year month) &&
  (hour <=? 23) && (minute <=? 59) && (second <=? 59).

(** *** The FILE METADATA pattern
    [r"## FILE METADATA\n([\\s\\S]*?)(?=\\n## |\\Z)"], used by
    [validate_syntax] and by [to_json].  In a raw string [\\s] is an escaped
    backslash followed by the letter s: the class holds the backslash and
    the letters s and S, and the lookahead wants a backslash followed by
    [n## ] or by [Z]. *)

Definition backslash : ascii := ascii_of_nat 92.

Definition metadata_class (c : ascii) : bool :=
  Ascii.eqb c backslash || Ascii.eqb c "s" || Ascii.eqb c "S".

Definition metadata_lookahead (s : string) : bool :=
  startswith s (String backslash "n## ") || startswith s (String backslash "Z").

(** [([\\s\\S]*?)(?=...)]: the shortest run of the class after which the
    lookahead holds. *)
Fixpoint metadata_group (s : string) : option string :=
  if metadata_lookahead s then Some EmptyString
  else match s with
       | EmptyString => None
       | String c s' =>
           if metadata_class c then String c <$> metadata_group s' else None
       end.

(** [re.search] of the pattern: group 1 of the leftmost match. *)
Fixpoint metadata_search (s : string) : option string :=
  match (if startswith s ("## FILE METADATA" +:+ nl)
         then metadata_group (drop 17 s) else None) with
  | Some g => Some g
  | None =>
      match s with
      | EmptyString => None
      | String _ s' => metadata_search s'
      end
  end.

(** *** [validate_syntax] *)

Definition required_metadata_fields : list string :=
  ["Schema Version"; "Confidence Level"; "Classification"].

Definition validate_syntax (content : option string) : bool * string :=
  match content with
  | None | Some EmptyString => (false, "Could not read file content.")
  | Some content =>
      let missing_sections :=
        List.filter (λ section, negb (contains content ("## " +:+ section)))
                    mandatory_sections in
      if negb (bool_decide (missing_sections = [])) then
        (false, "Missing mandatory sections: " +:+ join ", " missing_sections)
      else if negb (startswith content "# AI LEARNING FILE:") then
        (false, "File must start with '# AI LEARNING FILE:'")
      else if negb (contains content "## CREATED") then
        (false, "Missing 'CREATED' section")
      else if match Re.search (Re.lits ("## CREATED" +:+ nl) ++ Re.timestamp) content with
              | Some (_, m, _) => negb (strptime_ok (drop 11 m))
              | None => false
              end then
        (false, "Invalid timestamp format in CREATED section")
      else
        let missing_fields :=
          match metadata_search content with
          | Some metadata_content =>
              List.filter
                (λ field, negb (contains metadata_content ("- **" +:+ field +:+ "**:")))
                required_metadata_fields
          | None => []
          end in
        if negb (bool_decide (missing_fields = [])) then
          (false, "Missing required metadata fields: " +:+ join ", " missing_fields)
        else (true, "Syntax validation passed.")
  end.

(** *** [generate_hash] *)

Definition hash_prefix : string := "- **Integrity Hash**: SHA256-".

(** The first loop, from line [i] on: the lines kept for hashing and the
    index of the last hash line ([None] for the initial [-1]). *)
Fixpoint scan_hash_lines (i : nat) (lines filtered_lines : list string)
    (hash_line_index : option nat) : list string * option nat :=
  match lines with
  | [] => (filtered_lines, hash_line_index)
  | line :: lines' =>
      if startswith line hash_prefix
      then scan_hash_lines (S i) lines' filtered_lines (Some i)
      else scan_hash_lines (S i) lines' (filtered_lines ++ [line]) hash_line_index
  end.

(** [while j < len(lines) and not lines[j].startswith("## "): j += 1],
    where [rest] is [lines[j:]]. *)
Fixpoint metadata_section_end (j : nat) (rest : list string) : nat :=
  match rest with
  | [] => j
  | line :: rest' =>
      if negb (startswith line "## ") then metadata_section_end (S j) rest' else j
  end.

(** The second loop, from line [i] on ([rest] is [lines[i:]]): the hash
    line goes in at the end of the first FILE METADATA section, and
    nowhere when no line is that marker. *)
Fixpoint insert_hash_line (i : nat) (rest lines : list string) (hash_line : string)
    : list string :=
  match rest with
  | [] => lines
  | line :: rest' =>
      if String.eqb line "## FILE METADATA"
      then insert_at (metadata_section_end (S i) rest') hash_line lines
      else insert_hash_line (S i) rest' lines hash_line
  end.

Definition write_failed : bool * string :=
  (false, "Failed to write updated content to file.").

Definition generate_hash (content : option string) : io (bool * string) :=
  match content with
  | None | Some EmptyString => Ret (false, "Could not read file content.")
  | Some content =>
      let lines := split_lines content in
      let '(filtered_lines, hash_line_index) := scan_hash_lines 0 lines [] None in
      let content_without_hash := join nl filtered_lines in
      let sha256_hash := SHA256.hexdigest content_without_hash in
      let hash_line := hash_prefix +:+ sha256_hash in
      let lines :=
        match hash_line_index with
        | Some i => <[i := hash_line]> lines
        | None => insert_hash_line 0 lines lines hash_line
        end in
      let updated_content := join nl lines in
      WriteFile updated_content (λ written,
        if written
        then Ret (true, "Integrity hash updated: SHA256-" +:+ sha256_hash)
        else Ret write_failed)
  end.


(** *** [deduplicate_learnings] *)

(** [r'(\n### Learning Entry - \d{4}-\d{2}-\d{2} \d{2}:\d{2}:\d{2}\n)'] *)
Definition entry_header : list Re.atom :=
  Re.lits (nl +:+ "### Learning Entry - ") ++ Re.timestamp ++ Re.lits nl.

(** [timestamp]: what the timestamp pattern finds in the header, or the
    empty text. *)
Definition entry_timestamp (header : string) : string :=
  match Re.search Re.timestamp header with
  | Some (_, m, _) => m
  | None => EmptyString
  end.

(** [content_lines[:5]]: the first five lines of the stripped text. *)
Definition first_five_lines (entry_content : string) : list string :=
  firstn 5 (split_lines (strip entry_content)).

(** The identifier of an entry: its timestamp, a bar and the summary. *)
Definition entry_identifier (header entry_content : string) : string :=
  let content_summary := join nl (first_five_lines entry_content) in
  entry_timestamp header +:+ "|" +:+ content_summary.

(** The loop over the pairs (header, content) of [entries[1:]]. *)
Fixpoint keep_first_entries (pairs reconstructed_entries : list string)
    (seen_hashes : gset string) (duplicate_count : nat) : list string * nat :=
  match pairs with
  | header :: entry_content :: pairs' =>
      let entry_hash := SHA256.hexdigest (entry_identifier header entry_content) in
      if bool_decide (entry_hash ∈ seen_hashes)
      then keep_first_entries pairs' reconstructed_entries seen_hashes
                              (S duplicate_count)
      else keep_first_entries pairs'
                              (reconstructed_entries ++ [header; entry_content])
                              ({[entry_hash]} ∪ seen_hashes) duplicate_count
  | _ => (reconstructed_entries, duplicate_count)
  end.

(** What is known once the section is read: the header and the text of the
    section, the entries kept and the number of duplicates. *)
Record learnings : Type := Learnings {
  section_header : string;
  section_content : string;
  reconstructed_entries : list string;
  duplicate_count : nat
}.

(** The section is everything from the first marker line to the end of the
    text; its entries are split off and the first of each kind is kept. *)
Definition read_learnings (content : string) : option learnings :=
  '(_, header, rest) ← Re.search (Re.lits ("## AUTOMATED LEARNINGS" +:+ nl)) content;
  let entries := Re.split entry_header rest in
  let preamble :=
    match entries with
    | first :: _ => if truthy (strip first) then [first] else []
    | [] => []
    end in
  let '(kept, duplicates) := keep_first_entries (tail entries) preamble ∅ 0 in
  Some (Learnings header rest kept duplicates).

(** The text written back. *)
Definition deduplicated (content : string) (l : learnings) : string :=
  let new_section_content := strip (concat (reconstructed_entries l)) in
  replace content (section_header l +:+ section_content l)
                  (section_header l +:+ new_section_content).

Definition write_deduplicated (content : string) (l : learnings) : io (bool * string) :=
  WriteFile (deduplicated content l) (λ written,
    if written
    then Ret (true, "Successfully deduplicated. Removed " +:+
                    pretty (duplicate_count l) +:+ " duplicate entries.")
    else Ret write_failed).

Definition deduplicate_learnings (content : option string) (auto_confirm : bool)
    : io (bool * string) :=
  match content with
  | None | Some EmptyString => Ret (false, "Could not read file content.")
  | Some content =>
      match read_learnings content with
      | None => Ret (false, "No AUTOMATED LEARNINGS section found.")
      | Some l =>
          if (0 <? duplicate_count l) && negb auto_confirm then
            Input ("Found " +:+ pretty (duplicate_count l) +:+
                   " duplicate entries. Remove them? (y/N): ")
              (λ response,
                 match response with
                 | None => Raise EOFError
                 | Some response =>
                     if negb (String.eqb (lower response) "y")
                     then Ret (false, "Operation cancelled by user.")
                     else write_deduplicated content l
                 end)
          else write_deduplicated content l
      end
  end.

(** *** [add_checkpoint]

    [timestamp] is [datetime.now().strftime("%Y-%m-%dT%H:%M:%SZ")]. *)

(** The first loop, from line [i] on ([rest] is [lines[i:]]): where the
    entry is inserted before the loop breaks, if anywhere, and whether a
    Checkpoint History section was seen. *)
Fixpoint find_checkpoint_slot (i : nat) (rest : list string)
    (in_evolution_tracking in_checkpoint_section checkpoint_section_found : bool)
    : option nat * bool :=
  match rest with
  | [] => (None, checkpoint_section_found)
  | line :: rest' =>
      if contains line "## EVOLUTION TRACKING" then
        find_checkpoint_slot (S i) rest' true in_checkpoint_section
                             checkpoint_section_found
      else if in_evolution_tracking && contains line "### Checkpoint History" then
        find_checkpoint_slot (S i) rest' in_evolution_tracking true true
      else if in_evolution_tracking && in_checkpoint_section
              && startswith line "## "
              && negb (contains line "### Checkpoint History") then
        (Some i, checkpoint_section_found)
      else if in_evolution_tracking && in_checkpoint_section
              && contains line "- ****:" then
        (Some (S i), checkpoint_section_found)
      else
        find_checkpoint_slot (S i) rest' in_evolution_tracking
                             in_checkpoint_section checkpoint_section_found
  end.

(** [while j < len(lines) and not lines[j].startswith("## ")
          or "## EVOLUTION TRACKING" in lines[j]: j += 1],
    where [rest] is [lines[j:]].  The condition reads
    [(A and B) or C]: at [j = len(lines)], an empty [rest], the first
    disjunct is false and the second evaluates [lines[j]]. *)
Fixpoint evolution_section_end (j : nat) (rest : list string) : exn + nat :=
  match rest with
  | [] => inl IndexError
  | line :: rest' =>
      if negb (startswith line "## ") || contains line "## EVOLUTION TRACKING"
      then evolution_section_end (S j) rest'
      else inr j
  end.

(** The second loop, from line [i] on ([rest] is [lines[i:]]): a new
    Checkpoint History section at the end of the first EVOLUTION TRACKING
    section. *)
Fixpoint create_checkpoint_section (i : nat) (rest lines : list string)
    (checkpoint_entry : string) : exn + list string :=
  match rest with
  | [] => inr lines
  | line :: rest' =>
      if contains line "## EVOLUTION TRACKING" then
        match evolution_section_end (S i) rest' with
        | inl e => inl e
        | inr j =>
            inr (insert_at (j + 1) (rstrip checkpoint_entry)
                   (insert_at j (nl +:+ "### Checkpoint History") lines))
        end
      else create_checkpoint_section (S i) rest' lines checkpoint_entry
  end.

Definition add_checkpoint (content : option string) (timestamp description : string)
    : io (bool * string) :=
  match content with
  | None | Some EmptyString => Ret (false, "Could not read file content.")
  | Some content =>
      let checkpoint_entry := "- **" +:+ timestamp +:+ "**: " +:+ description +:+ nl in
      let lines := split_lines content in
      let '(slot, checkpoint_section_found) :=
        find_checkpoint_slot 0 lines false false false in
      let lines :=
        match slot with
        | Some i => insert_at i checkpoint_entry lines
        | None => lines
        end in
      match (if checkpoint_section_found then inr lines
             else create_checkpoint_section 0 lines lines checkpoint_entry) with
      | inl e => Raise e
      | inr lines =>
          let updated_content := join nl lines in
          WriteFile updated_content (λ written,
            if written
            then Ret (true, "Checkpoint added: " +:+ description)
            else Ret write_failed)
      end
  end.

(** *** [to_json]: the metadata mapping *)

(** The last group of the pattern below, any characters up to the end of
    the line. *)
Fixpoint dot_star (s : string) : string :=
  match s with
  | EmptyString => EmptyString
  | String c s' => if Ascii.eqb c LF then EmptyString else String c (dot_star s')
  end.

(** [[^:]+] is greedy: the length of the longest run without a colon. *)
Fixpoint key_span (s : string) : nat :=
  match s with
  | EmptyString => 0
  | String c s' => if Ascii.eqb c ":" then 0 else S (key_span s')
  end.

(** The key of [n] characters, or failing that a shorter one, down to one
    character, followed by [**: ] and the value. *)
Fixpoint key_value (n : nat) (s : string) : option (string * string) :=
  match n with
  | O => None
  | S n' =>
      if startswith (drop n s) "**: "
      then Some (take n s, dot_star (drop (n + 4) s))
      else key_value n' s
  end.

(** [re.match(pattern, line).groups()] for the pattern of [to_json]: the
    text [- **], a key without colon, the text [**: ], the value. *)
Definition match_key_value (line : string) : option (string * string) :=
  if startswith line "- **"
  then key_value (key_span (drop 4 line)) (drop 4 line)
  else None.

(** One turn of the loop over the lines of the metadata text. *)
Definition add_metadata_line (metadata : gmap string string) (line : string)
    : gmap string string :=
  if startswith line "- **" then
    match match_key_value line with
    | Some (key, value) => <[key := value]> metadata
    | None => metadata
    end
  else metadata.

(** [json_data["metadata"]] as [to_json] leaves it; [None] when the
    operation stops on unreadable content. *)
Definition to_json_metadata (content : option string) : option (gmap string string) :=
  match content with
  | None | Some EmptyString => None
  | Some content =>
      match metadata_search content with
      | Some metadata_content =>
          Some (foldl add_metadata_line ∅ (split_lines metadata_content))
      | None => Some ∅
      end
  end.

(** *** [to_json]: the title and the sections *)

(** [.+] at the start of [s]: the characters up to the end of the line, at
    least one, and what follows them. *)
Definition dot_plus (s : string) : option (string * string) :=
  match dot_star s with
  | EmptyString => None
  | m => Some (m, drop (String.length m) s)
  end.

(** [re.match(r"# AI LEARNING FILE: (.+)", content)]: group 1. *)
Definition file_title (content : string) : option string :=
  if startswith content "# AI LEARNING FILE: "
  then fst <$> dot_plus (drop 20 content)
  else None.

(** [json_data["file_title"]] as [to_json] leaves it; [None] when the key
    is not set. *)
Definition to_json_title (content : option string) : option string :=
  match content with
  | None | Some EmptyString => None
  | Some content => file_title content
  end.

(** [## .+] at the start of [s]: the match and what follows it. *)
Definition section_line (s : string) : option (string * string) :=
  if startswith s "## "
  then '(title, rest) ← dot_plus (drop 3 s); Some ("## " +:+ title, rest)
  else None.

(** The loop over [sections[1:]], which holds headers and texts in turn. *)
Fixpoint add_sections (pairs : list string) (sections : gmap string string)
    : gmap string string :=
  match pairs with
  | header :: content :: pairs' =>
      let section_name := drop 3 (strip header) in
      add_sections pairs' (<[section_name := strip content]> sections)
  | _ => sections
  end.

(** [json_data["sections"]] as [to_json] leaves it; [None] when the
    operation stops on unreadable content. *)
Definition to_json_sections (content : option string) : option (gmap string string) :=
  match content with
  | None | Some EmptyString => None
  | Some content =>
      Some (add_sections
              (tail (Re.split_by (String.length content) section_line content)) ∅)
  end.

End AIDataProcessor.

(** ** [class AIDataValidator] of [validate_aidata.py] *)

Module AIDataValidator.

Import Py.

Definition mandatory_sections : list string :=
  ["FILE METADATA"; "DOMAIN CONTEXT"; "KNOWLEDGE REPRESENTATION";
   "VALIDATION FRAMEWORK"; "APPLICATION CONTEXT"; "EVOLUTION TRACKING";
   "AUTOMATED LEARNINGS"].

(** The loop over the mandatory sections: the missing and the present
    ones. *)
Fixpoint sort_sections (content : string) (sections missing_sections present_sections : list string)
    : list string * list string :=
  match sections with
  | [] => (missing_sections, present_sections)
  | section :: sections' =>
      if negb (contains content ("## " +:+ section))
      then sort_sections content sections' (missing_sections ++ [section]) present_sections
      else sort_sections content sections' missing_sections (present_sections ++ [section])
  end.

(** [validate_sections(file_path)]: the lines printed and the pair
    returned.  [content] is what [open(file_path).read()] gives, [None]
    when it raises; [error] is the text of that exception. *)
Definition validate_sections (file_path : string) (content : option string) (error : string)
    : list string * (bool * list string) :=
  match content with
  | None => (["Error reading file " +:+ file_path +:+ ": " +:+ error], (false, []))
  | Some content =>
      let '(missing_sections, present_sections) :=
        sort_sections content mandatory_sections [] [] in
      if bool_decide (missing_sections = []) then
        (["[PASS] All mandatory sections present in " +:+ file_path],
         (true, present_sections))
      else
        (("[FAIL] Missing mandatory sections in " +:+ file_path +:+ ":")
           :: ((λ section, "  - " +:+ section) <$> missing_sections),
         (false, present_sections))
  end.

(** [f.readline()] on a file just opened: the first line, with its line
    feed when it has one. *)
Fixpoint readline (s : string) : string :=
  match s with
  | EmptyString => EmptyString
  | String c s' =>
      if Ascii.eqb c LF then String c EmptyString else String c (readline s')
  end.

(** ["-" * n] *)
Fixpoint dashes (n : nat) : string :=
  match n with
  | O => EmptyString
  | S n' => String "-" (dashes n')
  end.

(** [validate_file_header(file_path)]: the lines printed and the value
    returned. *)
Definition validate_file_header (file_path : string) (content : option string)
    (error : string) : list string * bool :=
  match content with
  | None => (["Error reading file " +:+ file_path +:+ ": " +:+ error], false)
  | Some content =>
      let first_line := strip (readline content) in
      if startswith first_line "# AI LEARNING FILE:" then
        (["[PASS] Correct file header in " +:+ file_path], true)
      else
        (["[FAIL] Incorrect file header in " +:+ file_path;
          "  Expected to start with '# AI LEARNING FILE:', got '" +:+
          take 50 first_line +:+ "...'"],
         false)
  end.

(** [validate_created_section(file_path)] *)
Definition validate_created_section (file_path : string) (content : option string)
    (error : string) : list string * bool :=
  match content with
  | None => (["Error reading file " +:+ file_path +:+ ": " +:+ error], false)
  | Some content =>
      if contains content "## CREATED" then
        (["[PASS] CREATED section present in " +:+ file_path], true)
      else
        (["[FAIL] Missing CREATED section in " +:+ file_path], false)
  end.

(** [validate_file_structure(file_path)]; the file is read three times and
    is taken to stay as it is in between. *)
Definition validate_file_structure (file_path : string) (content : option string)
    (error : string) : list string * bool :=
  let '(header_output, header_valid) := validate_file_header file_path content error in
  let '(created_output, created_valid) :=
    validate_created_section file_path content error in
  let '(sections_output, (sections_valid, present_sections)) :=
    validate_sections file_path content error in
  let overall_valid := header_valid && created_valid && sections_valid in
  ([nl +:+ "Validating structure of " +:+ file_path +:+ ":"; dashes 50] ++
   header_output ++ created_output ++ sections_output ++
   [if overall_valid
    then nl +:+ "[PASS] " +:+ file_path +:+ " passed all structural validation checks"
    else nl +:+ "[FAIL] " +:+ file_path +:+ " failed one or more validation checks"],
   overall_valid).

(** [^## (.+)$] with [re.MULTILINE] at the start of a line: group 1 and
    what follows the match.  The group takes the line to its end, where
    [$] holds. *)
Definition heading (s : string) : option (string * string) :=
  if startswith s "## " then AIDataProcessor.dot_plus (drop 3 s) else None.

(** [re.findall] of that pattern, from a place that is the start of a line
    or not.  [fuel] bounds the characters still to be read. *)
Fixpoint findall_headings (fuel : nat) (line_start : bool) (s : string) : list string :=
  match fuel with
  | O => []
  | S fuel' =>
      match (if line_start then heading s else None) with
      | Some (title, rest) => title :: findall_headings fuel' false rest
      | None =>
          match s with
          | EmptyString => []
          | String c s' => findall_headings fuel' (Ascii.eqb c LF) s'
          end
      end
  end.

(** [list_sections(file_path)]: the lines printed and the list returned. *)
Definition list_sections (file_path : string) (content : option string) (error : string)
    : list string * list string :=
  match content with
  | None => (["Error reading file " +:+ file_path +:+ ": " +:+ error], [])
  | Some content => ([], findall_headings (String.length content) true content)
  end.

(** [compare_with_template(file_path, template_path)]: the lines printed
    and the value returned. *)
Definition compare_with_template (file_path template_path : string)
    (content template : option string) (error template_error : string)
    : list string * bool :=
  let '(file_output, file_sections) := list_sections file_path content error in
  let '(template_output, template_sections) :=
    list_sections template_path template template_error in
  let extra_sections :=
    List.filter (λ s, negb (bool_decide (s ∈ template_sections))) file_sections in
  let missing_sections :=
    List.filter (λ s, negb (bool_decide (s ∈ file_sections)) &&
                      bool_decide (s ∈ mandatory_sections)) template_sections in
  (file_output ++ template_output ++
   [nl +:+ "Comparison with base template (" +:+ template_path +:+ "):"; dashes 50] ++
   (if negb (bool_decide (extra_sections = []))
    then "Extra sections not in template:" :: ((λ s, "  + " +:+ s) <$> extra_sections)
    else []) ++
   (if negb (bool_decide (missing_sections = []))
    then "Missing mandatory sections:" :: ((λ s, "  - " +:+ s) <$> missing_sections)
    else if bool_decide (extra_sections = [])
         then ["File structure matches template exactly"]
         else []),
   bool_decide (length extra_sections = 0) && bool_decide (length missing_sections = 0)).

End AIDataValidator.

(** ** [class AIDataCryptoCLI] of [aidata_crypto_cli.py]

    The files are a finite map from names to bytes, and every file that is
    named can be opened for writing; the empty name names no file.  The
    primitives of the [cryptography] package, PBKDF2 and AES in CBC mode,
    are taken as given; the padding of PKCS7 is written out.  The bytes
    drawn by [secrets.token_bytes] are arguments. *)

Module AIDataCryptoCLI.

Definition bytes : Type := list Byte.byte.

(** The exceptions that the [try] blocks catch. *)
Inductive error : Type :=
| UnboundLocalError
| InvalidIVSize
| NotBlockMultiple
| InvalidPadding
| FileNotFoundError.

(** What the libraries provide: [kdf.derive] with the settings of
    [_derive_key], [encryptor.update(data) + encryptor.finalize()] and its
    inverse for a key, an initialization vector and data of whole blocks,
    and [str(e)] for the exceptions. *)
Record library : Type := Library {
  derive_key : string → bytes → bytes;
  aes_cbc_encrypt : bytes → bytes → bytes → bytes;
  aes_cbc_decrypt : bytes → bytes → bytes → bytes;
  error_text : error → string
}.

(** [open(path, 'rb').read()]; [None] when there is no such file, which is
    when [os.path.exists(path)] is false. *)
Definition read (fs : gmap string bytes) (path : string) : option bytes :=
  if Py.truthy path then fs !! path else None.

(** [open(path, 'wb')] and the writes that follow. *)
Definition write (fs : gmap string bytes) (path : string) (data : bytes)
    : error + gmap string bytes :=
  if Py.truthy path then inr (<[path := data]> fs) else inl FileNotFoundError.

(** An optional argument that is given and not empty. *)
Definition given (argument : option string) : option string :=
  match argument with
  | Some (String c s) => Some (String c s)
  | _ => None
  end.

(** [s.endswith(suffix)] *)
Definition endswith (s suffix : string) : bool :=
  (String.length suffix <=? String.length s) &&
  String.eqb (Py.drop (String.length s - String.length suffix) s) suffix.

(** The byte of value [n]. *)
Definition pad_byte (n : nat) : Byte.byte := default Byte.x00 (Byte.of_nat n).

(** [padding.PKCS7(128).padder()]: between 1 and 16 bytes, each of the
    value of their number, fill the last block. *)
Definition pkcs7_pad (data : bytes) : bytes :=
  let n := 16 - length data mod 16 in
  data ++ replicate n (pad_byte n).

(** [padding.PKCS7(128).unpadder()]; [None] for the ValueError on invalid
    padding. *)
Definition pkcs7_unpad (data : bytes) : option bytes :=
  match last data with
  | None => None
  | Some b =>
      let n := Byte.to_nat b in
      if (length data mod 16 =? 0) && (1 <=? n) && (n <=? 16)
         && forallb (λ x, Byte.to_nat x =? n) (drop (length data - n) data)
      then Some (take (length data - n) data)
      else None
  end.

(** What a method returns and prints, and the files afterwards. *)
Record outcome : Type := Outcome {
  returned : bool;
  printed : string;
  files_after : gmap string bytes
}.

(** [encrypt_file(input_file, output_file, password, key_file)]; [salt]
    and [iv] are the bytes that [secrets.token_bytes(16)] gives.  The salt
    is a local variable that only the password branch binds. *)
Definition encrypt_file (lib : library) (salt iv : bytes) (fs : gmap string bytes)
    (input_file : string) (output_file password key_file : option string) : outcome :=
  match read fs input_file with
  | None => Outcome false ("Error: Input file '" +:+ input_file +:+ "' not found.") fs
  | Some plaintext =>
      let output_file := default (input_file +:+ ".enc") (given output_file) in
      let credentials : string + bytes * option bytes :=
        match given key_file with
        | Some key_file =>
            match read fs key_file with
            | None => inl ("Error: Key file '" +:+ key_file +:+ "' not found.")
            | Some key =>
                if negb (length key =? 32)
                then inl "Error: Key file must contain exactly 32 bytes for AES-256."
                else inr (key, None)
            end
        | None =>
            match given password with
            | Some password => inr (derive_key lib password salt, Some salt)
            | None =>
                inl "Error: Either a password or key file must be provided for encryption."
            end
        end in
      match credentials with
      | inl message => Outcome false message fs
      | inr (key, bound_salt) =>
          let padded_plaintext := pkcs7_pad plaintext in
          let ciphertext := aes_cbc_encrypt lib key iv padded_plaintext in
          let written : error + gmap string bytes :=
            match write fs output_file [] with
            | inl e => inl e
            | inr opened =>
                match given password, bound_salt with
                | Some _, None => inl UnboundLocalError
                | Some _, Some salt => write fs output_file (salt ++ iv ++ ciphertext)
                | None, _ => write fs output_file (iv ++ ciphertext)
                end
            end in
          match written with
          | inr fs' =>
              Outcome true ("File encrypted successfully: " +:+ output_file) fs'
          | inl e =>
              Outcome false ("Error during encryption: " +:+ error_text lib e)
                      (match write fs output_file [] with
                       | inr opened => opened
                       | inl _ => fs
                       end)
          end
      end
  end.

(** [decrypt_file(input_file, output_file, password, key_file)] *)
Definition decrypt_file (lib : library) (fs : gmap string bytes)
    (input_file : string) (output_file password key_file : option string) : outcome :=
  match read fs input_file with
  | None => Outcome false ("Error: Input file '" +:+ input_file +:+ "' not found.") fs
  | Some file_data =>
      let output_file :=
        match given output_file with
        | Some output_file => output_file
        | None =>
            if endswith input_file ".enc"
            then Py.take (String.length input_file - 4) input_file
            else input_file +:+ ".dec"
        end in
      let credentials : string + bytes * bytes * bytes :=
        match given key_file with
        | Some key_file =>
            match read fs key_file with
            | None => inl ("Error: Key file '" +:+ key_file +:+ "' not found.")
            | Some key =>
                if negb (length key =? 32)
                then inl "Error: Key file must contain exactly 32 bytes for AES-256."
                else inr (key, take 16 file_data, drop 16 file_data)
            end
        | None =>
            match given password with
            | Some password =>
                let salt := take 16 file_data in
                let iv := take 16 (drop 16 file_data) in
                let ciphertext := drop 16 (drop 16 file_data) in
                inr (derive_key lib password salt, iv, ciphertext)
            | None =>
                inl "Error: Either a password or key file must be provided for decryption."
            end
        end in
      match credentials with
      | inl message => Outcome false message fs
      | inr (key, iv, ciphertext) =>
          let written : error + gmap string bytes :=
            if negb (length iv =? 16) then inl InvalidIVSize
            else if negb (length ciphertext mod 16 =? 0) then inl NotBlockMultiple
            else match pkcs7_unpad (aes_cbc_decrypt lib key iv ciphertext) with
                 | None => inl InvalidPadding
                 | Some plaintext => write fs output_file plaintext
                 end in
          match written with
          | inr fs' =>
              Outcome true ("File decrypted successfully: " +:+ output_file) fs'
          | inl e =>
              Outcome false ("Error during decryption: " +:+ error_text lib e) fs
          end
      end
  end.

End AIDataCryptoCLI.

(** ** Notions used to state the properties *)

(** [sub] occurs in [s]. *)
Definition occurs (sub s : string) : Prop :=
  ∃ pre post, s = pre +:+ sub +:+ post.

(** [s] holds no line feed. *)
Fixpoint single_line (s : string) : Prop :=
  match s with
  | EmptyString => True
  | String c s' => c ≠ Py.LF ∧ single_line s'
  end.

(** [AIDataProcessor(path).op()] on a readable and writable file, where
    [file] is the text of the file as [_read_file] returns it, with the
    line ends read as line feeds; the second component is the text that
    the operation wrote, or [file] if it wrote nothing.  On a file without
    carriage return this is the file before and after; for the characters
    of a file that has some, see [run_on_file]. *)
Definition run_on {A} (op : option string → io A) (file : string) (stdin : list string)
    : (exn + A) * string :=
  run (op (Some file)) file stdin.

(** [missing] lists, in the order of the mandatory sections, exactly the
    mandatory sections whose marker stands nowhere in the text [content],
    not even inside a longer line, and there is at least one: the test of
    the code, which is not the absence of the section ([sections_missing]). *)
Definition missing_exactly (content : string) (missing : list string) : Prop :=
  missing ≠ [] ∧
  sublist missing AIDataProcessor.mandatory_sections ∧
  ∀ section, section ∈ AIDataProcessor.mandatory_sections →
             section ∈ missing ↔ ¬ occurs ("## " +:+ section) content.


(** Scenario B of the specification: every mandatory section but
    VALIDATION FRAMEWORK. *)
Definition scenario_B : string :=
  Py.join Py.nl
    ["# AI LEARNING FILE: notes"; "## CREATED"; "2024-01-01 00:00:00";
     "## FILE METADATA"; "- **Schema Version**: 1.0"; "## DOMAIN CONTEXT";
     "## KNOWLEDGE REPRESENTATION"; "## APPLICATION CONTEXT";
     "## EVOLUTION TRACKING"; "## AUTOMATED LEARNINGS"].

(** [line] is an integrity hash line. *)
Definition is_hash_line (line : string) : bool :=
  Py.startswith line AIDataProcessor.hash_prefix.

(** The lines that are hashed: all but the hash lines. *)
Definition hashed_lines (lines : list string) : list string :=
  List.filter (λ line, negb (is_hash_line line)) lines.

(** The index of the last hash line. *)
Fixpoint last_hash_line (lines : list string) : option nat :=
  match lines with
  | [] => None
  | line :: lines' =>
      match last_hash_line lines' with
      | Some i => Some (S i)
      | None => if is_hash_line line then Some 0 else None
      end
  end.

(** Two documents that differ at most in the text of their hash lines. *)
Definition same_but_hash_lines (content1 content2 : string) : Prop :=
  Forall2 (λ line1 line2,
             line1 = line2 ∨ (is_hash_line line1 = true ∧ is_hash_line line2 = true))
          (Py.split_lines content1) (Py.split_lines content2).

(** The hash line that [generate_hash] writes for [lines]. *)
Definition new_hash_line (lines : list string) : string :=
  AIDataProcessor.hash_prefix +:+ SHA256.hexdigest (Py.join Py.nl (hashed_lines lines)).

(** The lines after [generate_hash]. *)
Definition stamped_lines (lines : list string) : list string :=
  match last_hash_line lines with
  | Some i => <[i := new_hash_line lines]> lines
  | None => AIDataProcessor.insert_hash_line 0 lines lines (new_hash_line lines)
  end.

(** No line of [content] is a hash line or the FILE METADATA marker. *)
Definition no_hash_line_no_metadata (content : string) : Prop :=
  ∀ line, line ∈ Py.split_lines content →
          is_hash_line line = false ∧ line ≠ "## FILE METADATA".

(** [generate_hash] writes [content] back as it is and, once the write went
    through, returns success and reports the hash [h]. *)
Definition rewrites_unchanged (content h : string) : Prop :=
  AIDataProcessor.generate_hash (Some content) =
  WriteFile content (λ written,
    if written
    then Ret (true, "Integrity hash updated: SHA256-" +:+ h)
    else Ret AIDataProcessor.write_failed).


(** A document whose Checkpoint History is the end of the text. *)
Definition checkpoint_history_last : string :=
  Py.join Py.nl
    ["# AI LEARNING FILE: notes"; "## EVOLUTION TRACKING"; "### Checkpoint History";
     "- **2024-01-01T00:00:00Z**: first"].

(** [deduplicate_learnings] finds at least one duplicate in [content]. *)
Definition finds_duplicates (content : string) : Prop :=
  ∃ l, AIDataProcessor.read_learnings content = Some l ∧
       0 < AIDataProcessor.duplicate_count l.

(** Without auto-confirm, [deduplicate_learnings] asks on the terminal
    whether to remove the duplicates, and every answer that is not
    [accepted] makes it return failure, with no write. *)
Definition asks_and_aborts_unless (accepted : string → Prop) (content : string) : Prop :=
  ∃ (n : nat) k,
    AIDataProcessor.deduplicate_learnings (Some content) false =
    Input ("Found " +:+ pretty n +:+ " duplicate entries. Remove them? (y/N): ") k ∧
    ∀ response, ¬ accepted response →
                k (Some response) = Ret (false, "Operation cancelled by user.").

(** Two learning entries with the same timestamp and the same text, with a
    blank line after the section marker. *)
Definition twice_learned : string :=
  Py.join Py.nl
    ["## AUTOMATED LEARNINGS"; "";
     "### Learning Entry - 2024-01-01 10:00:00"; "A";
     "### Learning Entry - 2024-01-01 10:00:00"; "A"].

(** Scenario A of the specification: a well-formed document without hash
    line. *)
Definition scenario_A : string :=
  Py.join Py.nl
    ["# AI LEARNING FILE: notes"; "## CREATED"; "2024-01-01 00:00:00";
     "## FILE METADATA"; "- **Schema Version**: 1.0";
     "- **Confidence Level**: high"; "- **Classification**: public";
     "## DOMAIN CONTEXT"; "## KNOWLEDGE REPRESENTATION";
     "## VALIDATION FRAMEWORK"; "## APPLICATION CONTEXT";
     "## EVOLUTION TRACKING"; "## AUTOMATED LEARNINGS"].

(** Every character of [s] is in the class of the FILE METADATA pattern. *)
Fixpoint metadata_text (s : string) : Prop :=
  match s with
  | EmptyString => True
  | String c s' => AIDataProcessor.metadata_class c = true ∧ metadata_text s'
  end.

(** Two learning entries with the same timestamp and the same text, the
    first one right after the section marker. *)
Definition twice_learned_compact : string :=
  Py.join Py.nl
    ["## AUTOMATED LEARNINGS";
     "### Learning Entry - 2024-01-01 10:00:00"; "A";
     "### Learning Entry - 2024-01-01 10:00:00"; "A"].

(** Four learning entries without text, of two timestamps in turn, the
    last one after a blank line. *)
Definition bare_entries : string :=
  Py.join Py.nl
    ["## AUTOMATED LEARNINGS"; "Preamble";
     "### Learning Entry - 2024-01-01 10:00:00";
     "### Learning Entry - 2024-01-02 10:00:00";
     "### Learning Entry - 2024-01-01 10:00:00"; "";
     "### Learning Entry - 2024-01-02 10:00:00"; ""].

(** [deduplicate --auto-confirm] on [file]. *)
Definition deduplicate_auto (file : string) : (exn + bool * string) * string :=
  run_on (λ content, AIDataProcessor.deduplicate_learnings content true) file [].

(** The answer of [add_checkpoint] once the text is written. *)
Definition checkpoint_added (description : string) (written : bool) : io (bool * string) :=
  if written
  then Ret (true, "Checkpoint added: " +:+ description)
  else Ret AIDataProcessor.write_failed.

(** A document with a Checkpoint History followed by another section. *)
Definition tracked_with_history : string :=
  Py.join Py.nl
    ["# AI LEARNING FILE: notes"; "## EVOLUTION TRACKING"; "### Checkpoint History";
     "- **2024-01-01T00:00:00Z**: first"; "## AUTOMATED LEARNINGS"].

(** A document without Checkpoint History, with a section after
    EVOLUTION TRACKING. *)
Definition tracked_without_history : string :=
  Py.join Py.nl
    ["# AI LEARNING FILE: notes"; "## EVOLUTION TRACKING"; "notes";
     "## AUTOMATED LEARNINGS"].

(** The entries of a list that holds headers and texts in turn. *)
Fixpoint entry_pairs (pairs : list string) : list (string * string) :=
  match pairs with
  | header :: entry_content :: pairs' => (header, entry_content) :: entry_pairs pairs'
  | _ => []
  end.

(** Two entries with the same timestamp and the same first five lines. *)
Definition same_entry (e1 e2 : string * string) : Prop :=
  AIDataProcessor.entry_timestamp e1.1 = AIDataProcessor.entry_timestamp e2.1 ∧
  AIDataProcessor.first_five_lines e1.2 = AIDataProcessor.first_five_lines e2.2.

(** The entries that equal none of the entries [kept] before them. *)
Fixpoint first_entries (kept entries : list (string * string)) : list (string * string) :=
  match entries with
  | [] => []
  | e :: entries' =>
      if bool_decide (Exists (same_entry e) kept)
      then first_entries kept entries'
      else e :: first_entries (e :: kept) entries'
  end.

(** The hashes of the identifiers of [entries] tell the identifiers apart. *)
Definition collision_free (entries : list (string * string)) : Prop :=
  ∀ e1 e2, e1 ∈ entries → e2 ∈ entries →
    SHA256.hexdigest (AIDataProcessor.entry_identifier e1.1 e1.2) =
    SHA256.hexdigest (AIDataProcessor.entry_identifier e2.1 e2.2) →
    AIDataProcessor.entry_identifier e1.1 e1.2 =
    AIDataProcessor.entry_identifier e2.1 e2.2.

(** Three learning entries of one timestamp: the second differs from the
    first in the sixth line only, the third in the fifth line. *)
Definition learned_three_times : string :=
  Py.join Py.nl
    ["## AUTOMATED LEARNINGS"; "";
     "### Learning Entry - 2024-01-01 10:00:00"; "a"; "b"; "c"; "d"; "e"; "f";
     "### Learning Entry - 2024-01-01 10:00:00"; "a"; "b"; "c"; "d"; "e"; "g";
     "### Learning Entry - 2024-01-01 10:00:00"; "a"; "b"; "c"; "d"; "x"; "f"].

(** The three entries of [learned_three_times]. *)
Definition three_entries : list (string * string) :=
  let header := Py.nl +:+ "### Learning Entry - 2024-01-01 10:00:00" +:+ Py.nl in
  [(header, Py.join Py.nl ["a"; "b"; "c"; "d"; "e"; "f"]);
   (header, Py.join Py.nl ["a"; "b"; "c"; "d"; "e"; "g"]);
   (header, Py.join Py.nl ["a"; "b"; "c"; "d"; "x"; "f"])].

(** The last hash line of [file] holds the SHA-256 of the text of [file]
    without its hash lines. *)
Definition records_own_hash (file : string) : Prop :=
  ∃ i, last_hash_line (Py.split_lines file) = Some i ∧
       Py.split_lines file !! i =
       Some (AIDataProcessor.hash_prefix +:+
             SHA256.hexdigest (Py.join Py.nl (hashed_lines (Py.split_lines file)))).

(** [content] has a hash line, or a line that is the FILE METADATA marker. *)
Definition has_hash_or_metadata_line (content : string) : Prop :=
  ∃ line, line ∈ Py.split_lines content ∧
          (is_hash_line line = true ∨ line = "## FILE METADATA").

(** The timestamp that the CREATED pattern finds in [content], if it finds
    one, is a date and time that [datetime.strptime] takes. *)
Definition created_timestamp_ok (content : string) : Prop :=
  match Re.search (Re.lits ("## CREATED" +:+ Py.nl) ++ Re.timestamp) content with
  | Some (_, m, _) => AIDataProcessor.strptime_ok (Py.drop 11 m) = true
  | None => True
  end.

(** A well-formed document whose FILE METADATA section holds none of the
    required fields. *)
Definition without_metadata_fields : string :=
  Py.join Py.nl
    ["# AI LEARNING FILE: notes"; "## CREATED"; "2024-01-01 00:00:00";
     "## FILE METADATA"; "## DOMAIN CONTEXT"; "## KNOWLEDGE REPRESENTATION";
     "## VALIDATION FRAMEWORK"; "## APPLICATION CONTEXT";
     "## EVOLUTION TRACKING"; "## AUTOMATED LEARNINGS"].
(** [add_checkpoint] with the given time and description, on [file]. *)
Definition add_checkpoint_on (timestamp description file : string)
    : (exn + bool * string) * string :=
  run_on (λ content, AIDataProcessor.add_checkpoint content timestamp description) file [].

(** The checkpoint line as [add_checkpoint] builds it; it ends with a line
    feed. *)
Definition checkpoint_entry (timestamp description : string) : string :=
  "- **" +:+ timestamp +:+ "**: " +:+ description +:+ Py.nl.

(** A document without EVOLUTION TRACKING section. *)
Definition untracked : string :=
  Py.join Py.nl ["# AI LEARNING FILE: notes"; "## DOMAIN CONTEXT"; "text"].
(** [s] is [pre], then the first occurrence of [sub], then [rest]. *)
Definition first_occurrence (sub pre s rest : string) : Prop :=
  s = pre +:+ sub +:+ rest ∧
  ∀ pre' rest', s = pre' +:+ sub +:+ rest' → String.length pre ≤ String.length pre'.

(** The line that opens the AUTOMATED LEARNINGS section, with its line
    feed. *)
Definition learnings_marker : string := "## AUTOMATED LEARNINGS" +:+ Py.nl.

(** The learning entries of a section text, each a header and the text up
    to the next header. *)
Definition learning_entries (section_content : string) : list (string * string) :=
  entry_pairs (tail (Re.split AIDataProcessor.entry_header section_content)).

(** The text of a section in front of its first entry, kept when it holds
    more than white space. *)
Definition section_preamble (section_content : string) : list string :=
  match Re.split AIDataProcessor.entry_header section_content with
  | first :: _ => if Py.truthy (Py.strip first) then [first] else []
  | [] => []
  end.

(** The hash that tells learning entries apart. *)
Definition entry_hash (e : string * string) : string :=
  SHA256.hexdigest (AIDataProcessor.entry_identifier e.1 e.2).

(** Headers and texts in turn. *)
Definition entry_texts (entries : list (string * string)) : list string :=
  entries ≫= λ e, [e.1; e.2].

(** A section as it stands in a document: the marker, the title and the
    text that follows the title. *)
Definition section_text (s : string * string) : string :=
  "## " +:+ s.1 +:+ s.2.

(** The document made of [pre] and then the sections [secs]. *)
Definition sectioned (pre : string) (secs : list (string * string)) : string :=
  pre +:+ Py.concat (section_text <$> secs).

(** Titles that are not empty and fill their line, and texts in which the
    marker does not stand: the text of a section starts on a new line, or
    is empty at the end of the document. *)
Fixpoint well_sectioned (secs : list (string * string)) : Prop :=
  match secs with
  | [] => True
  | s :: secs' =>
      s.1 ≠ "" ∧ single_line s.1 ∧ ¬ occurs "## " s.2 ∧
      (Py.startswith s.2 Py.nl = true ∨ (s.2 = "" ∧ secs' = [])) ∧
      well_sectioned secs'
  end.

(** The sections of [tracked_with_history]; the line of the subsection
    gives its first [#] to the text of EVOLUTION TRACKING. *)
Definition tracked_sections : list (string * string) :=
  [("EVOLUTION TRACKING", Py.nl +:+ "#");
   ("Checkpoint History", Py.nl +:+ "- **2024-01-01T00:00:00Z**: first" +:+ Py.nl);
   ("AUTOMATED LEARNINGS", "")].

(** The section that a line names: the text after [## ], when the line
    starts with [## ] and goes on. *)
Definition heading_title (line : string) : option string :=
  if Py.startswith line "## " && negb (String.eqb (Py.drop 3 line) "")
  then Some (Py.drop 3 line)
  else None.

(** The sections that [list_sections] returns for a readable file. *)
Definition listed_sections (content : string) : list string :=
  (AIDataValidator.list_sections "" (Some content) "").2.

(** The cipher of the library decrypts what it encrypts, and the encrypted
    data are as long as the data, for a key of 32 bytes, an initialization
    vector of 16 bytes and data of whole blocks. *)
Definition cipher_inverts (lib : AIDataCryptoCLI.library) : Prop :=
  ∀ key iv data,
    length key = 32 → length iv = 16 → length data mod 16 = 0 →
    length (AIDataCryptoCLI.aes_cbc_encrypt lib key iv data) = length data ∧
    AIDataCryptoCLI.aes_cbc_decrypt lib key iv
      (AIDataCryptoCLI.aes_cbc_encrypt lib key iv data) = data.

(** The key derivation of the library gives keys of 32 bytes. *)
Definition derives_keys (lib : AIDataCryptoCLI.library) : Prop :=
  ∀ password salt, length (AIDataCryptoCLI.derive_key lib password salt) = 32.

(** A stand-in for the library, to try the methods out: the key derivation
    gives 32 zero bytes and the cipher leaves the data as they are. *)
Definition plain_library : AIDataCryptoCLI.library :=
  AIDataCryptoCLI.Library (λ _ _, replicate 32 Byte.x00) (λ _ _ data, data)
                          (λ _ _ data, data) (λ _, "error").

(** A file of three bytes and a key file. *)
Definition two_files : gmap string AIDataCryptoCLI.bytes :=
  {[ "notes.aidata" := [Byte.x41; Byte.x42; Byte.x43];
     "secret.key" := replicate 32 Byte.x07 ]}.

(** [s] holds no carriage return. *)
Fixpoint no_carriage_return (s : string) : Prop :=
  match s with
  | EmptyString => True
  | String c s' => c ≠ Py.CR ∧ no_carriage_return s'
  end.

(** [AIDataProcessor(path).op()] on a readable and writable file that holds
    the characters [file]: [_read_file] opens the file in text mode, so
    that [self.content] is [file] with its line ends read as line feeds,
    and [_write_file] puts the text on the file with its line feeds as they
    are, as a system does whose line separator is the line feed.  The
    result is what the operation returns or raises, and the characters of
    the file afterwards. *)
Definition run_on_file {A} (op : option string → io A) (file : string)
    (stdin : list string) : (exn + A) * string :=
  run (op (Some (Py.universal_newlines file))) file stdin.

(** [name] is a top-level section of [content]: a line of [content] is its
    marker. *)
Definition has_section (content name : string) : Prop :=
  ("## " +:+ name) ∈ Py.split_lines content.

(** [missing] lists, in the order of the mandatory sections, exactly the
    mandatory sections that [content] does not have, and there is at least
    one. *)
Definition sections_missing (content : string) (missing : list string) : Prop :=
  missing ≠ [] ∧
  sublist missing AIDataProcessor.mandatory_sections ∧
  ∀ section, section ∈ AIDataProcessor.mandatory_sections →
             section ∈ missing ↔ ¬ has_section content section.


(** A document that names the seven mandatory sections in subsection lines
    only, and has no top-level section but CREATED. *)
Definition subsections_only : string :=
  Py.join Py.nl
    ["# AI LEARNING FILE: notes"; "## CREATED"; "2024-01-01 00:00:00";
     "### FILE METADATA"; "### DOMAIN CONTEXT"; "### KNOWLEDGE REPRESENTATION";
     "### VALIDATION FRAMEWORK"; "### APPLICATION CONTEXT";
     "### EVOLUTION TRACKING"; "### AUTOMATED LEARNINGS"].

(** [generate_hash] on the file that holds [file] returns success, reports
    a hash and leaves the file with the very characters it had. *)
Definition writes_back_identical (file : string) : Prop :=
  ∃ h, run_on_file AIDataProcessor.generate_hash file [] =
       (inr (true, "Integrity hash updated: SHA256-" +:+ h), file).

(** Two lines that end with a carriage return and a line feed, and a
    third. *)
Definition notes_with_carriage_returns : string :=
  "# AI LEARNING FILE: notes" +:+ String Py.CR Py.nl +:+
  "## DOMAIN CONTEXT" +:+ String Py.CR Py.nl +:+ "text".

(** [add_checkpoint] with the given time and description, on the file that
    holds [file]. *)
Definition add_checkpoint_on_file (timestamp description file : string)
    : (exn + bool * string) * string :=
  run_on_file (λ content, AIDataProcessor.add_checkpoint content timestamp description)
              file [].

(** [tracked_without_history] with line ends of two characters. *)
Definition tracked_with_carriage_returns : string :=
  "# AI LEARNING FILE: notes" +:+ String Py.CR Py.nl +:+
  "## EVOLUTION TRACKING" +:+ String Py.CR Py.nl +:+
  "notes" +:+ String Py.CR Py.nl +:+ "## AUTOMATED LEARNINGS".

(** ** Facts about the string primitives *)

Section PyFacts.

Import Py.

Lemma append_nil_l (s : string) : "" +:+ s = s.
Proof. reflexivity. Qed.

Lemma append_cons (c : ascii) (s t : string) :
  String c s +:+ t = String c (s +:+ t).
Proof. reflexivity. Qed.

Lemma append_nil_r (s : string) : s +:+ "" = s.
Proof.
  induction s as [|c s IH]; [reflexivity |]. by rewrite append_cons, IH.
Qed.

Lemma append_assoc (s t u : string) : (s +:+ t) +:+ u = s +:+ t +:+ u.
Proof.
  induction s as [|c s IH]; [reflexivity |]. by rewrite !append_cons, IH.
Qed.

Lemma startswith_append (p rest : string) : startswith (p +:+ rest) p = true.
Proof.
  induction p as [|c p IH]; [reflexivity |].
  rewrite append_cons. simpl. rewrite Ascii.eqb_refl. exact IH.
Qed.

Lemma startswith_inv (s p : string) :
  startswith s p = true → ∃ rest, s = p +:+ rest.
Proof.
  revert s. induction p as [|c p IH]; intros s H; simpl in *.
  - by exists s.
  - destruct s as [|d s]; [done |].
    apply andb_true_iff in H as [Hc Hs].
    apply Ascii.eqb_eq in Hc as ->.
    destruct (IH _ Hs) as [rest ->]. by exists rest.
Qed.

Lemma contains_here (s sub : string) : startswith s sub = true → contains s sub = true.
Proof. intros H. destruct s; simpl; rewrite H; done. Qed.

Lemma contains_occurs (s sub : string) : contains s sub = true ↔ occurs sub s.
Proof.
  split.
  - induction s as [|c s IH]; simpl; intros H.
    + rewrite orb_false_r in H. apply startswith_inv in H as [rest ->].
      by exists "", rest.
    + apply orb_true_iff in H as [H | H].
      * apply startswith_inv in H as [rest ->]. by exists "", rest.
      * destruct (IH H) as (pre & post & ->). by exists (String c pre), post.
  - intros (pre & post & ->). induction pre as [|c pre IH].
    + rewrite append_nil_l. apply contains_here, startswith_append.
    + rewrite append_cons. simpl. rewrite IH. apply orb_true_r.
Qed.

Lemma not_contains_occurs (s sub : string) : contains s sub = false ↔ ¬ occurs sub s.
Proof.
  rewrite <- contains_occurs. destruct (contains s sub); naive_solver.
Qed.

Lemma single_line_append (s t : string) :
  single_line (s +:+ t) ↔ single_line s ∧ single_line t.
Proof.
  induction s as [|c s IH].
  - rewrite append_nil_l. simpl. tauto.
  - rewrite append_cons. simpl. tauto.
Qed.

Lemma split_lines_nonempty (s : string) : split_lines s ≠ [].
Proof.
  destruct s as [|c s]; simpl; [done |].
  destruct (Ascii.eqb c LF); [done |]. by destruct (split_lines s).
Qed.

Lemma join_cons_char (sep : string) (c : ascii) (x : string) (l : list string) :
  join sep (String c x :: l) = String c (join sep (x :: l)).
Proof. by destruct l. Qed.

Lemma join_cons_cons (sep x y : string) (l : list string) :
  join sep (x :: y :: l) = x +:+ sep +:+ join sep (y :: l).
Proof. reflexivity. Qed.

(** Joining the lines of a text gives the text back. *)
Lemma join_split_lines (s : string) : join nl (split_lines s) = s.
Proof.
  induction s as [|c s IH]; [done |]. simpl.
  destruct (Ascii.eqb_spec c LF) as [-> | Hc].
  - pose proof (split_lines_nonempty s) as Hne.
    destruct (split_lines s) as [|x l]; [done |].
    by rewrite join_cons_cons, IH.
  - pose proof (split_lines_nonempty s) as Hne.
    destruct (split_lines s) as [|x l]; [done |].
    by rewrite join_cons_char, IH.
Qed.

Lemma split_lines_single_line (s : string) : Forall single_line (split_lines s).
Proof.
  induction s as [|c s IH]; simpl; [by repeat constructor |].
  destruct (Ascii.eqb_spec c LF) as [-> | Hc]; [by constructor |].
  destruct IH as [|x l Hx Hl]; by repeat constructor.
Qed.

Lemma split_lines_one (s : string) : single_line s → split_lines s = [s].
Proof.
  induction s as [|c s IH]; [done |]. simpl. intros [Hc Hs].
  destruct (Ascii.eqb_spec c LF); [done |]. by rewrite IH.
Qed.

Lemma split_lines_append (s rest : string) :
  single_line s → split_lines (s +:+ nl +:+ rest) = s :: split_lines rest.
Proof.
  induction s as [|c s IH].
  - intros _. by rewrite append_nil_l.
  - simpl. intros [Hc Hs].
    destruct (Ascii.eqb_spec c LF); [done |]. by rewrite IH.
Qed.

(** Splitting joined lines gives the lines back, when none of them holds a
    line feed. *)
Lemma split_lines_join (l : list string) :
  l ≠ [] → Forall single_line l → split_lines (join nl l) = l.
Proof.
  induction l as [|x l IH]; [done |]. intros _ Hl.
  apply Forall_cons in Hl as [Hx Hl]. destruct l as [|y l].
  - by apply split_lines_one.
  - rewrite join_cons_cons, split_lines_append by done. by rewrite IH.
Qed.

Lemma join_empty (l1 l2 : list string) (x : string) :
  join nl (l1 ++ x :: l2) = "" → x = "".
Proof.
  induction l1 as [|y l1 IH]; simpl.
  - destruct l2; [done |]. by destruct x.
  - destruct (l1 ++ x :: l2) eqn:E; [by destruct l1 |].
    by destruct y.
Qed.

End PyFacts.

(** ** Facts about the patterns and the bounded loops *)

Section ReFacts.

Import Py.

Lemma match_at_spec (pat : list Re.atom) (s m rest : string) :
  Re.match_at pat s = Some (m, rest) →
  String.length m = length pat ∧ s = m +:+ rest.
Proof.
  revert s m. induction pat as [|a pat IH]; intros s m; simpl.
  - by intros [= <- <-].
  - destruct s as [|c s]; [done |]. destruct (Re.atom_matches a c); [|done].
    destruct (Re.match_at pat s) as [[m' rest']|] eqn:Hm; [|done].
    intros [= <- <-]. destruct (IH _ _ Hm) as [Hlen ->]. simpl. by rewrite Hlen.
Qed.

Lemma search_spec (pat : list Re.atom) (s pre m rest : string) :
  Re.search pat s = Some (pre, m, rest) →
  Re.match_at pat (m +:+ rest) = Some (m, rest) ∧ s = pre +:+ m +:+ rest.
Proof.
  revert pre. induction s as [|c s IH]; intros pre; simpl.
  - destruct (Re.match_at pat "") as [[m' rest']|] eqn:Hm; [|done].
    intros [= <- <- <-]. by destruct (match_at_spec _ _ _ _ Hm) as [_ <-].
  - destruct (Re.match_at pat (String c s)) as [[m' rest']|] eqn:Hm.
    + intros [= <- <- <-]. by destruct (match_at_spec _ _ _ _ Hm) as [_ <-].
    + destruct (Re.search pat s) as [[[pre' m'] rest']|] eqn:Hs; [|done].
      intros [= <- <- <-]. by destruct (IH _ eq_refl) as [? ->].
Qed.

Lemma length_drop (n : nat) (s : string) :
  String.length (drop n s) = String.length s - n.
Proof.
  revert s. induction n as [|n IH]; intros [|c s]; simpl; done.
Qed.

Lemma length_append (s t : string) :
  String.length (s +:+ t) = String.length s + String.length t.
Proof.
  induction s as [|c s IH]; [done |]. rewrite append_cons. simpl. by rewrite IH.
Qed.

Lemma search_shorter (pat : list Re.atom) (s pre m rest : string) :
  pat ≠ [] → Re.search pat s = Some (pre, m, rest) →
  String.length rest < String.length s.
Proof.
  intros Hpat Hs. apply search_spec in Hs as [Hm ->].
  apply match_at_spec in Hm as [Hlen _].
  rewrite !length_append, Hlen. destruct pat; [done |]. simpl. lia.
Qed.

Lemma search_empty (pat : list Re.atom) : pat ≠ [] → Re.search pat "" = None.
Proof. by destruct pat. Qed.

(** [Re.split] sees every match: more fuel than the length of the text
    changes nothing. *)
Lemma split_from_enough (pat : list Re.atom) (n m : nat) (s : string) :
  pat ≠ [] → String.length s ≤ n → String.length s ≤ m →
  Re.split_from n pat s = Re.split_from m pat s.
Proof.
  intros Hpat. revert m s. induction n as [|n IH]; intros m s Hn Hm.
  - destruct s; [|simpl in Hn; lia]. destruct m; [done |].
    cbn [Re.split_from]. by rewrite search_empty.
  - destruct m as [|m].
    + destruct s; [|simpl in Hm; lia]. cbn [Re.split_from]. by rewrite search_empty.
    + cbn [Re.split_from].
      destruct (Re.search pat s) as [[[pre mt] rest]|] eqn:Hs; [|done].
      apply search_shorter in Hs; [|done]. do 2 f_equal. apply IH; lia.
Qed.

(** [replace] reads the whole text: more fuel than its length changes
    nothing. *)
Lemma replace_from_enough (n m : nat) (s old new : string) :
  old ≠ "" → String.length s ≤ n → String.length s ≤ m →
  replace_from n s old new = replace_from m s old new.
Proof.
  intros Hold. revert m s. induction n as [|n IH]; intros m s Hn Hm.
  - destruct s; [|simpl in Hn; lia]. destruct m; simpl; [done |].
    by destruct old.
  - destruct m as [|m].
    + destruct s; [|simpl in Hm; lia]. simpl. by destruct old.
    + simpl. destruct (startswith s old) eqn:Hstart.
      * f_equal. apply startswith_inv in Hstart as [rest ->].
        apply IH; rewrite length_drop; rewrite length_append in *;
          destruct old; simpl in *; (done || lia).
      * destruct s as [|c s]; [done |]. f_equal. apply IH; simpl in *; lia.
Qed.

End ReFacts.

(** ** Validation of the mandatory sections *)

Section Validation.

Import Py AIDataProcessor.

(** A duplicate-free list has one sublist per choice of members. *)
Lemma sublist_filter {A} (f : A → bool) (l m : list A) :
  NoDup m → sublist l m → (∀ x, x ∈ m → x ∈ l ↔ f x = true) →
  l = List.filter f m.
Proof.
  intros Hnd Hsub. induction Hsub as [|x l m Hsub IH|x l m Hsub IH]; intros Hf.
  - done.
  - apply NoDup_cons in Hnd as [Hx Hnd]. simpl.
    assert (f x = true) as -> by (apply Hf; left).
    f_equal. apply IH; [done |]. intros y Hy. split.
    + intros Hl. apply Hf; by right.
    + intros Hfy. apply Hf in Hfy; [|by right].
      apply elem_of_cons in Hfy as [-> | Hl]; done.
  - apply NoDup_cons in Hnd as [Hx Hnd]. simpl.
    destruct (f x) eqn:Hfx.
    + apply Hf in Hfx; [|left]. destruct Hx. by eapply elem_of_sublist.
    + apply IH; [done |]. intros y Hy. apply Hf. by right.
Qed.

Lemma mandatory_sections_NoDup : NoDup mandatory_sections.
Proof. apply (bool_decide_unpack _). vm_compute. exact I. Qed.

Lemma missing_exactly_filter (content : string) (missing : list string) :
  missing_exactly content missing →
  missing = List.filter (λ section, negb (contains content ("## " +:+ section)))
                        mandatory_sections.
Proof.
  intros (_ & Hsub & Hmem).
  apply sublist_filter; [apply mandatory_sections_NoDup | done |].
  intros section Hin. rewrite (Hmem _ Hin), <- not_contains_occurs.
  by destruct (contains content ("## " +:+ section)).
Qed.

Lemma filter_sublist {A} (f : A → bool) (m : list A) : sublist (List.filter f m) m.
Proof.
  induction m as [|x m IH]; simpl; [constructor |].
  destruct (f x); by constructor.
Qed.

Lemma missing_exactly_check (content : string) (missing : list string) :
  missing ≠ [] →
  missing = List.filter (λ section, negb (contains content ("## " +:+ section)))
                        mandatory_sections →
  missing_exactly content missing.
Proof.
  intros Hnil ->. split; [done |]. split; [apply filter_sublist |].
  intros section Hin. rewrite <- not_contains_occurs, list_elem_of_In, filter_In.
  rewrite <- list_elem_of_In, negb_true_iff. tauto.
Qed.


End Validation.

(** ** The section validator *)

Section SectionValidator.

Import Py AIDataValidator.

Local Arguments contains : simpl never.

Lemma sort_sections_spec (content : string)
    (sections missing_sections present_sections : list string) :
  sort_sections content sections missing_sections present_sections =
  (missing_sections ++
     List.filter (λ section, negb (contains content ("## " +:+ section))) sections,
   present_sections ++
     List.filter (λ section, contains content ("## " +:+ section)) sections).
Proof.
  revert missing_sections present_sections.
  induction sections as [|section sections IH]; intros missing present; simpl.
  - by rewrite !app_nil_r.
  - destruct (contains content ("## " +:+ section)); simpl; rewrite IH;
      by rewrite <- app_assoc.
Qed.

(** [validate_sections] has no guard on empty content: on every document
    that misses mandatory sections, the empty one included, it prints one
    line for each missing section and returns failure with the sections that
    are present. *)
Lemma validate_sections_reports_missing (file_path content error : string)
    (missing : list string) :
  missing_exactly content missing →
  validate_sections file_path (Some content) error =
  (("[FAIL] Missing mandatory sections in " +:+ file_path +:+ ":")
     :: ((λ section, "  - " +:+ section) <$> missing),
   (false,
    List.filter (λ section, contains content ("## " +:+ section)) mandatory_sections)).
Proof.
  intros Hmissing. pose proof (missing_exactly_filter _ _ Hmissing) as Hfilter.
  destruct Hmissing as [Hnil _]. unfold validate_sections.
  rewrite sort_sections_spec, !app_nil_l.
  change mandatory_sections with AIDataProcessor.mandatory_sections.
  rewrite <- Hfilter. by rewrite bool_decide_eq_false_2.
Qed.

End SectionValidator.

(** ** The integrity hash *)

Section IntegrityHash.

Import Py AIDataProcessor.

Local Arguments SHA256.hexdigest : simpl never.
Local Arguments startswith : simpl never.
Local Arguments contains : simpl never.

Lemma hex_digit_not_LF (d : Z) : SHA256.hex_digit d ≠ LF.
Proof. unfold SHA256.hex_digit. repeat case_match; done. Qed.

Lemma hex_single_line (n : nat) (x : Z) : single_line (SHA256.hex n x).
Proof. induction n as [|n IH]; simpl; [done |]. split; [apply hex_digit_not_LF | done]. Qed.

Lemma hexdigest_single_line (s : string) : single_line (SHA256.hexdigest s).
Proof.
  unfold SHA256.hexdigest, SHA256.hex_state.
  repeat (apply single_line_append; split); apply hex_single_line.
Qed.

Lemma hash_line_single_line (s : string) :
  single_line (hash_prefix +:+ SHA256.hexdigest s).
Proof.
  apply single_line_append. split; [|apply hexdigest_single_line].
  vm_compute. repeat split; discriminate.
Qed.

Lemma hash_line_is_hash_line (h : string) : is_hash_line (hash_prefix +:+ h) = true.
Proof. apply startswith_append. Qed.

(** The first loop of [generate_hash] keeps the lines that are not hash
    lines and remembers the last hash line. *)
Lemma scan_hash_lines_spec (i : nat) (lines filtered_lines : list string)
    (hash_line_index : option nat) :
  scan_hash_lines i lines filtered_lines hash_line_index =
  (filtered_lines ++ hashed_lines lines,
   match last_hash_line lines with
   | Some k => Some (i + k)
   | None => hash_line_index
   end).
Proof.
  revert i filtered_lines hash_line_index.
  induction lines as [|line lines IH]; intros i f idx.
  - simpl. by rewrite app_nil_r.
  - unfold hashed_lines. simpl. unfold is_hash_line.
    destruct (startswith line hash_prefix); simpl; rewrite IH.
    + destruct (last_hash_line lines); do 2 f_equal; lia.
    + rewrite <- app_assoc. destruct (last_hash_line lines); [|reflexivity].
      change (S i + n) with (S (i + n)). by rewrite Nat.add_succ_r.
Qed.

Lemma generate_hash_eq (content : string) :
  content ≠ "" →
  generate_hash (Some content) =
  WriteFile (join nl (stamped_lines (split_lines content))) (λ written,
    if written
    then Ret (true, "Integrity hash updated: SHA256-" +:+
                    SHA256.hexdigest (join nl (hashed_lines (split_lines content))))
    else Ret write_failed).
Proof.
  intros Hne. unfold generate_hash, stamped_lines, new_hash_line.
  destruct content as [|c content]; [done |].
  rewrite scan_hash_lines_spec. simpl app.
  by destruct (last_hash_line _).
Qed.

Lemma last_hash_line_None (lines : list string) :
  last_hash_line lines = None ↔ hashed_lines lines = lines.
Proof.
  unfold hashed_lines. induction lines as [|line lines IH]; simpl; [done |].
  destruct (last_hash_line lines) as [k|].
  - split; [done |]. destruct (is_hash_line line); simpl; intros H.
    + pose proof (filter_length_le (λ l, negb (is_hash_line l)) lines) as Hle.
      rewrite H in Hle. simpl in Hle. lia.
    + injection H as H. by apply IH in H.
  - destruct (is_hash_line line); simpl.
    + split; [done |]. intros H.
      pose proof (filter_length_le (λ l, negb (is_hash_line l)) lines) as Hle.
      rewrite H in Hle. simpl in Hle. lia.
    + split; [|done]. intros _. f_equal. by apply IH.
Qed.

Lemma hashed_lines_app (l1 l2 : list string) :
  hashed_lines (l1 ++ l2) = hashed_lines l1 ++ hashed_lines l2.
Proof. apply List.filter_app. Qed.

Lemma hashed_lines_hash_line (line : string) (lines : list string) :
  is_hash_line line = true → hashed_lines (line :: lines) = hashed_lines lines.
Proof. unfold hashed_lines. simpl. by intros ->. Qed.

(** The last hash line splits the lines in two, with no hash line after
    it. *)
Lemma last_hash_line_Some (lines : list string) (i : nat) :
  last_hash_line lines = Some i →
  ∃ l1 line l2, lines = l1 ++ line :: l2 ∧ length l1 = i ∧
                is_hash_line line = true ∧ last_hash_line l2 = None.
Proof.
  revert i. induction lines as [|x lines IH]; intros i; simpl; [done |].
  destruct (last_hash_line lines) as [k|] eqn:Hk.
  - intros [= <-]. destruct (IH k eq_refl) as (l1 & line & l2 & -> & <- & Hline & Hl2).
    by exists (x :: l1), line, l2.
  - destruct (is_hash_line x) eqn:Hx; [|done]. intros [= <-].
    by exists [], x, lines.
Qed.

Lemma last_hash_line_middle (l1 l2 : list string) (line : string) :
  is_hash_line line = true → last_hash_line l2 = None →
  last_hash_line (l1 ++ line :: l2) = Some (length l1).
Proof.
  intros Hline Hl2. induction l1 as [|x l1 IH]; simpl.
  - by rewrite Hl2, Hline.
  - by rewrite IH.
Qed.

Lemma insert_middle (l1 l2 : list string) (x y : string) :
  <[length l1 := y]> (l1 ++ x :: l2) = l1 ++ y :: l2.
Proof.
  rewrite insert_app_r_alt by lia. by rewrite Nat.sub_diag.
Qed.

(** Where the second loop of [generate_hash] puts the hash line. *)
Lemma insert_hash_line_shape (i : nat) (rest lines : list string) (hash_line : string) :
  insert_hash_line i rest lines hash_line = lines ∨
  ∃ l1 l2, lines = l1 ++ l2 ∧ insert_hash_line i rest lines hash_line = l1 ++ hash_line :: l2.
Proof.
  revert i. induction rest as [|line rest IH]; intros i; simpl; [by left |].
  destruct (String.eqb line "## FILE METADATA"); [|apply IH].
  right. eexists _, _. split; [|reflexivity]. by rewrite firstn_skipn.
Qed.

(** What a run of [generate_hash] does to the lines: nothing, or it puts a
    hash line where none follows, leaving the hashed lines as they were. *)
Lemma stamped_lines_shape (lines : list string) :
  stamped_lines lines = lines ∨
  ∃ l1 l2, stamped_lines lines = l1 ++ new_hash_line lines :: l2 ∧
           hashed_lines (l1 ++ l2) = hashed_lines lines ∧
           last_hash_line l2 = None ∧
           (Forall single_line lines → Forall single_line (l1 ++ l2)).
Proof.
  unfold stamped_lines. destruct (last_hash_line lines) as [i|] eqn:Hlast.
  - right. apply last_hash_line_Some in Hlast as (l1 & line & l2 & -> & <- & Hline & Hl2).
    exists l1, l2. rewrite insert_middle. split; [done |]. split; [|split; [done |]].
    + by rewrite !hashed_lines_app, hashed_lines_hash_line.
    + rewrite !Forall_app, Forall_cons. tauto.
  - destruct (insert_hash_line_shape 0 lines lines (new_hash_line lines))
      as [-> | (l1 & l2 & Hlines & ->)]; [by left | right].
    exists l1, l2. split; [done |]. rewrite <- Hlines. split; [done |]. split; [|done].
    apply last_hash_line_None in Hlast. rewrite Hlines, hashed_lines_app in Hlast.
    apply last_hash_line_None.
    pose proof (filter_length_le (λ l, negb (is_hash_line l)) l1) as H1.
    pose proof (filter_length_le (λ l, negb (is_hash_line l)) l2) as H2.
    apply (f_equal length) in Hlast as Hlen. rewrite !length_app in Hlen.
    unfold hashed_lines in *.
    apply app_inj_2 in Hlast as [_ ?]; [done | lia].
Qed.

(** A second run on the lines of the first run changes nothing. *)
Lemma stamped_lines_idempotent (lines : list string) :
  hashed_lines (stamped_lines lines) = hashed_lines lines ∧
  stamped_lines (stamped_lines lines) = stamped_lines lines.
Proof.
  destruct (stamped_lines_shape lines) as [Heq | (l1 & l2 & Hst & Hh & Hl2 & _)];
    [by rewrite !Heq |].
  assert (hashed_lines (stamped_lines lines) = hashed_lines lines) as Hsame.
  { rewrite Hst, hashed_lines_app, hashed_lines_hash_line, <- hashed_lines_app;
      [done | apply hash_line_is_hash_line]. }
  split; [done |]. unfold stamped_lines at 1, new_hash_line at 1. rewrite Hsame.
  fold (new_hash_line lines). rewrite Hst.
  rewrite last_hash_line_middle; [|apply hash_line_is_hash_line | done].
  apply insert_middle.
Qed.

(** The text written by a run reads back as the lines that were joined. *)
Lemma split_lines_stamped (content : string) :
  content ≠ "" →
  join nl (stamped_lines (split_lines content)) ≠ "" ∧
  split_lines (join nl (stamped_lines (split_lines content))) =
  stamped_lines (split_lines content).
Proof.
  intros Hne.
  destruct (stamped_lines_shape (split_lines content))
    as [Heq | (l1 & l2 & Hst & _ & _ & Hsingle)].
  - by rewrite Heq, join_split_lines.
  - rewrite Hst. split.
    + intros Hempty. by apply join_empty in Hempty.
    + apply split_lines_join; [by destruct l1 |].
      specialize (Hsingle (split_lines_single_line content)).
      apply Forall_app in Hsingle as [H1 H2].
      apply Forall_app. split; [done |]. constructor; [|done].
      apply hash_line_single_line.
Qed.

(** C4: [generate_hash] is idempotent.  On every file, a second run right
    after the first returns what the first returned, the same hash in the
    same message, and leaves the file as the first run left it. *)
Theorem generate_hash_idempotent (file : string) :
  run_on generate_hash (run_on generate_hash file []).2 [] =
  run_on generate_hash file [].
Proof.
  destruct (decide (file = "")) as [-> | Hne]; [done |].
  unfold run_on at 2 3. rewrite generate_hash_eq by done. simpl.
  destruct (split_lines_stamped file Hne) as [Hne1 Hsplit].
  unfold run_on. rewrite generate_hash_eq by done. simpl.
  rewrite Hsplit.
  by destruct (stamped_lines_idempotent (split_lines file)) as [-> ->].
Qed.

Lemma hashed_lines_same (lines1 lines2 : list string) :
  Forall2 (λ line1 line2,
             line1 = line2 ∨ (is_hash_line line1 = true ∧ is_hash_line line2 = true))
          lines1 lines2 →
  hashed_lines lines1 = hashed_lines lines2.
Proof.
  unfold hashed_lines.
  induction 1 as [|x y l1 l2 [-> | [Hx Hy]] _ IH]; simpl; [done | |].
  - by rewrite IH.
  - by rewrite Hx, Hy.
Qed.

Lemma same_but_hash_lines_empty (content1 content2 : string) :
  same_but_hash_lines content1 content2 → content1 = "" → content2 = "".
Proof.
  unfold same_but_hash_lines. intros H ->. simpl in H.
  apply Forall2_cons_inv_l in H as (y & l & Hy & Hl & Hsplit).
  apply Forall2_nil_inv_l in Hl as ->.
  destruct Hy as [<- | [? _]]; [|done].
  by rewrite <- (join_split_lines content2), Hsplit.
Qed.

(** C5: two documents that differ only in the text of their hash lines get
    the same result from [generate_hash], with the same hash in the message:
    the hash is computed from the other lines alone. *)
Theorem generate_hash_ignores_hash_lines (content1 content2 : string) :
  same_but_hash_lines content1 content2 →
  (run_on generate_hash content1 []).1 = (run_on generate_hash content2 []).1.
Proof.
  intros Hsame. destruct (decide (content1 = "")) as [H1 | H1].
  - by rewrite H1, (same_but_hash_lines_empty _ _ Hsame H1).
  - assert (content2 ≠ "") as H2.
    { intros H2. apply H1. apply (same_but_hash_lines_empty content2 content1); [|done].
      unfold same_but_hash_lines in *. eapply Forall2_flip, Forall2_impl; [done |].
      simpl. intros x y [-> | [Hx Hy]]; [by left | by right]. }
    unfold run_on. rewrite !generate_hash_eq by done. simpl.
    by rewrite (hashed_lines_same _ _ Hsame).
Qed.

(** Two documents with a different stale hash. *)
Lemma generate_hash_ignores_hash_lines_witness :
  (run_on generate_hash
     (join nl ["## FILE METADATA"; "- **Integrity Hash**: SHA256-0000"; "## DOMAIN CONTEXT"])
     []).1 =
  (run_on generate_hash
     (join nl ["## FILE METADATA"; "- **Integrity Hash**: SHA256-stale"; "## DOMAIN CONTEXT"])
     []).1.
Proof.
  apply (generate_hash_ignores_hash_lines
           (join nl ["## FILE METADATA"; "- **Integrity Hash**: SHA256-0000"; "## DOMAIN CONTEXT"])
           (join nl ["## FILE METADATA"; "- **Integrity Hash**: SHA256-stale"; "## DOMAIN CONTEXT"])).
  unfold same_but_hash_lines. apply (bool_decide_unpack _). vm_compute. exact I.
Defined.

Lemma insert_hash_line_absent (i : nat) (rest lines : list string) (hash_line : string) :
  (∀ line, line ∈ rest → line ≠ "## FILE METADATA") →
  insert_hash_line i rest lines hash_line = lines.
Proof.
  revert i. induction rest as [|line rest IH]; intros i Hrest; simpl; [done |].
  destruct (String.eqb_spec line "## FILE METADATA") as [-> | _].
  - destruct (Hrest "## FILE METADATA"); [left | done].
  - apply IH. intros l Hl. apply Hrest. by right.
Qed.

Lemma hashed_lines_all (lines : list string) :
  (∀ line, line ∈ lines → is_hash_line line = false) → hashed_lines lines = lines.
Proof.
  unfold hashed_lines. induction lines as [|line lines IH]; intros H; simpl; [done |].
  rewrite (H line) by left. simpl. f_equal. apply IH. intros l Hl. apply H. by right.
Qed.

(** On a text that is not empty, with no hash line and no line equal to
    the FILE METADATA marker, [generate_hash] writes the text back as it
    is, and once the write went through it reports success with the hash
    of the whole text. *)
Lemma generate_hash_rewrites_text (content : string) :
  content ≠ "" →
  no_hash_line_no_metadata content →
  rewrites_unchanged content (SHA256.hexdigest content).
Proof.
  intros Hne Hlines. unfold rewrites_unchanged. rewrite generate_hash_eq by done.
  assert (hashed_lines (split_lines content) = split_lines content) as Hall.
  { apply hashed_lines_all. intros line Hline. by apply Hlines. }
  unfold stamped_lines. rewrite (proj2 (last_hash_line_None _) Hall).
  rewrite insert_hash_line_absent by (intros line Hline; by apply Hlines).
  by rewrite Hall, join_split_lines.
Qed.

End IntegrityHash.

(** ** The metadata of the JSON export *)

Section JsonMetadata.

Import Py AIDataProcessor.

Local Arguments startswith : simpl never.

Lemma metadata_group_text (s g : string) : metadata_group s = Some g → metadata_text g.
Proof.
  revert g. induction s as [|c s IH]; intros g; simpl.
  - destruct (metadata_lookahead ""); [by intros [= <-] | done].
  - destruct (metadata_lookahead (String c s)); [by intros [= <-] |].
    destruct (metadata_class c) eqn:Hc; [|done].
    destruct (metadata_group s) as [g'|]; [|done].
    intros [= <-]. split; [done | by apply IH].
Qed.

Lemma metadata_search_text (s g : string) : metadata_search s = Some g → metadata_text g.
Proof.
  induction s as [|c s IH]; simpl; [done |].
  destruct (startswith _ _); [|exact IH].
  destruct (metadata_group _) eqn:Hg; [|exact IH].
  intros [= <-]. by eapply metadata_group_text.
Qed.

Lemma metadata_class_not_LF (c : ascii) : metadata_class c = true → c ≠ LF.
Proof. by intros H ->. Qed.

Lemma metadata_text_single_line (s : string) : metadata_text s → single_line s.
Proof.
  induction s as [|c s IH]; [done |]. intros [Hc Hs].
  split; [by apply metadata_class_not_LF | by apply IH].
Qed.

Lemma metadata_text_no_bullet (s : string) :
  metadata_text s → startswith s "- **" = false.
Proof.
  destruct s as [|c s]; [done |]. intros [Hc _].
  unfold startswith. destruct (Ascii.eqb_spec "-" c) as [<- | _]; done.
Qed.

(** What the pattern captures holds no line of metadata: [to_json] never
    puts an entry in the mapping. *)
Lemma to_json_metadata_empty (content : string) :
  content ≠ "" → to_json_metadata (Some content) = Some ∅.
Proof.
  intros Hne. unfold to_json_metadata. destruct content as [|c content]; [done |].
  destruct (metadata_search _) as [g|] eqn:Hg; [|done].
  apply metadata_search_text in Hg.
  rewrite split_lines_one by by apply metadata_text_single_line.
  simpl. unfold add_metadata_line. by rewrite metadata_text_no_bullet.
Qed.

(** C2 fails on the code: the FILE METADATA section of [scenario_A] holds
    three lines of the shape [- **Key**: Value], which the line pattern of
    [to_json] takes apart into key and value, and the mapping that [to_json]
    builds is empty. *)
Theorem to_json_metadata_scenario_A :
  (match_key_value <$> ["- **Schema Version**: 1.0"; "- **Confidence Level**: high";
                        "- **Classification**: public"]) =
  [Some ("Schema Version", "1.0"); Some ("Confidence Level", "high");
   Some ("Classification", "public")] ∧
  to_json_metadata (Some scenario_A) = Some ∅.
Proof. split; [by vm_compute | by apply to_json_metadata_empty]. Qed.

End JsonMetadata.

(** ** Where [add_checkpoint] reads past the last line *)

Section Checkpoints.

Import Py AIDataProcessor.

Local Arguments startswith : simpl never.
Local Arguments contains : simpl never.

(** Before the EVOLUTION TRACKING marker the first loop changes no flag. *)
Lemma find_checkpoint_slot_before (i : nat) (before rest : list string)
    (in_checkpoint_section checkpoint_section_found : bool) :
  (∀ line, line ∈ before → contains line "## EVOLUTION TRACKING" = false) →
  find_checkpoint_slot i (before ++ rest) false in_checkpoint_section
                       checkpoint_section_found =
  find_checkpoint_slot (i + length before) rest false in_checkpoint_section
                       checkpoint_section_found.
Proof.
  revert i. induction before as [|line before IH]; intros i Hbefore; simpl.
  - by rewrite Nat.add_0_r.
  - rewrite (Hbefore line) by left. simpl.
    rewrite IH by (intros l Hl; apply Hbefore; by right).
    f_equal. lia.
Qed.


Lemma create_checkpoint_section_before (i : nat) (before rest lines : list string)
    (checkpoint_entry : string) :
  (∀ line, line ∈ before → contains line "## EVOLUTION TRACKING" = false) →
  create_checkpoint_section i (before ++ rest) lines checkpoint_entry =
  create_checkpoint_section (i + length before) rest lines checkpoint_entry.
Proof.
  revert i. induction before as [|line before IH]; intros i Hbefore; simpl.
  - by rewrite Nat.add_0_r.
  - rewrite (Hbefore line) by left.
    rewrite IH by (intros l Hl; apply Hbefore; by right).
    f_equal. lia.
Qed.




End Checkpoints.

(** ** Where [add_checkpoint] does add the checkpoint *)

Section CheckpointsAdded.

Import Py AIDataProcessor.

Local Arguments startswith : simpl never.
Local Arguments contains : simpl never.

Lemma insert_at_split {A} (l l1 l2 : list A) (x : A) (i : nat) :
  l = l1 ++ l2 → i = length l1 → insert_at i x l = l1 ++ x :: l2.
Proof.
  intros -> ->. unfold insert_at. by rewrite take_app_length, drop_app_length.
Qed.

(** Inside the section and before any Checkpoint History, the first loop
    passes over the lines that show no Checkpoint History. *)
Lemma find_checkpoint_slot_tracking (i : nat) (mid rest : list string) :
  (∀ line, line ∈ mid →
           contains line "## EVOLUTION TRACKING" = true ∨
           contains line "### Checkpoint History" = false) →
  find_checkpoint_slot i (mid ++ rest) true false false =
  find_checkpoint_slot (i + length mid) rest true false false.
Proof.
  revert i. induction mid as [|line mid IH]; intros i Hmid; simpl.
  - by rewrite Nat.add_0_r.
  - assert (∀ l, l ∈ mid → contains l "## EVOLUTION TRACKING" = true ∨
                           contains l "### Checkpoint History" = false) as Hmid'
      by (intros l Hl; apply Hmid; by right).
    replace (i + S (length mid)) with (S i + length mid) by lia.
    destruct (Hmid line) as [-> | Hch]; [left | by apply IH |].
    rewrite Hch. destruct (contains line "## EVOLUTION TRACKING"); by apply IH.
Qed.

(** Inside the Checkpoint History, the first loop passes over the lines
    that are no top-level marker. *)
Lemma find_checkpoint_slot_history (i : nat) (mid rest : list string) :
  (∀ line, line ∈ mid →
           contains line "## EVOLUTION TRACKING" = true ∨
           contains line "### Checkpoint History" = true ∨
           (startswith line "## " = false ∧ contains line "- ****:" = false)) →
  find_checkpoint_slot i (mid ++ rest) true true true =
  find_checkpoint_slot (i + length mid) rest true true true.
Proof.
  revert i. induction mid as [|line mid IH]; intros i Hmid; simpl.
  - by rewrite Nat.add_0_r.
  - assert (∀ l, l ∈ mid →
                 contains l "## EVOLUTION TRACKING" = true ∨
                 contains l "### Checkpoint History" = true ∨
                 (startswith l "## " = false ∧ contains l "- ****:" = false)) as Hmid'
      by (intros l Hl; apply Hmid; by right).
    replace (i + S (length mid)) with (S i + length mid) by lia.
    destruct (Hmid line) as [-> | [Hch | [Hstart Hstars]]]; [left | by apply IH | |].
    + rewrite Hch. destruct (contains line "## EVOLUTION TRACKING"); by apply IH.
    + rewrite Hstart, Hstars.
      destruct (contains line "## EVOLUTION TRACKING"),
               (contains line "### Checkpoint History"); by apply IH.
Qed.

(** With a Checkpoint History in the EVOLUTION TRACKING section and a
    top-level marker further down, the entry, which ends with a line feed,
    goes in right before that marker. *)
Lemma add_checkpoint_before_next_section
    (content timestamp description : string)
    (before mid1 mid2 after : list string) (evolution history next : string) :
  split_lines content =
    before ++ evolution :: mid1 ++ history :: mid2 ++ next :: after →
  (∀ line, line ∈ before → contains line "## EVOLUTION TRACKING" = false) →
  contains evolution "## EVOLUTION TRACKING" = true →
  (∀ line, line ∈ mid1 →
           contains line "## EVOLUTION TRACKING" = true ∨
           contains line "### Checkpoint History" = false) →
  contains history "## EVOLUTION TRACKING" = false →
  contains history "### Checkpoint History" = true →
  (∀ line, line ∈ mid2 →
           contains line "## EVOLUTION TRACKING" = true ∨
           contains line "### Checkpoint History" = true ∨
           (startswith line "## " = false ∧ contains line "- ****:" = false)) →
  startswith next "## " = true →
  contains next "## EVOLUTION TRACKING" = false →
  contains next "### Checkpoint History" = false →
  add_checkpoint (Some content) timestamp description =
  WriteFile
    (join nl (before ++ evolution :: mid1 ++ history :: mid2 ++
              ("- **" +:+ timestamp +:+ "**: " +:+ description +:+ nl) :: next :: after))
    (checkpoint_added description).
Proof.
  intros Hsplit Hbefore Hevolution Hmid1 Hhistory1 Hhistory2 Hmid2 Hnext1 Hnext2 Hnext3.
  unfold add_checkpoint. destruct content as [|c content].
  { destruct before as [|x [|y before]]; simplify_eq/=. }
  rewrite Hsplit.
  rewrite find_checkpoint_slot_before by done. simpl find_checkpoint_slot.
  rewrite Hevolution, find_checkpoint_slot_tracking by done.
  simpl find_checkpoint_slot. rewrite Hhistory1, Hhistory2. simpl.
  rewrite find_checkpoint_slot_history by done. simpl find_checkpoint_slot.
  rewrite Hnext1, Hnext2, Hnext3. simpl. unfold checkpoint_added. f_equal. f_equal.
  rewrite (insert_at_split _ (before ++ evolution :: mid1 ++ history :: mid2)
                           (next :: after)).
  - by repeat (rewrite <- ?app_assoc; simpl).
  - by repeat (rewrite <- ?app_assoc; simpl).
  - rewrite !length_app. simpl. rewrite !length_app. simpl. lia.
Qed.

Lemma evolution_section_end_stops (j : nat) (mid after : list string) (next : string) :
  (∀ line, line ∈ mid →
           startswith line "## " = false ∨
           contains line "## EVOLUTION TRACKING" = true) →
  startswith next "## " = true →
  contains next "## EVOLUTION TRACKING" = false →
  evolution_section_end j (mid ++ next :: after) = inr (j + length mid).
Proof.
  intros Hmid Hnext1 Hnext2. revert j.
  induction mid as [|line mid IH]; intros j; simpl.
  - by rewrite Hnext1, Hnext2, Nat.add_0_r.
  - assert (negb (startswith line "## ") || contains line "## EVOLUTION TRACKING" = true)
      as ->.
    { destruct (Hmid line) as [-> | ->]; [left | done |]. apply orb_true_r. }
    rewrite IH by (intros l Hl; apply Hmid; by right). f_equal. lia.
Qed.

(** Without a Checkpoint History, and with a top-level marker after the
    EVOLUTION TRACKING section, a new Checkpoint History goes in right
    before that marker: an empty line, the heading, and the entry with its
    end stripped. *)
Lemma add_checkpoint_creates_history
    (content timestamp description : string)
    (before mid after : list string) (evolution next : string) :
  split_lines content = before ++ evolution :: mid ++ next :: after →
  (∀ line, line ∈ before → contains line "## EVOLUTION TRACKING" = false) →
  contains evolution "## EVOLUTION TRACKING" = true →
  (∀ line, line ∈ mid ++ next :: after →
           contains line "## EVOLUTION TRACKING" = true ∨
           contains line "### Checkpoint History" = false) →
  (∀ line, line ∈ mid →
           startswith line "## " = false ∨
           contains line "## EVOLUTION TRACKING" = true) →
  startswith next "## " = true →
  contains next "## EVOLUTION TRACKING" = false →
  add_checkpoint (Some content) timestamp description =
  WriteFile
    (join nl (before ++ evolution :: mid ++
              (nl +:+ "### Checkpoint History") ::
              rstrip ("- **" +:+ timestamp +:+ "**: " +:+ description +:+ nl) ::
              next :: after))
    (checkpoint_added description).
Proof.
  intros Hsplit Hbefore Hevolution Hhistory Hmid Hnext1 Hnext2.
  unfold add_checkpoint. destruct content as [|c content].
  { destruct before as [|x [|y before]]; simplify_eq/=. }
  rewrite Hsplit.
  rewrite find_checkpoint_slot_before by done. simpl find_checkpoint_slot.
  rewrite Hevolution.
  rewrite <- (app_nil_r (mid ++ next :: after)) at 1.
  rewrite find_checkpoint_slot_tracking by done. simpl find_checkpoint_slot.
  cbv beta iota zeta.
  rewrite create_checkpoint_section_before by done. simpl create_checkpoint_section.
  rewrite Hevolution, evolution_section_end_stops by done.
  unfold checkpoint_added. f_equal. f_equal.
  rewrite (insert_at_split (before ++ evolution :: mid ++ next :: after)
                           (before ++ evolution :: mid) (next :: after)).
  - rewrite (insert_at_split _ (before ++ evolution :: mid ++ [nl +:+ "### Checkpoint History"])
                             (next :: after)).
    + by repeat (rewrite <- ?app_assoc; simpl).
    + by repeat (rewrite <- ?app_assoc; simpl).
    + rewrite !length_app. simpl. rewrite !length_app. simpl. lia.
  - by repeat (rewrite <- ?app_assoc; simpl).
  - rewrite !length_app. simpl. lia.
Qed.

Example add_checkpoint_into_history :
  add_checkpoint (Some tracked_with_history) "2024-06-01T00:00:00Z" "second" =
  WriteFile
    (join nl ["# AI LEARNING FILE: notes"; "## EVOLUTION TRACKING";
              "### Checkpoint History"; "- **2024-01-01T00:00:00Z**: first";
              "- **2024-06-01T00:00:00Z**: second"; ""; "## AUTOMATED LEARNINGS"])
    (checkpoint_added "second").
Proof.
  etrans.
  - apply (add_checkpoint_before_next_section
             tracked_with_history "2024-06-01T00:00:00Z" "second"
             ["# AI LEARNING FILE: notes"] [] ["- **2024-01-01T00:00:00Z**: first"] []
             "## EVOLUTION TRACKING" "### Checkpoint History" "## AUTOMATED LEARNINGS").
    + vm_compute. reflexivity.
    + intros line ->%list_elem_of_singleton. vm_compute. reflexivity.
    + vm_compute. reflexivity.
    + by intros line ?%elem_of_nil.
    + vm_compute. reflexivity.
    + vm_compute. reflexivity.
    + intros line ->%list_elem_of_singleton. right. right. vm_compute. done.
    + vm_compute. reflexivity.
    + vm_compute. reflexivity.
    + vm_compute. reflexivity.
  - f_equal.
Qed.

Example add_checkpoint_new_history :
  add_checkpoint (Some tracked_without_history) "2024-06-01T00:00:00Z" "second" =
  WriteFile
    (join nl ["# AI LEARNING FILE: notes"; "## EVOLUTION TRACKING"; "notes"; "";
              "### Checkpoint History"; "- **2024-06-01T00:00:00Z**: second";
              "## AUTOMATED LEARNINGS"])
    (checkpoint_added "second").
Proof.
  etrans.
  - apply (add_checkpoint_creates_history
             tracked_without_history "2024-06-01T00:00:00Z" "second"
             ["# AI LEARNING FILE: notes"] ["notes"] []
             "## EVOLUTION TRACKING" "## AUTOMATED LEARNINGS").
    + vm_compute. reflexivity.
    + intros line ->%list_elem_of_singleton. vm_compute. reflexivity.
    + vm_compute. reflexivity.
    + intros line Hline. right.
      repeat (apply elem_of_cons in Hline as [-> | Hline]; [vm_compute; reflexivity |]).
      by apply elem_of_nil in Hline.
    + intros line ->%list_elem_of_singleton. left. vm_compute. reflexivity.
    + vm_compute. reflexivity.
    + vm_compute. reflexivity.
  - f_equal.
Qed.

End CheckpointsAdded.

(** ** What [add_checkpoint] keeps *)

Section CheckpointsKept.

Import Py AIDataProcessor.

Local Arguments startswith : simpl never.
Local Arguments contains : simpl never.

Lemma split_lines_append_any (s rest : string) :
  split_lines (s +:+ nl +:+ rest) = split_lines s ++ split_lines rest.
Proof.
  induction s as [|c s IH]; [done |]. simpl.
  destruct (Ascii.eqb c LF); rewrite IH; [done |].
  pose proof (split_lines_nonempty s). by destruct (split_lines s).
Qed.

(** The lines of joined texts are the lines of each text in turn. *)
Lemma split_lines_join_any (l : list string) :
  l ≠ [] → split_lines (join nl l) = l ≫= split_lines.
Proof.
  induction l as [|x l IH]; [done |]. intros _. destruct l as [|y l].
  - simpl. by rewrite app_nil_r.
  - rewrite join_cons_cons, split_lines_append_any, IH by done. done.
Qed.

Lemma bind_split_lines (l : list string) :
  Forall single_line l → l ≫= split_lines = l.
Proof.
  induction 1 as [|x l Hx _ IH]; [done |].
  rewrite bind_cons, IH, split_lines_one by done. done.
Qed.

Lemma insert_at_sublist (i : nat) (x : string) (l : list string) :
  sublist (l ≫= split_lines) (insert_at i x l ≫= split_lines).
Proof.
  unfold insert_at. rewrite <- (firstn_skipn i l) at 1.
  rewrite !bind_app, bind_cons.
  apply sublist_app; [done |]. apply sublist_inserts_l. done.
Qed.

Lemma split_lines_bind_nonempty (l : list string) : l ≠ [] → l ≫= split_lines ≠ [].
Proof.
  destruct l as [|x l]; [done |]. intros _. rewrite bind_cons.
  pose proof (split_lines_nonempty x). by destruct (split_lines x).
Qed.

(** The second half of C3 holds on the code: whatever [add_checkpoint]
    writes holds every line of the document, in the same order. *)
Lemma add_checkpoint_keeps_lines (content timestamp description updated : string)
    (k : bool → io (bool * string)) :
  add_checkpoint (Some content) timestamp description = WriteFile updated k →
  sublist (split_lines content) (split_lines updated).
Proof.
  unfold add_checkpoint. destruct content as [|c content]; [done |].
  set (lines := split_lines (String c content)).
  set (entry := "- **" +:+ timestamp +:+ "**: " +:+ description +:+ nl).
  assert (lines ≠ []) as Hne by apply split_lines_nonempty.
  assert (lines ≫= split_lines = lines) as Hlines
    by apply bind_split_lines, split_lines_single_line.
  destruct (find_checkpoint_slot 0 lines false false false) as [slot found].
  assert (∀ lines', lines' ≠ [] → sublist lines (lines' ≫= split_lines) →
            WriteFile (join nl lines') (λ written,
              if written then Ret (true, "Checkpoint added: " +:+ description)
              else Ret write_failed) = WriteFile updated k →
            sublist lines (split_lines updated)) as Hwrite.
  { intros lines' Hne' Hsub [= <- _]. by rewrite split_lines_join_any. }
  assert (∀ i (x : string) l, l ≠ [] → insert_at i x l ≠ []) as Hins.
  { intros i x l _. unfold insert_at. by destruct (firstn i l). }
  assert (∀ ls, ls ≠ [] → sublist lines (ls ≫= split_lines) →
          ∀ i rest lines', create_checkpoint_section i rest ls entry = inr lines' →
                           lines' ≠ [] ∧ sublist lines (lines' ≫= split_lines))
    as Hcreate.
  { intros ls Hls Hsub i rest. revert i.
    induction rest as [|line rest IH]; intros i lines'; simpl.
    - by intros [= <-].
    - destruct (contains line "## EVOLUTION TRACKING"); [|apply IH].
      destruct (evolution_section_end (S i) rest) as [e|j]; [done |].
      intros [= <-]. split; [by apply Hins, Hins |].
      etrans; [exact Hsub |].
      etrans; [apply (insert_at_sublist j (nl +:+ "### Checkpoint History")) |].
      apply insert_at_sublist. }
  set (ls := match slot with Some i => insert_at i entry lines | None => lines end).
  assert (ls ≠ [] ∧ sublist lines (ls ≫= split_lines)) as [Hls Hsub].
  { subst ls. destruct slot as [i|].
    - split; [by apply Hins |]. rewrite <- Hlines at 1. apply insert_at_sublist.
    - by rewrite Hlines. }
  destruct found; [by apply Hwrite |].
  destruct (create_checkpoint_section 0 ls ls entry) as [e|lines'] eqn:Hc; [done |].
  destruct (Hcreate _ Hls Hsub _ _ _ Hc) as [Hne' Hsub']. by apply Hwrite.
Qed.

End CheckpointsKept.

(** ** Where [add_checkpoint] adds nothing *)

Section CheckpointsMissed.

Import Py AIDataProcessor.

(** C3 fails on the code: the Checkpoint History of
    [checkpoint_history_last] is followed by no top-level marker, and
    [add_checkpoint] reports a checkpoint added while the file stays as it
    was, with no new checkpoint line. *)
Theorem add_checkpoint_adds_nothing :
  run_on (λ content, add_checkpoint content "2024-06-01T00:00:00Z" "second")
         checkpoint_history_last [] =
  (inr (true, "Checkpoint added: second"), checkpoint_history_last).
Proof. by vm_compute. Qed.

End CheckpointsMissed.

(** ** The identity of learning entries *)

Section EntryIdentity.

Import Py AIDataProcessor.

(** The timestamp of a header is empty, or 19 characters that start with a
    digit. *)
Lemma entry_timestamp_shape (header : string) :
  entry_timestamp header = "" ∨
  ∃ c t, entry_timestamp header = String c t ∧ Re.is_digit c = true ∧
         String.length t = 18.
Proof.
  unfold entry_timestamp.
  destruct (Re.search Re.timestamp header) as [[[pre m] rest]|] eqn:Hs; [|by left].
  right. apply search_spec in Hs as [Hm _].
  pose proof (match_at_spec _ _ _ _ Hm) as [Hlen _].
  destruct m as [|c t]; [done |]. exists c, t. split; [done |].
  simpl in *. destruct (Re.is_digit c); [|done]. split; [done | lia].
Qed.

Lemma append_inj_length (a b c d : string) :
  String.length a = String.length c → a +:+ b = c +:+ d → a = c ∧ b = d.
Proof.
  revert c. induction a as [|x a IH]; intros [|y c]; simpl; try done.
  intros [= Hlen] [= -> Heq]. by destruct (IH _ Hlen Heq) as [-> ->].
Qed.

Lemma first_five_lines_join (entry_content : string) :
  split_lines (join nl (first_five_lines entry_content)) =
  first_five_lines entry_content.
Proof.
  unfold first_five_lines. apply split_lines_join.
  - pose proof (split_lines_nonempty (strip entry_content)).
    by destruct (split_lines (strip entry_content)).
  - apply Forall_take, split_lines_single_line.
Qed.

(** Two entries have the same identifier exactly when they have the same
    timestamp and the same first five lines of stripped text. *)
Lemma entry_identifier_inj (header1 content1 header2 content2 : string) :
  entry_identifier header1 content1 = entry_identifier header2 content2 ↔
  entry_timestamp header1 = entry_timestamp header2 ∧
  first_five_lines content1 = first_five_lines content2.
Proof.
  unfold entry_identifier. split; [|by intros [-> ->]].
  intros Hid.
  assert (entry_timestamp header1 = entry_timestamp header2 ∧
          join nl (first_five_lines content1) = join nl (first_five_lines content2))
    as [Ht Hj].
  { destruct (entry_timestamp_shape header1) as [H1 | (c1 & t1 & H1 & Hd1 & Hl1)],
             (entry_timestamp_shape header2) as [H2 | (c2 & t2 & H2 & Hd2 & Hl2)];
      rewrite H1, H2 in *.
    - split; [done |]. by injection Hid.
    - injection Hid as <- _. done.
    - injection Hid as -> _. done.
    - apply append_inj_length in Hid as [? [= ?]]; [done |]. simpl. by rewrite Hl1, Hl2. }
  split; [done |].
  by rewrite <- (first_five_lines_join content1), Hj, first_five_lines_join.
Qed.

(** The loop of [deduplicate_learnings] compares the SHA-256 of the
    identifiers: where these two hashes do not collide, two entries count
    as the same entry exactly when timestamp and first five lines agree. *)
Lemma entry_hash_same (header1 content1 header2 content2 : string) :
  (SHA256.hexdigest (entry_identifier header1 content1) =
   SHA256.hexdigest (entry_identifier header2 content2) →
   entry_identifier header1 content1 = entry_identifier header2 content2) →
  SHA256.hexdigest (entry_identifier header1 content1) =
  SHA256.hexdigest (entry_identifier header2 content2) ↔
  entry_timestamp header1 = entry_timestamp header2 ∧
  first_five_lines content1 = first_five_lines content2.
Proof.
  intros Hfree. rewrite <- entry_identifier_inj. split; [done | by intros ->].
Qed.

End EntryIdentity.

(** ** What the loop of [deduplicate_learnings] keeps *)

Section EntriesKept.

Import Py AIDataProcessor.

Local Arguments SHA256.hexdigest : simpl never.
Local Arguments entry_identifier : simpl never.

Lemma pairs_ind (P : list string → Prop) :
  P [] → (∀ x, P [x]) → (∀ x y l, P l → P (x :: y :: l)) → ∀ l, P l.
Proof.
  intros Hnil Hone Hstep.
  assert (∀ l, P l ∧ ∀ x, P (x :: l)) as H; [|intros l; apply H].
  induction l as [|y l [IH1 IH2]]; [by split |].
  split; [apply IH2 |]. intros x. by apply Hstep.
Qed.

Lemma collision_free_subseteq (l1 l2 : list (string * string)) :
  l1 ⊆ l2 → collision_free l2 → collision_free l1.
Proof. intros Hsub Hfree e1 e2 H1 H2. apply Hfree; by apply Hsub. Qed.

(** Where hashes tell identifiers apart, the loop keeps an entry exactly
    when no entry kept before has its timestamp and its first five lines,
    and counts the others. *)
Lemma keep_first_entries_spec (pairs reconstructed : list string)
    (seen_hashes : gset string) (count : nat) (kept : list (string * string)) :
  collision_free (kept ++ entry_pairs pairs) →
  (∀ h, h ∈ seen_hashes ↔
        ∃ e, e ∈ kept ∧ h = SHA256.hexdigest (entry_identifier e.1 e.2)) →
  (keep_first_entries pairs reconstructed seen_hashes count).1 =
    reconstructed ++ (first_entries kept (entry_pairs pairs) ≫= λ e, [e.1; e.2]) ∧
  (keep_first_entries pairs reconstructed seen_hashes count).2 +
    length (first_entries kept (entry_pairs pairs)) =
    count + length (entry_pairs pairs).
Proof.
  revert reconstructed seen_hashes count kept.
  induction pairs as [|x|header entry_content pairs IH] using pairs_ind;
    intros reconstructed seen_hashes count kept Hfree Hseen.
  - simpl. by rewrite app_nil_r.
  - simpl. by rewrite app_nil_r.
  - cbn [keep_first_entries entry_pairs first_entries].
    set (e := (header, entry_content)).
    change (entry_pairs (header :: entry_content :: pairs))
      with (e :: entry_pairs pairs) in Hfree.
    assert (SHA256.hexdigest (entry_identifier header entry_content) ∈ seen_hashes ↔
            Exists (same_entry e) kept) as Hin.
    { rewrite Hseen, Exists_exists. split.
      - intros (e' & He' & Hhash). exists e'. split; [done |].
        apply entry_identifier_inj. apply (Hfree e e'); [|by apply elem_of_app; left | done].
        apply elem_of_app. right. left.
      - intros (e' & He' & Hsame%entry_identifier_inj). exists e'. split; [done |].
        simpl in Hsame. by rewrite Hsame. }
    destruct (decide (Exists (same_entry e) kept)) as [Hdup | Hnew].
    + rewrite (bool_decide_eq_true_2 _ Hdup).
      rewrite (bool_decide_eq_true_2 _ (proj2 Hin Hdup)).
      destruct (IH reconstructed seen_hashes (S count) kept) as [IH1 IH2]; [|done |].
      { eapply collision_free_subseteq; [|done].
        intros x Hx. rewrite elem_of_app, elem_of_cons. apply elem_of_app in Hx. tauto. }
      split; [done |]. simpl. lia.
    + rewrite (bool_decide_eq_false_2 _ Hnew).
      rewrite bool_decide_eq_false_2 by (by rewrite Hin).
      destruct (IH (reconstructed ++ [header; entry_content])
                   ({[SHA256.hexdigest (entry_identifier header entry_content)]} ∪ seen_hashes)
                   count (e :: kept)) as [IH1 IH2].
      { eapply collision_free_subseteq; [|done].
        intros x Hx. rewrite elem_of_app, elem_of_cons.
        apply elem_of_app in Hx. rewrite elem_of_cons in Hx. tauto. }
      { intros h. rewrite elem_of_union, elem_of_singleton, Hseen. split.
        - intros [-> | (e' & He' & ->)]; [exists e; split; [left | done] |].
          exists e'. split; [by right | done].
        - intros (e' & [-> | He']%elem_of_cons & ->); [by left | right; by exists e']. }
      split.
      * rewrite IH1, bind_cons, <- app_assoc. done.
      * simpl. lia.
Qed.

(** From the start of the loop: the entries kept are the first of each
    timestamp and first five lines, in their order, and every other entry
    is counted as a duplicate. *)
Lemma keep_first_entries_first (pairs preamble : list string) :
  collision_free (entry_pairs pairs) →
  (keep_first_entries pairs preamble ∅ 0).1 =
    preamble ++ (first_entries [] (entry_pairs pairs) ≫= λ e, [e.1; e.2]) ∧
  (keep_first_entries pairs preamble ∅ 0).2 +
    length (first_entries [] (entry_pairs pairs)) = length (entry_pairs pairs).
Proof.
  intros Hfree. apply (keep_first_entries_spec pairs preamble ∅ 0 []); [done |].
  intros h. split; [by intros ?%elem_of_empty | by intros (e & He%elem_of_nil & _)].
Qed.

Lemma collision_free_Forall (entries : list (string * string)) :
  Forall (λ e1, Forall (λ e2,
    SHA256.hexdigest (entry_identifier e1.1 e1.2) =
    SHA256.hexdigest (entry_identifier e2.1 e2.2) →
    entry_identifier e1.1 e1.2 = entry_identifier e2.1 e2.2) entries) entries →
  collision_free entries.
Proof.
  intros Hall e1 e2 H1 H2. rewrite Forall_forall in Hall.
  specialize (Hall e1 H1). rewrite Forall_forall in Hall. by apply Hall.
Qed.

(** The entries that [deduplicate_learnings] reads in
    [learned_three_times]. *)
Example learned_three_times_entries :
  entry_pairs (tail (Re.split entry_header (drop 23 learned_three_times))) =
  three_entries.
Proof. vm_compute. reflexivity. Qed.

(** Their hashes differ where their identifiers do. *)
Example three_entries_collision_free : collision_free three_entries.
Proof. apply collision_free_Forall, (bool_decide_unpack _). vm_compute. exact I. Qed.

(** The loop keeps the first and the third. *)
Example three_entries_first :
  first_entries [] three_entries =
  [(nl +:+ "### Learning Entry - 2024-01-01 10:00:00" +:+ nl,
    join nl ["a"; "b"; "c"; "d"; "e"; "f"]);
   (nl +:+ "### Learning Entry - 2024-01-01 10:00:00" +:+ nl,
    join nl ["a"; "b"; "c"; "d"; "x"; "f"])].
Proof. vm_compute. reflexivity. Qed.

(** The second entry goes, for its first five lines are those of the first;
    the third stays. *)
Example learned_three_times_deduplicated :
  deduplicate_auto learned_three_times =
  (inr (true, "Successfully deduplicated. Removed 1 duplicate entries."),
   join nl
     ["## AUTOMATED LEARNINGS";
      "### Learning Entry - 2024-01-01 10:00:00"; "a"; "b"; "c"; "d"; "e"; "f";
      "### Learning Entry - 2024-01-01 10:00:00"; "a"; "b"; "c"; "d"; "x"; "f"]).
Proof. vm_compute. reflexivity. Qed.

End EntriesKept.

(** ** Entries that stay, and entries that go on a second run *)

Section EntriesMissed.

Import Py AIDataProcessor.

(** C6 fails on the code: the two entries of [twice_learned_compact] have
    the same timestamp and the same text, the first follows the section
    marker directly, and [deduplicate_learnings] removes none of them. *)
Theorem deduplicate_keeps_first_line_duplicate :
  deduplicate_auto twice_learned_compact =
  (inr (true, "Successfully deduplicated. Removed 0 duplicate entries."),
   twice_learned_compact).
Proof. by vm_compute. Qed.

(** C7 fails on the code: on [bare_entries] the first run removes nothing
    and strips the end of the text; the second run then removes an entry
    and leaves a different text. *)
Theorem deduplicate_twice_removes_again :
  deduplicate_auto bare_entries =
  (inr (true, "Successfully deduplicated. Removed 0 duplicate entries."),
   join nl ["## AUTOMATED LEARNINGS"; "Preamble";
            "### Learning Entry - 2024-01-01 10:00:00";
            "### Learning Entry - 2024-01-02 10:00:00";
            "### Learning Entry - 2024-01-01 10:00:00"; "";
            "### Learning Entry - 2024-01-02 10:00:00"]) ∧
  deduplicate_auto (deduplicate_auto bare_entries).2 =
  (inr (true, "Successfully deduplicated. Removed 1 duplicate entries."),
   join nl ["## AUTOMATED LEARNINGS"; "Preamble";
            "### Learning Entry - 2024-01-01 10:00:00";
            "### Learning Entry - 2024-01-02 10:00:00"]).
Proof. split; by vm_compute. Qed.

End EntriesMissed.

(** ** Interactive confirmation *)

Section Confirmation.

Import Py AIDataProcessor.

Lemma lower_char_y (c : ascii) : lower_char c = "y"%char → c = "y"%char ∨ c = "Y"%char.
Proof.
  destruct c as [[] [] [] [] [] [] [] []]; vm_compute; intros H;
    first [discriminate H | by left | by right].
Qed.

(** Only [y] and [Y] are [y] in lower case. *)
Lemma lower_y (response : string) :
  lower response = "y" → response = "y" ∨ response = "Y".
Proof.
  destruct response as [|c [|d response]]; simpl; [done | | done].
  intros [= H]. by destruct (lower_char_y c H) as [-> | ->]; [left | right].
Qed.

(** C8, with the upper-case answer: when duplicates are found and
    auto-confirm is off, [deduplicate_learnings] asks on the terminal, and
    every answer other than [y] and [Y] makes it return failure without
    writing the file. *)
Theorem deduplicate_asks_for_confirmation (content : string) :
  finds_duplicates content →
  asks_and_aborts_unless (λ response, response = "y" ∨ response = "Y") content.
Proof.
  intros (l & Hread & Hcount). exists (duplicate_count l).
  unfold deduplicate_learnings. destruct content as [|c content]; [done |].
  rewrite Hread. apply Nat.ltb_lt in Hcount as ->. simpl.
  eexists. split; [reflexivity |]. intros response Hresponse. simpl.
  destruct (String.eqb_spec (lower response) "y") as [Hy | _]; [|done].
  by apply lower_y in Hy.
Qed.

Lemma twice_learned_duplicates : finds_duplicates twice_learned.
Proof.
  eexists. split; [by vm_compute |]. simpl. lia.
Qed.

(** A document with one duplicate entry. *)
Lemma deduplicate_asks_for_confirmation_witness :
  asks_and_aborts_unless (λ response, response = "y" ∨ response = "Y") twice_learned.
Proof.
  apply (deduplicate_asks_for_confirmation twice_learned).
  eexists. split; [by vm_compute |]. simpl. lia.
Defined.

(** C8 as stated fails on the answer [Y]: it is not [y], and the operation
    goes on to write the file. *)
Lemma deduplicate_accepts_upper_case :
  ¬ ∀ content, finds_duplicates content →
               asks_and_aborts_unless (λ response, response = "y") content.
Proof.
  intros H. destruct (H twice_learned twice_learned_duplicates) as (n & k & Hk & Habort).
  specialize (Habort "Y"). vm_compute in Hk. injection Hk as _ <-.
  by discriminate Habort.
Qed.

End Confirmation.

(** ** The scenarios of the specification *)

Section Scenarios.

Import Py AIDataProcessor.

(** Scenario A: the document validates; [generate_hash] puts a hash line at
    the end of the FILE METADATA section; the result validates again. *)
Example scenario_A_validates :
  validate_syntax (Some scenario_A) = (true, "Syntax validation passed.").
Proof. by vm_compute. Qed.

Example scenario_A_hashed :
  ∃ h, split_lines (run_on generate_hash scenario_A []).2 =
       firstn 7 (split_lines scenario_A) ++
       ("- **Integrity Hash**: SHA256-" +:+ h) :: skipn 7 (split_lines scenario_A) ∧
       validate_syntax (Some (run_on generate_hash scenario_A []).2) =
       (true, "Syntax validation passed.").
Proof. eexists. split; by vm_compute. Qed.

(** Scenario B: validation fails and names VALIDATION FRAMEWORK alone. *)
Example scenario_B_fails :
  validate_syntax (Some scenario_B) =
  (false, "Missing mandatory sections: VALIDATION FRAMEWORK").
Proof. by vm_compute. Qed.

(** Scenario C, with a blank line after the section marker: one of the two
    entries is removed. *)
Example scenario_C_removes_one :
  deduplicate_auto twice_learned =
  (inr (true, "Successfully deduplicated. Removed 1 duplicate entries."),
   join nl ["## AUTOMATED LEARNINGS";
            "### Learning Entry - 2024-01-01 10:00:00"; "A"]).
Proof. by vm_compute. Qed.

End Scenarios.

(** ** More on [generate_hash]: what is written, and where *)

Section IntegrityHashWritten.

Import Py AIDataProcessor.

Local Arguments SHA256.hexdigest : simpl never.
Local Arguments startswith : simpl never.
Local Arguments contains : simpl never.

Lemma run_generate_hash (content : string) :
  content ≠ "" →
  run_on generate_hash content [] =
  (inr (true, "Integrity hash updated: SHA256-" +:+
              SHA256.hexdigest (join nl (hashed_lines (split_lines content)))),
   join nl (stamped_lines (split_lines content))).
Proof. intros Hne. unfold run_on. by rewrite generate_hash_eq. Qed.

Lemma last_hash_line_none_elem (lines : list string) (line : string) :
  last_hash_line lines = None → line ∈ lines → is_hash_line line = false.
Proof.
  induction lines as [|x lines IH]; simpl; [by intros _ ?%elem_of_nil |].
  destruct (last_hash_line lines); [done |].
  destruct (is_hash_line x) eqn:Hx; [done |].
  intros _ [-> | Hin]%elem_of_cons; [done | by apply IH].
Qed.

Lemma no_hash_line_last (lines : list string) :
  (∀ line, line ∈ lines → is_hash_line line = false) → last_hash_line lines = None.
Proof. intros H. by apply last_hash_line_None, hashed_lines_all. Qed.

(** With a FILE METADATA marker among the lines still to scan, the second
    loop inserts the hash line. *)
Lemma insert_hash_line_present (i : nat) (rest lines : list string) (hash_line : string) :
  "## FILE METADATA" ∈ rest →
  ∃ l1 l2, lines = l1 ++ l2 ∧
           insert_hash_line i rest lines hash_line = l1 ++ hash_line :: l2.
Proof.
  revert i. induction rest as [|line rest IH]; intros i Hin; simpl.
  - by apply elem_of_nil in Hin.
  - destruct (String.eqb_spec line "## FILE METADATA") as [-> | Hne].
    + eexists _, _. split; [|reflexivity]. by rewrite firstn_skipn.
    + apply elem_of_cons in Hin as [<- | Hin]; [done | by apply IH].
Qed.

Lemma sublist_no_hash_line (l l' : list string) :
  l' ⊆ l → last_hash_line l = None → last_hash_line l' = None.
Proof.
  intros Hsub Hl. apply no_hash_line_last. intros line Hline.
  eapply last_hash_line_none_elem; [done | by apply Hsub].
Qed.

(** With a hash line or a FILE METADATA marker, the run leaves a hash line
    that no hash line follows. *)
Lemma stamped_lines_stamp (lines : list string) :
  (∃ line, line ∈ lines ∧ (is_hash_line line = true ∨ line = "## FILE METADATA")) →
  ∃ l1 l2, stamped_lines lines = l1 ++ new_hash_line lines :: l2 ∧
           last_hash_line l2 = None.
Proof.
  intros (line & Hin & Hline). unfold stamped_lines.
  destruct (last_hash_line lines) as [i|] eqn:Hlast.
  - apply last_hash_line_Some in Hlast as (l1 & x & l2 & -> & <- & Hx & Hl2).
    exists l1, l2. by rewrite insert_middle.
  - destruct Hline as [Hhash | ->].
    { by rewrite (last_hash_line_none_elem _ _ Hlast Hin) in Hhash. }
    destruct (insert_hash_line_present 0 lines lines (new_hash_line lines) Hin)
      as (l1 & l2 & Hlines & ->).
    exists l1, l2. split; [done |].
    eapply sublist_no_hash_line; [|done]. rewrite Hlines.
    intros x Hx. apply elem_of_app. by right.
Qed.

(** X1: after [generate_hash] on a document that has a hash line or a
    FILE METADATA line, the last hash line of the file holds the SHA-256 of
    the file without its hash lines: the file passes its own integrity
    check. *)
Theorem generate_hash_records_hash (content : string) :
  has_hash_or_metadata_line content →
  records_own_hash (run_on generate_hash content []).2.
Proof.
  intros Hline. assert (content ≠ "") as Hne.
  { intros ->. destruct Hline as (line & Hin & Hline).
    apply list_elem_of_singleton in Hin as ->. by destruct Hline. }
  rewrite run_generate_hash by done. simpl. unfold records_own_hash.
  destruct (split_lines_stamped content Hne) as [_ ->].
  destruct (stamped_lines_idempotent (split_lines content)) as [-> _].
  destruct (stamped_lines_stamp _ Hline) as (l1 & l2 & -> & Hl2).
  exists (length l1). split.
  - apply last_hash_line_middle; [apply hash_line_is_hash_line | done].
  - by rewrite list_lookup_middle.
Qed.

Lemma generate_hash_records_hash_witness :
  records_own_hash (run_on generate_hash scenario_A []).2.
Proof.
  apply (generate_hash_records_hash scenario_A).
  exists "## FILE METADATA". split; [|by right].
  apply list_elem_of_In. vm_compute. tauto.
Defined.

(** X2: [generate_hash] touches hash lines only: the lines of the file
    that are not hash lines are the same before and after, in the same
    order. *)
Theorem generate_hash_keeps_other_lines (file : string) :
  hashed_lines (split_lines (run_on generate_hash file []).2) =
  hashed_lines (split_lines file).
Proof.
  destruct (decide (file = "")) as [-> | Hne]; [done |].
  rewrite run_generate_hash by done. simpl.
  destruct (split_lines_stamped file Hne) as [_ ->].
  by destruct (stamped_lines_idempotent (split_lines file)) as [-> _].
Qed.

Lemma metadata_section_end_stops (j : nat) (body rest : list string) :
  (∀ line, line ∈ body → startswith line "## " = false) →
  (∀ next, head rest = Some next → startswith next "## " = true) →
  metadata_section_end j (body ++ rest) = j + length body.
Proof.
  intros Hbody Hrest. revert j. induction body as [|line body IH]; intros j; simpl.
  - destruct rest as [|next rest]; simpl; [lia |].
    rewrite (Hrest next) by done. simpl. lia.
  - rewrite (Hbody line) by left. simpl.
    rewrite IH by (intros l Hl; apply Hbody; by right). lia.
Qed.

Lemma insert_hash_line_before (i : nat) (before rest lines : list string)
    (hash_line : string) :
  (∀ line, line ∈ before → line ≠ "## FILE METADATA") →
  insert_hash_line i (before ++ rest) lines hash_line =
  insert_hash_line (i + length before) rest lines hash_line.
Proof.
  revert i. induction before as [|line before IH]; intros i Hbefore; simpl.
  - by rewrite Nat.add_0_r.
  - destruct (String.eqb_spec line "## FILE METADATA") as [-> | _].
    + destruct (Hbefore "## FILE METADATA"); [left | done].
    + rewrite IH by (intros l Hl; apply Hbefore; by right). f_equal. lia.
Qed.

(** X3: on a document without hash line, [generate_hash] puts the hash
    line at the end of the first FILE METADATA section: after the lines that
    follow the marker and do not start with [## ], in front of the next
    top-level marker or at the end of the text.  The hash is that of the
    whole document. *)
Theorem generate_hash_inserts_in_metadata
    (content : string) (before body rest : list string) :
  split_lines content = before ++ "## FILE METADATA" :: body ++ rest →
  (∀ line, line ∈ split_lines content → is_hash_line line = false) →
  (∀ line, line ∈ before → line ≠ "## FILE METADATA") →
  (∀ line, line ∈ body → startswith line "## " = false) →
  (∀ next, head rest = Some next → startswith next "## " = true) →
  (run_on generate_hash content []).2 =
  join nl (before ++ "## FILE METADATA" :: body ++
           (hash_prefix +:+ SHA256.hexdigest content) :: rest).
Proof.
  intros Hsplit Hhash Hbefore Hbody Hrest. assert (content ≠ "") as Hne.
  { intros ->. destruct before as [|x [|y before]]; simplify_eq/=. }
  rewrite run_generate_hash by done. simpl. f_equal. unfold stamped_lines.
  rewrite no_hash_line_last by done. unfold new_hash_line.
  rewrite hashed_lines_all, join_split_lines by done. rewrite Hsplit.
  rewrite insert_hash_line_before by done. simpl.
  rewrite metadata_section_end_stops by done.
  rewrite (insert_at_split _ (before ++ "## FILE METADATA" :: body) rest).
  - by rewrite <- app_assoc.
  - by rewrite <- app_assoc.
  - rewrite length_app. simpl. lia.
Qed.

Lemma generate_hash_inserts_in_metadata_witness :
  (run_on generate_hash scenario_A []).2 =
  join nl (["# AI LEARNING FILE: notes"; "## CREATED"; "2024-01-01 00:00:00"] ++
           "## FILE METADATA" ::
           ["- **Schema Version**: 1.0"; "- **Confidence Level**: high";
            "- **Classification**: public"] ++
           (hash_prefix +:+ SHA256.hexdigest scenario_A) ::
           ["## DOMAIN CONTEXT"; "## KNOWLEDGE REPRESENTATION";
            "## VALIDATION FRAMEWORK"; "## APPLICATION CONTEXT";
            "## EVOLUTION TRACKING"; "## AUTOMATED LEARNINGS"]).
Proof.
  apply (generate_hash_inserts_in_metadata scenario_A).
  - vm_compute. reflexivity.
  - apply Forall_forall, (bool_decide_unpack _). vm_compute. exact I.
  - apply Forall_forall, (bool_decide_unpack _). vm_compute. exact I.
  - apply Forall_forall, (bool_decide_unpack _). vm_compute. exact I.
  - intros next [= <-]. vm_compute. reflexivity.
Defined.

(** X4: on a document with hash lines, [generate_hash] rewrites the last
    one in place and nothing else: earlier hash lines stay as they are, and
    the new hash is taken over the lines that are not hash lines. *)
Theorem generate_hash_refreshes_last_hash_line
    (content old : string) (l1 l2 : list string) :
  split_lines content = l1 ++ old :: l2 →
  is_hash_line old = true →
  (∀ line, line ∈ l2 → is_hash_line line = false) →
  (run_on generate_hash content []).2 =
  join nl (l1 ++ (hash_prefix +:+ SHA256.hexdigest (join nl (hashed_lines (l1 ++ l2))))
              :: l2).
Proof.
  intros Hsplit Hold Hl2. assert (content ≠ "") as Hne.
  { intros ->. destruct l1 as [|x [|y l1]]; simplify_eq/=. }
  rewrite run_generate_hash by done. simpl. f_equal. unfold stamped_lines.
  rewrite Hsplit.
  rewrite last_hash_line_middle by (by try apply no_hash_line_last).
  rewrite insert_middle. unfold new_hash_line.
  by rewrite !hashed_lines_app, hashed_lines_hash_line.
Qed.

Lemma generate_hash_refreshes_last_hash_line_witness :
  (run_on generate_hash
     (join nl ["- **Integrity Hash**: SHA256-one"; "## FILE METADATA";
               "- **Integrity Hash**: SHA256-two"; "text"]) []).2 =
  join nl (["- **Integrity Hash**: SHA256-one"; "## FILE METADATA"] ++
           (hash_prefix +:+
            SHA256.hexdigest
              (join nl (hashed_lines
                 (["- **Integrity Hash**: SHA256-one"; "## FILE METADATA"] ++ ["text"]))))
           :: ["text"]).
Proof.
  apply (generate_hash_refreshes_last_hash_line _ "- **Integrity Hash**: SHA256-two").
  - vm_compute. reflexivity.
  - vm_compute. reflexivity.
  - apply Forall_forall, (bool_decide_unpack _). vm_compute. exact I.
Defined.

End IntegrityHashWritten.

(** ** More on [validate_syntax]: what passing means *)

Section ValidationPassed.

Import Py AIDataProcessor.

Local Arguments startswith : simpl never.
Local Arguments contains : simpl never.

Lemma filter_nil_inv {A} (f : A → bool) (l : list A) :
  List.filter f l = [] → ∀ x, x ∈ l → f x = false.
Proof.
  induction l as [|y l IH]; simpl; [by intros _ x ?%elem_of_nil |].
  destruct (f y) eqn:Hy; [done |].
  intros Hl x [-> | Hx]%elem_of_cons; [done | by apply IH].
Qed.

Lemma filter_nil_intro {A} (f : A → bool) (l : list A) :
  (∀ x, x ∈ l → f x = false) → List.filter f l = [].
Proof.
  induction l as [|y l IH]; simpl; [done |]. intros H.
  rewrite (H y) by left. apply IH. intros x Hx. apply H. by right.
Qed.

(** X5: a document that [validate_syntax] passes starts with the file
    header, holds the marker of each of the seven mandatory sections and
    holds a CREATED marker, and the timestamp that the CREATED pattern
    finds, if it finds one, is a date and time; the message is the one of
    success. *)
Theorem validate_syntax_passed (content msg : string) :
  validate_syntax (Some content) = (true, msg) →
  startswith content "# AI LEARNING FILE:" = true ∧
  (∀ section, section ∈ mandatory_sections → occurs ("## " +:+ section) content) ∧
  occurs "## CREATED" content ∧
  created_timestamp_ok content ∧
  msg = "Syntax validation passed.".
Proof.
  unfold validate_syntax, created_timestamp_ok.
  destruct content as [|c content]; [done |].
  set (text := String c content).
  destruct (bool_decide_reflect
              (List.filter (λ section, negb (contains text ("## " +:+ section)))
                           mandatory_sections = [])) as [Hmissing | _]; [|done].
  simpl negb. cbv iota.
  destruct (startswith text "# AI LEARNING FILE:") eqn:Hheader; [|done].
  destruct (contains text "## CREATED") eqn:Hcreated; [|done].
  simpl negb. cbv iota.
  destruct (Re.search _ text) as [[[pre m] rest]|]; cbv beta iota.
  - destruct (strptime_ok _) eqn:Hts; simpl negb; cbv iota; [|done].
    destruct (bool_decide _); simpl negb; cbv iota; [|done]. intros [= <-].
    repeat split; try done.
    + intros section Hin. apply contains_occurs.
      apply (filter_nil_inv _ _ Hmissing) in Hin. by apply negb_false_iff in Hin.
    + by apply contains_occurs.
  - cbv iota. destruct (bool_decide _); simpl negb; cbv iota; [|done]. intros [= <-].
    repeat split; try done.
    + intros section Hin. apply contains_occurs.
      apply (filter_nil_inv _ _ Hmissing) in Hin. by apply negb_false_iff in Hin.
    + by apply contains_occurs.
Qed.

Lemma validate_syntax_passed_witness :
  startswith scenario_A "# AI LEARNING FILE:" = true ∧
  (∀ section, section ∈ mandatory_sections → occurs ("## " +:+ section) scenario_A) ∧
  occurs "## CREATED" scenario_A ∧
  created_timestamp_ok scenario_A ∧
  "Syntax validation passed." = "Syntax validation passed.".
Proof.
  apply (validate_syntax_passed scenario_A "Syntax validation passed.").
  vm_compute. reflexivity.
Defined.

Lemma metadata_group_backslash (s g : string) :
  metadata_group s = Some g → occurs (String backslash "") s.
Proof.
  revert g. induction s as [|c s IH]; intros g.
  - intros H. vm_compute in H. done.
  - cbn [metadata_group]. destruct (metadata_lookahead (String c s)) eqn:Hlook.
    + intros _. unfold metadata_lookahead in Hlook.
      apply orb_true_iff in Hlook as [H | H];
        apply startswith_inv in H as [rest ->].
      * by exists "", ("n## " +:+ rest).
      * by exists "", ("Z" +:+ rest).
    + destruct (metadata_class c); [|done].
      destruct (metadata_group s) as [g'|]; [|done]. intros _.
      destruct (IH g' eq_refl) as (pre & post & ->). by exists (String c pre), post.
Qed.

Lemma occurs_drop (sub s : string) (n : nat) : occurs sub (drop n s) → occurs sub s.
Proof.
  revert s. induction n as [|n IH]; intros [|c s]; simpl; try done.
  intros H. destruct (IH _ H) as (pre & post & ->). by exists (String c pre), post.
Qed.

(** The FILE METADATA pattern matches only where a backslash follows. *)
Lemma metadata_search_backslash (s g : string) :
  metadata_search s = Some g → occurs (String backslash "") s.
Proof.
  induction s as [|c s IH]; cbn [metadata_search]; [by destruct (startswith _ _) |].
  assert (metadata_search s = Some g → occurs (String backslash "") (String c s)) as IH'.
  { intros H. destruct (IH H) as (pre & post & ->). by exists (String c pre), post. }
  destruct (startswith _ _); [|exact IH'].
  destruct (metadata_group _) as [g'|] eqn:Hg; [|exact IH'].
  intros _. eapply occurs_drop. by eapply metadata_group_backslash.
Qed.

(** X6: the required metadata fields are never asked for.  A document
    without backslash that starts with the file header, holds the seven
    section markers and a CREATED marker, and whose CREATED timestamp, if
    the pattern finds one, is a date, passes [validate_syntax], whatever its
    FILE METADATA section holds. *)
Theorem validate_syntax_ignores_metadata_fields (content : string) :
  ¬ occurs (String backslash "") content →
  startswith content "# AI LEARNING FILE:" = true →
  (∀ section, section ∈ mandatory_sections → occurs ("## " +:+ section) content) →
  occurs "## CREATED" content →
  created_timestamp_ok content →
  validate_syntax (Some content) = (true, "Syntax validation passed.").
Proof.
  intros Hback Hheader Hsections Hcreated Hts.
  unfold validate_syntax, created_timestamp_ok in *.
  destruct content as [|c content]; [done |].
  set (text := String c content) in *.
  rewrite filter_nil_intro.
  2:{ intros section Hin. apply negb_false_iff, contains_occurs. by apply Hsections. }
  rewrite Hheader. rewrite (proj2 (contains_occurs _ _) Hcreated).
  destruct (metadata_search text) as [g|] eqn:Hg.
  { by apply metadata_search_backslash in Hg. }
  destruct (Re.search _ text) as [[[pre m] rest]|]; [rewrite Hts |]; reflexivity.
Qed.

Lemma validate_syntax_ignores_metadata_fields_witness :
  validate_syntax (Some without_metadata_fields) = (true, "Syntax validation passed.").
Proof.
  apply (validate_syntax_ignores_metadata_fields without_metadata_fields).
  - apply not_contains_occurs. vm_compute. reflexivity.
  - vm_compute. reflexivity.
  - intros section Hin. apply contains_occurs. revert section Hin.
    apply Forall_forall, (bool_decide_unpack _). vm_compute. exact I.
  - apply contains_occurs. vm_compute. reflexivity.
  - vm_compute. reflexivity.
Defined.

End ValidationPassed.

(** ** More on [add_checkpoint]: the file it leaves *)

Section CheckpointsWritten.

Import Py AIDataProcessor.

Local Arguments startswith : simpl never.
Local Arguments contains : simpl never.

Lemma join_app (l1 l2 : list string) :
  l1 ≠ [] → l2 ≠ [] → join nl (l1 ++ l2) = join nl l1 +:+ nl +:+ join nl l2.
Proof.
  intros Hl1 Hl2. induction l1 as [|x l1 IH]; [done |].
  destruct l1 as [|y l1].
  - destruct l2 as [|z l2]; [done |]. apply join_cons_cons.
  - change (join nl ((x :: y :: l1) ++ l2)) with (join nl (x :: y :: l1 ++ l2)).
    rewrite !join_cons_cons. change (y :: l1 ++ l2) with ((y :: l1) ++ l2).
    rewrite IH by done. by rewrite !append_assoc.
Qed.

Lemma evolution_section_end_error (j : nat) (rest : list string) (e : exn) :
  evolution_section_end j rest = inl e →
  e = IndexError ∧
  ∀ line, line ∈ rest →
          startswith line "## " = false ∨ contains line "## EVOLUTION TRACKING" = true.
Proof.
  revert j. induction rest as [|line rest IH]; intros j; simpl.
  - intros [= <-]. split; [done |]. by intros line ?%elem_of_nil.
  - destruct (startswith line "## ") eqn:Hstart; simpl;
      [destruct (contains line "## EVOLUTION TRACKING") eqn:Hev; [|done] |];
      intros [-> Hrest]%IH; (split; [done |]);
      intros l [-> | Hl]%elem_of_cons; auto.
Qed.

Lemma create_checkpoint_section_error (i : nat) (rest lines : list string)
    (entry : string) (e : exn) :
  create_checkpoint_section i rest lines entry = inl e →
  e = IndexError ∧
  ∃ before marker after,
    rest = before ++ marker :: after ∧
    (∀ line, line ∈ before → contains line "## EVOLUTION TRACKING" = false) ∧
    contains marker "## EVOLUTION TRACKING" = true ∧
    ∀ line, line ∈ after →
            startswith line "## " = false ∨ contains line "## EVOLUTION TRACKING" = true.
Proof.
  revert i. induction rest as [|line rest IH]; intros i; simpl; [done |].
  destruct (contains line "## EVOLUTION TRACKING") eqn:Hev.
  - destruct (evolution_section_end (S i) rest) as [e'|j] eqn:Hend; [|done].
    intros [= <-]. apply evolution_section_end_error in Hend as [-> Hrest].
    split; [done |]. exists [], line, rest.
    split; [done |]. split; [by intros l ?%elem_of_nil |]. done.
  - intros (-> & before & marker & after & -> & Hbefore & Hmarker & Hafter)%IH.
    split; [done |]. exists (line :: before), marker, after.
    split; [done |]. split; [|done].
    intros l [-> | Hl]%elem_of_cons; auto.
Qed.

(** The first loop sets both flags at once and inserts only inside the
    Checkpoint History: without a history found, nothing was inserted. *)
Lemma find_checkpoint_slot_found (i : nat) (rest : list string) (tracking : bool)
    (slot : option nat) :
  find_checkpoint_slot i rest tracking false false = (slot, false) → slot = None.
Proof.
  revert i tracking. induction rest as [|line rest IH]; intros i tracking; simpl.
  - by intros [= <-].
  - destruct (contains line "## EVOLUTION TRACKING"); [apply IH |].
    destruct (tracking && contains line "### Checkpoint History") eqn:Hh.
    + clear IH. generalize (S i). intros i'. revert i' slot.
      assert (∀ rest i' b slot, find_checkpoint_slot i' rest b true true ≠ (slot, false))
        as Hfound.
      { clear. induction rest as [|line rest IH]; intros i' b slot; simpl; [done |].
        repeat case_match; try done; apply IH. }
      intros i' slot H. by apply Hfound in H.
    + rewrite !andb_false_r. simpl. apply IH.
Qed.

(** The three ways [add_checkpoint] ends on a text that is not empty. *)
Lemma add_checkpoint_cases (content timestamp description : string) :
  content ≠ "" →
  (add_checkpoint (Some content) timestamp description = Raise IndexError ∧
   ∃ before marker after,
     split_lines content = before ++ marker :: after ∧
     (∀ line, line ∈ before → contains line "## EVOLUTION TRACKING" = false) ∧
     contains marker "## EVOLUTION TRACKING" = true ∧
     ∀ line, line ∈ after →
             startswith line "## " = false ∨ contains line "## EVOLUTION TRACKING" = true) ∨
  ∃ updated,
    add_checkpoint (Some content) timestamp description =
    WriteFile updated (checkpoint_added description).
Proof.
  intros Hne. unfold add_checkpoint. destruct content as [|c content]; [done |].
  destruct (find_checkpoint_slot 0 _ false false false) as [slot found] eqn:Hslot.
  destruct found; [right; by eexists |].
  apply find_checkpoint_slot_found in Hslot as ->.
  destruct (create_checkpoint_section 0 _ _ _) as [e|lines'] eqn:Hcreate;
    [|right; by eexists].
  left. apply create_checkpoint_section_error in Hcreate as [-> Hshape]. done.
Qed.

(** X7: [add_checkpoint] loses no line.  Whatever the document, and
    whether the operation succeeds, dies or refuses, the lines of the file
    before are lines of the file after, in the same order. *)
Theorem add_checkpoint_loses_no_line (timestamp description file : string) :
  sublist (split_lines file) (split_lines (add_checkpoint_on timestamp description file).2).
Proof.
  unfold add_checkpoint_on, run_on.
  destruct (decide (file = "")) as [-> | Hne]; [done |].
  destruct (add_checkpoint_cases file timestamp description Hne)
    as [[-> _] | [updated Hadd]]; [done |].
  rewrite Hadd. simpl.
  by apply (add_checkpoint_keeps_lines file timestamp description updated
                                       (checkpoint_added description)).
Qed.

(** X8: with a Checkpoint History in the EVOLUTION TRACKING section and a
    top-level marker further down, [add_checkpoint] succeeds and the file
    is the old one with the entry, which ends with a line feed, right
    before that marker: after the checkpoints that were there. *)
Theorem add_checkpoint_appends_to_history
    (file timestamp description : string)
    (before mid1 mid2 after : list string) (evolution history next : string) :
  split_lines file =
    before ++ evolution :: mid1 ++ history :: mid2 ++ next :: after →
  (∀ line, line ∈ before → contains line "## EVOLUTION TRACKING" = false) →
  contains evolution "## EVOLUTION TRACKING" = true →
  (∀ line, line ∈ mid1 →
           contains line "## EVOLUTION TRACKING" = true ∨
           contains line "### Checkpoint History" = false) →
  contains history "## EVOLUTION TRACKING" = false →
  contains history "### Checkpoint History" = true →
  (∀ line, line ∈ mid2 →
           contains line "## EVOLUTION TRACKING" = true ∨
           contains line "### Checkpoint History" = true ∨
           (startswith line "## " = false ∧ contains line "- ****:" = false)) →
  startswith next "## " = true →
  contains next "## EVOLUTION TRACKING" = false →
  contains next "### Checkpoint History" = false →
  add_checkpoint_on timestamp description file =
  (inr (true, "Checkpoint added: " +:+ description),
   join nl (before ++ evolution :: mid1 ++ history :: mid2 ++
            checkpoint_entry timestamp description :: next :: after)).
Proof.
  intros. unfold add_checkpoint_on, run_on.
  by rewrite (add_checkpoint_before_next_section
                file timestamp description before mid1 mid2 after evolution history next).
Qed.

Lemma add_checkpoint_appends_to_history_witness :
  add_checkpoint_on "2024-06-01T00:00:00Z" "second" tracked_with_history =
  (inr (true, "Checkpoint added: " +:+ "second"),
   join nl (["# AI LEARNING FILE: notes"] ++ "## EVOLUTION TRACKING" :: [] ++
            "### Checkpoint History" :: ["- **2024-01-01T00:00:00Z**: first"] ++
            checkpoint_entry "2024-06-01T00:00:00Z" "second" ::
            "## AUTOMATED LEARNINGS" :: [])).
Proof.
  apply (add_checkpoint_appends_to_history
           tracked_with_history "2024-06-01T00:00:00Z" "second"
           ["# AI LEARNING FILE: notes"] [] ["- **2024-01-01T00:00:00Z**: first"] []
           "## EVOLUTION TRACKING" "### Checkpoint History" "## AUTOMATED LEARNINGS").
  - vm_compute. reflexivity.
  - intros line ->%list_elem_of_singleton. vm_compute. reflexivity.
  - vm_compute. reflexivity.
  - by intros line ?%elem_of_nil.
  - vm_compute. reflexivity.
  - vm_compute. reflexivity.
  - intros line ->%list_elem_of_singleton. right. right. vm_compute. done.
  - vm_compute. reflexivity.
  - vm_compute. reflexivity.
  - vm_compute. reflexivity.
Defined.

(** X9: without a Checkpoint History, and with a top-level marker after
    the EVOLUTION TRACKING section, [add_checkpoint] succeeds and puts a new
    Checkpoint History right before that marker: an empty line, the
    heading, and the entry without the line feed at its end. *)
Theorem add_checkpoint_starts_history
    (file timestamp description : string)
    (before mid after : list string) (evolution next : string) :
  split_lines file = before ++ evolution :: mid ++ next :: after →
  (∀ line, line ∈ before → contains line "## EVOLUTION TRACKING" = false) →
  contains evolution "## EVOLUTION TRACKING" = true →
  (∀ line, line ∈ mid ++ next :: after →
           contains line "## EVOLUTION TRACKING" = true ∨
           contains line "### Checkpoint History" = false) →
  (∀ line, line ∈ mid →
           startswith line "## " = false ∨
           contains line "## EVOLUTION TRACKING" = true) →
  startswith next "## " = true →
  contains next "## EVOLUTION TRACKING" = false →
  add_checkpoint_on timestamp description file =
  (inr (true, "Checkpoint added: " +:+ description),
   join nl (before ++ evolution :: mid ++
            "" :: "### Checkpoint History" ::
            rstrip (checkpoint_entry timestamp description) :: next :: after)).
Proof.
  intros. unfold add_checkpoint_on, run_on.
  rewrite (add_checkpoint_creates_history
             file timestamp description before mid after evolution next) by done.
  unfold checkpoint_entry.
  generalize (rstrip ("- **" +:+ timestamp +:+ "**: " +:+ description +:+ nl)).
  intros entry. simpl. f_equal.
  assert (before ++ evolution :: mid ≠ []) as Hne by (by destruct before).
  assert (∀ l, before ++ evolution :: mid ++ l = (before ++ evolution :: mid) ++ l)
    as Hassoc by (intros l; by rewrite <- app_assoc).
  rewrite !Hassoc, !(join_app (before ++ evolution :: mid)) by done.
  by rewrite !join_cons_cons, append_nil_l, append_assoc.
Qed.

Lemma add_checkpoint_starts_history_witness :
  add_checkpoint_on "2024-06-01T00:00:00Z" "second" tracked_without_history =
  (inr (true, "Checkpoint added: " +:+ "second"),
   join nl (["# AI LEARNING FILE: notes"] ++ "## EVOLUTION TRACKING" :: ["notes"] ++
            "" :: "### Checkpoint History" ::
            rstrip (checkpoint_entry "2024-06-01T00:00:00Z" "second") ::
            "## AUTOMATED LEARNINGS" :: [])).
Proof.
  apply (add_checkpoint_starts_history
           tracked_without_history "2024-06-01T00:00:00Z" "second"
           ["# AI LEARNING FILE: notes"] ["notes"] []
           "## EVOLUTION TRACKING" "## AUTOMATED LEARNINGS").
  - vm_compute. reflexivity.
  - intros line ->%list_elem_of_singleton. vm_compute. reflexivity.
  - vm_compute. reflexivity.
  - intros line Hline. right. revert line Hline.
    apply Forall_forall, (bool_decide_unpack _). vm_compute. exact I.
  - intros line ->%list_elem_of_singleton. left. vm_compute. reflexivity.
  - vm_compute. reflexivity.
  - vm_compute. reflexivity.
Defined.

Lemma find_checkpoint_slot_untracked (i : nat) (rest : list string) :
  (∀ line, line ∈ rest → contains line "## EVOLUTION TRACKING" = false) →
  find_checkpoint_slot i rest false false false = (None, false).
Proof.
  intros Hrest. rewrite <- (app_nil_r rest).
  by rewrite find_checkpoint_slot_before.
Qed.

Lemma create_checkpoint_section_untracked (i : nat) (rest lines : list string)
    (entry : string) :
  (∀ line, line ∈ rest → contains line "## EVOLUTION TRACKING" = false) →
  create_checkpoint_section i rest lines entry = inr lines.
Proof.
  intros Hrest. rewrite <- (app_nil_r rest).
  by rewrite create_checkpoint_section_before.
Qed.

(** On a text that is not empty and in which no line holds
    [## EVOLUTION TRACKING], [add_checkpoint] writes the text back as it is
    and answers that the checkpoint was added. *)
Lemma add_checkpoint_rewrites_text (content timestamp description : string) :
  content ≠ "" →
  (∀ line, line ∈ split_lines content → contains line "## EVOLUTION TRACKING" = false) →
  add_checkpoint (Some content) timestamp description =
  WriteFile content (checkpoint_added description).
Proof.
  intros Hne Hlines. unfold add_checkpoint. destruct content as [|c content]; [done |].
  rewrite find_checkpoint_slot_untracked by done.
  rewrite create_checkpoint_section_untracked by done.
  by rewrite join_split_lines.
Qed.

(** X11: [add_checkpoint] dies only with an IndexError, only on a document
    in which no later line ends the first EVOLUTION TRACKING section (every
    line after the first marker line either does not start with [## ] or
    holds the marker again), and then the file is as it was. *)
Theorem add_checkpoint_dies_only_in_last_section
    (timestamp description file : string) (e : exn) :
  (add_checkpoint_on timestamp description file).1 = inl e →
  e = IndexError ∧
  (add_checkpoint_on timestamp description file).2 = file ∧
  ∃ before marker after,
    split_lines file = before ++ marker :: after ∧
    (∀ line, line ∈ before → contains line "## EVOLUTION TRACKING" = false) ∧
    contains marker "## EVOLUTION TRACKING" = true ∧
    ∀ line, line ∈ after →
            startswith line "## " = false ∨ contains line "## EVOLUTION TRACKING" = true.
Proof.
  unfold add_checkpoint_on, run_on.
  destruct (decide (file = "")) as [-> | Hne]; [done |].
  destruct (add_checkpoint_cases file timestamp description Hne)
    as [[-> Hshape] | [updated ->]]; [|done].
  simpl. by intros [= <-].
Qed.

Lemma add_checkpoint_dies_only_in_last_section_witness :
  IndexError = IndexError ∧
  (add_checkpoint_on "2024-06-01T00:00:00Z" "second"
     (join nl ["## EVOLUTION TRACKING"; "notes"])).2 =
  join nl ["## EVOLUTION TRACKING"; "notes"] ∧
  ∃ before marker after,
    split_lines (join nl ["## EVOLUTION TRACKING"; "notes"]) = before ++ marker :: after ∧
    (∀ line, line ∈ before → contains line "## EVOLUTION TRACKING" = false) ∧
    contains marker "## EVOLUTION TRACKING" = true ∧
    ∀ line, line ∈ after →
            startswith line "## " = false ∨ contains line "## EVOLUTION TRACKING" = true.
Proof.
  apply (add_checkpoint_dies_only_in_last_section
           "2024-06-01T00:00:00Z" "second" (join nl ["## EVOLUTION TRACKING"; "notes"])).
  vm_compute. reflexivity.
Defined.

End CheckpointsWritten.

(** ** More on [deduplicate_learnings]: what is written back *)

Section EntriesWritten.

Import Py AIDataProcessor.

Local Arguments startswith : simpl never.
Local Arguments contains : simpl never.
Local Arguments SHA256.hexdigest : simpl never.

Lemma match_at_lits (sub rest : string) :
  Re.match_at (Re.lits sub) (sub +:+ rest) = Some (sub, rest).
Proof.
  induction sub as [|c sub IH]; [done |].
  rewrite append_cons. simpl. rewrite Ascii.eqb_refl, IH. done.
Qed.

Lemma match_at_lits_inv (sub s m rest : string) :
  Re.match_at (Re.lits sub) s = Some (m, rest) → m = sub ∧ s = sub +:+ rest.
Proof.
  revert s m rest. induction sub as [|c sub IH]; intros s m rest; simpl.
  - by intros [= <- <-].
  - destruct s as [|d s]; [done |].
    destruct (Ascii.eqb c d) eqn:Hc; [|done]. apply Ascii.eqb_eq in Hc as <-.
    destruct (Re.match_at (Re.lits sub) s) as [[m' rest']|] eqn:Hm; [|done].
    intros [= <- <-]. apply IH in Hm as [-> ->]. by rewrite append_cons.
Qed.

Lemma search_here (pat : list Re.atom) (s m rest : string) :
  Re.match_at pat s = Some (m, rest) → Re.search pat s = Some ("", m, rest).
Proof. intros H. destruct s; simpl; by rewrite H. Qed.

(** [re.search] of a literal text finds its first occurrence. *)
Lemma search_lits_first (sub s pre m rest : string) :
  Re.search (Re.lits sub) s = Some (pre, m, rest) →
  m = sub ∧ first_occurrence sub pre s rest.
Proof.
  revert pre m rest. induction s as [|c s IH]; intros pre m rest; simpl.
  - destruct (Re.match_at (Re.lits sub) "") as [[m' rest']|] eqn:Hm; [|done].
    intros [= <- <- <-]. apply match_at_lits_inv in Hm as [-> Hs].
    split; [done |]. split; [done |]. intros; simpl; lia.
  - destruct (Re.match_at (Re.lits sub) (String c s)) as [[m' rest']|] eqn:Hm.
    + intros [= <- <- <-]. apply match_at_lits_inv in Hm as [-> Hs].
      split; [done |]. split; [done |]. intros; simpl; lia.
    + destruct (Re.search (Re.lits sub) s) as [[[pre' m'] rest']|] eqn:Hs; [|done].
      intros [= <- <- <-]. destruct (IH _ _ _ eq_refl) as (-> & -> & Hfirst).
      split; [done |]. split; [by rewrite append_cons |].
      intros [|d p] r Heq.
      * rewrite append_nil_l in Heq. rewrite Heq, match_at_lits in Hm. done.
      * rewrite append_cons in Heq. injection Heq as -> Heq.
        apply Hfirst in Heq. simpl. lia.
Qed.

Lemma search_lits_None (sub s : string) :
  Re.search (Re.lits sub) s = None ↔ ¬ occurs sub s.
Proof.
  split.
  - intros Hs (pre & post & ->). revert Hs.
    induction pre as [|c pre IH].
    + by rewrite append_nil_l, (search_here _ _ _ _ (match_at_lits sub post)).
    + rewrite append_cons. simpl.
      destruct (Re.match_at _ _) as [[??]|]; [done |].
      destruct (Re.search (Re.lits sub) (pre +:+ sub +:+ post)) as [[[??]?]|]; [done |].
      intros _. by apply IH.
  - intros Hno. destruct (Re.search (Re.lits sub) s) as [[[pre m] rest]|] eqn:Hs; [|done].
    apply search_lits_first in Hs as (-> & -> & _). destruct Hno. by exists pre, rest.
Qed.

Lemma search_lits_found (sub pre s rest : string) :
  first_occurrence sub pre s rest →
  Re.search (Re.lits sub) s = Some (pre, sub, rest).
Proof.
  intros [Hs Hfirst].
  destruct (Re.search (Re.lits sub) s) as [[[pre' m] rest']|] eqn:Hsearch.
  - apply search_lits_first in Hsearch as (-> & Hs' & Hfirst').
    pose proof (Hfirst _ _ Hs'). pose proof (Hfirst' _ _ Hs).
    assert (String.length pre = String.length pre') as Hlen by lia.
    rewrite Hs in Hs'. apply append_inj_length in Hs' as [-> Hrest]; [|done].
    apply append_inj_length in Hrest as [_ ->]; done.
  - apply search_lits_None in Hsearch. destruct Hsearch. by exists pre, rest.
Qed.

Lemma drop_length (s : string) : drop (String.length s) s = "".
Proof. by induction s. Qed.

Lemma replace_from_nil (fuel : nat) (old new : string) :
  old ≠ "" → replace_from fuel "" old new = "".
Proof. intros Hold. destruct fuel, old; done. Qed.

(** [replace] of a text that occurs first as the end of [s]: only that end
    is replaced. *)
Lemma replace_from_end (fuel : nat) (pre old new : string) :
  old ≠ "" →
  (∀ p r, pre +:+ old = p +:+ old +:+ r → String.length pre ≤ String.length p) →
  String.length pre < fuel →
  replace_from fuel (pre +:+ old) old new = pre +:+ new.
Proof.
  intros Hold. revert fuel. induction pre as [|c pre IH]; intros fuel Hfirst Hfuel.
  - destruct fuel as [|fuel]; [simpl in Hfuel; lia |].
    rewrite !append_nil_l. simpl.
    rewrite <- (append_nil_r old) at 1. rewrite startswith_append.
    by rewrite drop_length, replace_from_nil, append_nil_r.
  - destruct fuel as [|fuel]; [simpl in Hfuel; lia |].
    rewrite !append_cons. simpl.
    destruct (startswith (String c (pre +:+ old)) old) eqn:Hstart.
    + apply startswith_inv in Hstart as [r Hr].
      specialize (Hfirst "" r). rewrite append_cons, append_nil_l in Hfirst.
      specialize (Hfirst Hr). simpl in Hfirst. lia.
    + f_equal. apply IH; [|simpl in Hfuel; lia].
      intros p r Heq. specialize (Hfirst (String c p) r).
      rewrite !append_cons, Heq in Hfirst. specialize (Hfirst eq_refl).
      simpl in Hfirst. lia.
Qed.

Lemma replace_first_occurrence (sub pre s rest new : string) :
  sub ≠ "" → first_occurrence sub pre s rest →
  replace s (sub +:+ rest) (sub +:+ new) = pre +:+ sub +:+ new.
Proof.
  intros Hsub [-> Hfirst].
  assert (sub +:+ rest ≠ "") as Hold.
  { destruct sub; [done |]. by rewrite append_cons. }
  assert (∀ s old new, old ≠ "" → replace s old new =
                                  replace_from (String.length s) s old new) as ->
    by (by intros ? [|] ? ?).
  2: done.
  apply (replace_from_end _ pre (sub +:+ rest) (sub +:+ new)); [done | |].
  - intros p r Heq. apply (Hfirst p (rest +:+ r)).
    by rewrite Heq, !append_assoc.
  - rewrite !length_append. destruct sub; [done |]. simpl. lia.
Qed.

Lemma concat_cons (x : string) (l : list string) : concat (x :: l) = x +:+ concat l.
Proof.
  unfold concat. destruct l as [|y l]; [by rewrite append_nil_r |].
  by rewrite join_cons_cons, append_nil_l.
Qed.

Lemma concat_app (l1 l2 : list string) : concat (l1 ++ l2) = concat l1 +:+ concat l2.
Proof.
  induction l1 as [|x l1 IH]; [by rewrite append_nil_l |].
  change ((x :: l1) ++ l2) with (x :: l1 ++ l2).
  by rewrite !concat_cons, IH, append_assoc.
Qed.

(** The pieces of [re.split] put together give the text back. *)
Lemma concat_split_from (fuel : nat) (pat : list Re.atom) (s : string) :
  concat (Re.split_from fuel pat s) = s.
Proof.
  revert s. induction fuel as [|fuel IH]; intros s; simpl; [done |].
  destruct (Re.search pat s) as [[[pre m] rest]|] eqn:Hs; [|done].
  rewrite !concat_cons, IH. by apply search_spec in Hs as [_ ->].
Qed.

(** [re.split] with one group gives a first text and then matches and
    texts in turn. *)
Lemma split_from_pairs (fuel : nat) (pat : list Re.atom) (s : string) :
  ∃ first entries, Re.split_from fuel pat s = first :: entry_texts entries.
Proof.
  revert s. induction fuel as [|fuel IH]; intros s; simpl; [by exists s, [] |].
  destruct (Re.search pat s) as [[[pre m] rest]|]; [|by exists s, []].
  destruct (IH rest) as (first & entries & ->). by exists pre, ((m, first) :: entries).
Qed.

Lemma entry_pairs_texts (entries : list (string * string)) :
  entry_pairs (entry_texts entries) = entries.
Proof.
  induction entries as [|[header text] entries IH]; [done |].
  unfold entry_texts in *. rewrite bind_cons. simpl. by rewrite IH.
Qed.

Lemma sublist_full {A} (l1 l2 : list A) :
  sublist l1 l2 → length l2 ≤ length l1 → l1 = l2.
Proof.
  induction 1 as [|x l1 l2 _ IH|x l1 l2 Hsub _]; simpl; intros Hlen; [done | |].
  - f_equal. apply IH. lia.
  - apply sublist_length in Hsub. lia.
Qed.

Lemma same_entry_hash (e1 e2 : string * string) :
  same_entry e1 e2 → entry_hash e1 = entry_hash e2.
Proof.
  intros Hsame. unfold entry_hash. f_equal. by apply entry_identifier_inj.
Qed.

(** The loop over the entries, whatever the hashes do: it keeps a sublist
    of the entries, counts the others, keeps no hash twice and drops only
    entries whose hash it has seen. *)
Lemma keep_first_entries_kept (pairs reconstructed : list string)
    (seen_hashes : gset string) (count : nat) :
  ∃ kept,
    (keep_first_entries pairs reconstructed seen_hashes count).1 =
      reconstructed ++ entry_texts kept ∧
    sublist kept (entry_pairs pairs) ∧
    (keep_first_entries pairs reconstructed seen_hashes count).2 + length kept =
      count + length (entry_pairs pairs) ∧
    NoDup (entry_hash <$> kept) ∧
    (∀ e, e ∈ kept → entry_hash e ∉ seen_hashes) ∧
    (∀ e, e ∈ entry_pairs pairs →
          entry_hash e ∈ seen_hashes ∨ entry_hash e ∈ entry_hash <$> kept).
Proof.
  revert reconstructed seen_hashes count.
  induction pairs as [|x|header text pairs IH] using pairs_ind;
    intros reconstructed seen_hashes count.
  - exists []. simpl. rewrite app_nil_r. split; [done |].
    split; [constructor |]. split; [lia |]. split; [constructor |].
    split; by intros e ?%elem_of_nil.
  - exists []. simpl. rewrite app_nil_r. split; [done |].
    split; [constructor |]. split; [lia |]. split; [constructor |].
    split; by intros e ?%elem_of_nil.
  - cbn [keep_first_entries entry_pairs].
    change (SHA256.hexdigest (entry_identifier header text))
      with (entry_hash (header, text)).
    destruct (bool_decide_reflect (entry_hash (header, text) ∈ seen_hashes))
      as [Hseen | Hnew].
    + destruct (IH reconstructed seen_hashes (S count))
        as (kept & Hkept & Hsub & Hcount & Hnodup & Hfresh & Hcover).
      exists kept. split; [done |]. split; [by apply sublist_cons |].
      split; [simpl; lia |]. split; [done |]. split; [done |].
      intros e [-> | He]%elem_of_cons; [by left | by apply Hcover].
    + destruct (IH (reconstructed ++ [header; text])
                   ({[entry_hash (header, text)]} ∪ seen_hashes) count)
        as (kept & Hkept & Hsub & Hcount & Hnodup & Hfresh & Hcover).
      exists ((header, text) :: kept).
      split; [by rewrite Hkept, <- app_assoc |].
      split; [by apply sublist_skip |]. split; [simpl; lia |].
      split; [|split].
      * rewrite fmap_cons. apply NoDup_cons. split; [|done].
        intros (e & Heq & He)%list_elem_of_fmap. apply (Hfresh e He).
        rewrite <- Heq. apply elem_of_union_l. by apply elem_of_singleton.
      * intros e [-> | He]%elem_of_cons; [done |].
        intros Hin. apply (Hfresh e He). by apply elem_of_union_r.
      * intros e [-> | He]%elem_of_cons.
        { right. rewrite fmap_cons. by left. }
        destruct (Hcover e He) as [[Hh | Hs]%elem_of_union | Hk].
        -- right. apply elem_of_singleton in Hh. rewrite Hh, fmap_cons. by left.
        -- by left.
        -- right. rewrite fmap_cons. by right.
Qed.

(** What [read_learnings] finds: the first marker line, the text after it,
    and the outcome of the loop over its entries. *)
Lemma read_learnings_Some (content : string) (l : learnings) :
  read_learnings content = Some l ↔
  ∃ pre, first_occurrence learnings_marker pre content (section_content l) ∧
         l = Learnings learnings_marker (section_content l)
               (keep_first_entries (tail (Re.split entry_header (section_content l)))
                                   (section_preamble (section_content l)) ∅ 0).1
               (keep_first_entries (tail (Re.split entry_header (section_content l)))
                                   (section_preamble (section_content l)) ∅ 0).2.
Proof.
  unfold read_learnings, section_preamble.
  change ("## AUTOMATED LEARNINGS" +:+ nl) with learnings_marker. split.
  - destruct (Re.search _ content) as [[[pre m] rest]|] eqn:Hs; [|done].
    apply search_lits_first in Hs as [-> Hfirst]. cbn [mbind option_bind].
    destruct (keep_first_entries _ _ _ _) as [kept duplicates] eqn:Hkeep.
    intros [= <-]. exists pre. cbn [section_content]. by rewrite Hkeep.
  - destruct l as [header rest kept duplicates]. cbn [section_content].
    intros (pre & Hfirst & Hl).
    rewrite (search_lits_found _ _ _ _ Hfirst). cbn [mbind option_bind].
    destruct (keep_first_entries _ _ _ _). by rewrite Hl.
Qed.

(** X12: [deduplicate_learnings] refuses with "No AUTOMATED LEARNINGS
    section found.", and writes nothing, exactly on the documents in which
    the marker line with its line feed does not occur: a marker that ends
    the text without line feed is not found. *)
Theorem deduplicate_finds_no_section (content : string) (auto_confirm : bool) :
  content ≠ "" →
  deduplicate_learnings (Some content) auto_confirm =
    Ret (false, "No AUTOMATED LEARNINGS section found.") ↔
  ¬ occurs learnings_marker content.
Proof.
  intros Hne. unfold deduplicate_learnings. destruct content as [|c content]; [done |].
  rewrite <- search_lits_None. unfold read_learnings.
  destruct (Re.search _ (String c content)) as [[[pre m] rest]|]; [|done].
  simpl. destruct (keep_first_entries _ _ _ _) as [kept duplicates].
  simpl. by destruct (_ && _).
Qed.

Lemma deduplicate_finds_no_section_witness :
  deduplicate_learnings (Some scenario_A) false =
    Ret (false, "No AUTOMATED LEARNINGS section found.") ↔
  ¬ occurs learnings_marker scenario_A.
Proof.
  apply (deduplicate_finds_no_section scenario_A false). by vm_compute.
Defined.

Lemma deduplicate_auto_written (file : string) (l : learnings) :
  file ≠ "" → read_learnings file = Some l →
  deduplicate_auto file =
  (inr (true, "Successfully deduplicated. Removed " +:+
              pretty (duplicate_count l) +:+ " duplicate entries."),
   deduplicated file l).
Proof.
  intros Hne Hread. unfold deduplicate_auto, run_on, deduplicate_learnings.
  destruct file as [|c file]; [done |]. rewrite Hread.
  by rewrite andb_false_r.
Qed.

Lemma first_occurrence_nonempty (sub pre s rest : string) :
  sub ≠ "" → first_occurrence sub pre s rest → s ≠ "".
Proof.
  intros Hsub [-> _] Heq. destruct pre; [|by rewrite append_cons in Heq].
  rewrite append_nil_l in Heq. destruct sub; [done |]. by rewrite append_cons in Heq.
Qed.

Lemma deduplicated_shape (content pre : string) (l : learnings) :
  first_occurrence learnings_marker pre content (section_content l) →
  section_header l = learnings_marker →
  deduplicated content l =
  pre +:+ learnings_marker +:+ strip (concat (reconstructed_entries l)).
Proof.
  intros Hfirst Hheader. unfold deduplicated. rewrite Hheader.
  by apply replace_first_occurrence.
Qed.

(** X13: with [--auto-confirm], [deduplicate_learnings] rewrites the
    section only.  The text in front of the first marker line and the
    marker line are written back as they were; the text after them, to the
    end of the document, is replaced by the entries kept, put together and
    stripped of white space at both ends. *)
Theorem deduplicate_rewrites_section_only (file pre rest : string) :
  first_occurrence learnings_marker pre file rest →
  ∃ l, read_learnings file = Some l ∧
       section_content l = rest ∧
       deduplicate_auto file =
       (inr (true, "Successfully deduplicated. Removed " +:+
                   pretty (duplicate_count l) +:+ " duplicate entries."),
        pre +:+ learnings_marker +:+ strip (concat (reconstructed_entries l))).
Proof.
  intros Hfirst.
  assert (file ≠ "") as Hne
    by (by apply (first_occurrence_nonempty learnings_marker pre file rest)).
  eexists (Learnings learnings_marker rest _ _).
  assert (read_learnings file = Some (Learnings learnings_marker rest
            (keep_first_entries (tail (Re.split entry_header rest))
                                (section_preamble rest) ∅ 0).1
            (keep_first_entries (tail (Re.split entry_header rest))
                                (section_preamble rest) ∅ 0).2)) as Hread.
  { apply read_learnings_Some. by exists pre. }
  split; [exact Hread |]. split; [done |].
  rewrite (deduplicate_auto_written _ _ Hne Hread).
  by rewrite (deduplicated_shape file pre).
Qed.

Lemma deduplicate_rewrites_section_only_witness :
  ∃ l, read_learnings (join nl ["# AI LEARNING FILE: notes"; twice_learned]) = Some l ∧
       section_content l =
       join nl [""; "### Learning Entry - 2024-01-01 10:00:00"; "A";
                "### Learning Entry - 2024-01-01 10:00:00"; "A"] ∧
       deduplicate_auto (join nl ["# AI LEARNING FILE: notes"; twice_learned]) =
       (inr (true, "Successfully deduplicated. Removed " +:+
                   pretty (duplicate_count l) +:+ " duplicate entries."),
        ("# AI LEARNING FILE: notes" +:+ nl) +:+ learnings_marker +:+
        strip (concat (reconstructed_entries l))).
Proof.
  apply (deduplicate_rewrites_section_only
           (join nl ["# AI LEARNING FILE: notes"; twice_learned])
           ("# AI LEARNING FILE: notes" +:+ nl)
           (join nl [""; "### Learning Entry - 2024-01-01 10:00:00"; "A";
                     "### Learning Entry - 2024-01-01 10:00:00"; "A"])).
  apply search_lits_first with (m := learnings_marker). vm_compute. reflexivity.
Defined.

(** The entries kept, as the loop leaves them for a section text. *)
Lemma read_learnings_kept (content : string) (l : learnings) :
  read_learnings content = Some l →
  ∃ kept,
    reconstructed_entries l = section_preamble (section_content l) ++ entry_texts kept ∧
    sublist kept (learning_entries (section_content l)) ∧
    duplicate_count l + length kept = length (learning_entries (section_content l)) ∧
    NoDup (entry_hash <$> kept) ∧
    (∀ e, e ∈ learning_entries (section_content l) →
          entry_hash e ∈ entry_hash <$> kept).
Proof.
  intros (pre & _ & Hl)%read_learnings_Some.
  destruct (keep_first_entries_kept
              (tail (Re.split entry_header (section_content l)))
              (section_preamble (section_content l)) ∅ 0)
    as (kept & Hkept & Hsub & Hcount & Hnodup & _ & Hcover).
  exists kept. rewrite Hl at 1 4. cbn [reconstructed_entries duplicate_count].
  split; [done |]. split; [done |]. split; [done |]. split; [done |].
  intros e He. destruct (Hcover e He) as [Hin | Hin]; [|done].
  by apply elem_of_empty in Hin.
Qed.

(** X14: [deduplicate_learnings] drops whole entries and counts them.  The
    entries kept are entries of the section, in their order, each with its
    header and its text as they were, and the number reported as removed is
    the number of entries that are missing. *)
Theorem deduplicate_drops_whole_entries (content : string) (l : learnings) :
  read_learnings content = Some l →
  ∃ kept,
    reconstructed_entries l = section_preamble (section_content l) ++ entry_texts kept ∧
    sublist kept (learning_entries (section_content l)) ∧
    duplicate_count l + length kept = length (learning_entries (section_content l)).
Proof.
  intros (kept & Hkept & Hsub & Hcount & _)%read_learnings_kept. by exists kept.
Qed.

Lemma deduplicate_drops_whole_entries_witness :
  ∃ l, read_learnings learned_three_times = Some l ∧
  ∃ kept,
    reconstructed_entries l = section_preamble (section_content l) ++ entry_texts kept ∧
    sublist kept (learning_entries (section_content l)) ∧
    duplicate_count l + length kept = length (learning_entries (section_content l)).
Proof.
  destruct (read_learnings learned_three_times) as [l|] eqn:Hread;
    [|by vm_compute in Hread].
  exists l. split; [done |].
  exact (deduplicate_drops_whole_entries learned_three_times l Hread).
Defined.

(** X15: of the entries that [deduplicate_learnings] keeps, no two have the
    same timestamp and the same first five lines, and every entry of the
    section has the hash of an entry that is kept. *)
Theorem deduplicate_keeps_one_of_each (content : string) (l : learnings) :
  read_learnings content = Some l →
  ∃ kept,
    reconstructed_entries l = section_preamble (section_content l) ++ entry_texts kept ∧
    (∀ i j e1 e2, kept !! i = Some e1 → kept !! j = Some e2 →
                  same_entry e1 e2 → i = j) ∧
    (∀ e, e ∈ learning_entries (section_content l) →
          ∃ e', e' ∈ kept ∧ entry_hash e' = entry_hash e).
Proof.
  intros (kept & Hkept & _ & _ & Hnodup & Hcover)%read_learnings_kept.
  exists kept. split; [done |]. split.
  - intros i j e1 e2 Hi Hj Hsame%same_entry_hash.
    apply (NoDup_lookup _ i j (entry_hash e1) Hnodup).
    + by rewrite list_lookup_fmap, Hi.
    + by rewrite list_lookup_fmap, Hj, Hsame.
  - intros e (e' & Heq & He')%Hcover%list_elem_of_fmap. by exists e'.
Qed.

Lemma deduplicate_keeps_one_of_each_witness :
  ∃ l, read_learnings learned_three_times = Some l ∧
  ∃ kept,
    reconstructed_entries l = section_preamble (section_content l) ++ entry_texts kept ∧
    (∀ i j e1 e2, kept !! i = Some e1 → kept !! j = Some e2 →
                  same_entry e1 e2 → i = j) ∧
    (∀ e, e ∈ learning_entries (section_content l) →
          ∃ e', e' ∈ kept ∧ entry_hash e' = entry_hash e).
Proof.
  destruct (read_learnings learned_three_times) as [l|] eqn:Hread;
    [|by vm_compute in Hread].
  exists l. split; [done |].
  exact (deduplicate_keeps_one_of_each learned_three_times l Hread).
Defined.

Lemma length_lstrip (s : string) : String.length (lstrip s) ≤ String.length s.
Proof. induction s as [|c s IH]; simpl; [done |]. destruct (is_space c); simpl; lia. Qed.

Lemma length_rstrip (s : string) : String.length (rstrip s) ≤ String.length s.
Proof.
  induction s as [|c s IH]; simpl; [done |].
  destruct (rstrip s); [destruct (is_space c) |]; simpl in *; lia.
Qed.

Lemma length_strip (s : string) : String.length (strip s) ≤ String.length s.
Proof.
  unfold strip. etrans; [apply length_rstrip | apply length_lstrip].
Qed.

Lemma length_concat_sublist (l1 l2 : list string) :
  sublist l1 l2 → String.length (concat l1) ≤ String.length (concat l2).
Proof.
  induction 1 as [|x l1 l2 _ IH|x l1 l2 _ IH]; [done | |];
    rewrite ?concat_cons, ?length_append; lia.
Qed.

Lemma entry_texts_sublist (l1 l2 : list (string * string)) :
  sublist l1 l2 → sublist (entry_texts l1) (entry_texts l2).
Proof.
  unfold entry_texts.
  induction 1 as [|x l1 l2 _ IH|x l1 l2 _ IH]; [done | |]; rewrite ?bind_cons.
  - by apply sublist_app.
  - by apply sublist_inserts_l.
Qed.

(** The texts kept are texts of the section, in their order. *)
Lemma reconstructed_entries_sublist (content : string) (l : learnings) :
  read_learnings content = Some l →
  sublist (reconstructed_entries l) (Re.split entry_header (section_content l)).
Proof.
  intros (kept & -> & Hsub & _)%read_learnings_kept.
  unfold section_preamble, learning_entries in *.
  destruct (split_from_pairs (String.length (section_content l)) entry_header
                             (section_content l)) as (first & entries & Hsplit).
  unfold Re.split in *. rewrite Hsplit in *. simpl in Hsub.
  rewrite entry_pairs_texts in Hsub. apply entry_texts_sublist in Hsub.
  destruct (truthy (strip first)); [by apply sublist_skip | by apply sublist_cons].
Qed.

(** X16: [deduplicate_learnings] never makes the file longer. *)
Theorem deduplicate_never_grows (file : string) :
  String.length (deduplicate_auto file).2 ≤ String.length file.
Proof.
  destruct (decide (file = "")) as [-> | Hne]; [done |].
  destruct (read_learnings file) as [l|] eqn:Hread.
  - rewrite (deduplicate_auto_written _ _ Hne Hread). cbn [snd].
    pose proof Hread as (pre & Hfirst & Hl)%read_learnings_Some.
    rewrite (deduplicated_shape file pre) by (done || by rewrite Hl).
    destruct Hfirst as [Hfile _]. rewrite Hfile.
    rewrite !length_append.
    pose proof (length_strip (concat (reconstructed_entries l))).
    pose proof (length_concat_sublist _ _ (reconstructed_entries_sublist _ _ Hread)).
    unfold Re.split in *. rewrite concat_split_from in *. lia.
  - unfold deduplicate_auto, run_on, deduplicate_learnings.
    destruct file; [done |]. by rewrite Hread.
Qed.

(** Text in front of which only white space stands is stripped as if the
    white space were not there. *)
Lemma lstrip_blank (ws : string) : lstrip ws = "" → ∀ s, lstrip (ws +:+ s) = lstrip s.
Proof.
  induction ws as [|c ws IH]; intros Hws s; [by rewrite append_nil_l |].
  rewrite append_cons. simpl in *. destruct (is_space c); [by apply IH | done].
Qed.

Lemma rstrip_nil_inv (s : string) :
  rstrip s = "" → s = "" ∨ ∃ c s', s = String c s' ∧ is_space c = true.
Proof.
  destruct s as [|c s]; [by left |]. simpl. right. exists c, s. split; [done |].
  destruct (rstrip s); [by destruct (is_space c) | done].
Qed.

Lemma lstrip_shape (s : string) :
  lstrip s = "" ∨ ∃ c s', lstrip s = String c s' ∧ is_space c = false.
Proof.
  induction s as [|c s IH]; simpl; [by left |].
  destruct (is_space c) eqn:Hc; [done |]. right. by exists c, s.
Qed.

Lemma strip_blank (ws : string) : strip ws = "" → ∀ s, strip (ws +:+ s) = strip s.
Proof.
  unfold strip. intros Hws s. rewrite lstrip_blank; [done |].
  destruct (lstrip_shape ws) as [Hnil | (c & s' & Hshape & Hc)]; [done |].
  rewrite Hshape in Hws. apply rstrip_nil_inv in Hws as [? | (c' & s'' & [= <- <-] & Hc')];
    [done | congruence].
Qed.

(** X17: when no entry is a duplicate, [deduplicate_learnings] asks nothing
    and changes the file only by stripping white space: the section text is
    written back without the white space at its two ends, the rest of the
    file as it was. *)
Theorem deduplicate_without_duplicates
    (file pre rest : string) (auto_confirm : bool) (stdin : list string) :
  first_occurrence learnings_marker pre file rest →
  ¬ finds_duplicates file →
  run (deduplicate_learnings (Some file) auto_confirm) file stdin =
  (inr (true, "Successfully deduplicated. Removed 0 duplicate entries."),
   pre +:+ learnings_marker +:+ strip rest).
Proof.
  intros Hfirst Hnone.
  assert (file ≠ "") as Hne
    by (by apply (first_occurrence_nonempty learnings_marker pre file rest)).
  destruct (read_learnings file) as [l|] eqn:Hread.
  2:{ apply eq_None_not_Some in Hread. destruct Hread.
      exists (Learnings learnings_marker rest
                (keep_first_entries (tail (Re.split entry_header rest))
                                    (section_preamble rest) ∅ 0).1
                (keep_first_entries (tail (Re.split entry_header rest))
                                    (section_preamble rest) ∅ 0).2).
      apply read_learnings_Some. by exists pre. }
  assert (duplicate_count l = 0) as Hcount.
  { destruct (duplicate_count l) eqn:Hd; [done |].
    destruct Hnone. exists l. split; [done | lia]. }
  pose proof Hread as (pre' & Hfirst' & Hl)%read_learnings_Some.
  assert (section_content l = rest ∧ pre' = pre) as [Hrest ->].
  { pose proof (search_lits_found _ _ _ _ Hfirst) as H1.
    pose proof (search_lits_found _ _ _ _ Hfirst') as H2.
    rewrite H1 in H2. by injection H2 as -> ->. }
  unfold deduplicate_learnings. destruct file as [|c file]; [done |].
  rewrite Hread, Hcount. cbn [Nat.ltb Nat.leb andb]. unfold write_deduplicated.
  cbn [run]. rewrite Hcount. f_equal.
  rewrite (deduplicated_shape _ pre) by (done || by rewrite Hl).
  f_equal. f_equal.
  destruct (read_learnings_kept _ _ Hread) as (kept & -> & Hsub & Hlen & _).
  rewrite Hcount in Hlen. apply sublist_full in Hsub as ->; [|lia].
  pose proof (concat_split_from (String.length (section_content l)) entry_header
                                (section_content l)) as Hconcat.
  destruct (split_from_pairs (String.length (section_content l)) entry_header
                             (section_content l)) as (first & entries & Hsplit).
  unfold section_preamble, learning_entries, Re.split. rewrite Hsplit in *.
  cbn [tail]. rewrite entry_pairs_texts, <- Hrest, <- Hconcat.
  destruct (strip first) eqn:Hstrip; cbn [truthy]; [|done].
  rewrite app_nil_l, concat_cons. by rewrite strip_blank.
Qed.

Lemma deduplicate_without_duplicates_witness :
  run (deduplicate_learnings (Some twice_learned_compact) false) twice_learned_compact [] =
  (inr (true, "Successfully deduplicated. Removed 0 duplicate entries."),
   "" +:+ learnings_marker +:+
   strip (join nl ["### Learning Entry - 2024-01-01 10:00:00"; "A";
                   "### Learning Entry - 2024-01-01 10:00:00"; "A"])).
Proof.
  apply (deduplicate_without_duplicates twice_learned_compact ""
           (join nl ["### Learning Entry - 2024-01-01 10:00:00"; "A";
                     "### Learning Entry - 2024-01-01 10:00:00"; "A"]) false []).
  - apply search_lits_first with (m := learnings_marker). vm_compute. reflexivity.
  - intros (l & Hread & Hcount). vm_compute in Hread.
    injection Hread as <-. simpl in Hcount. lia.
Defined.

End EntriesWritten.

(** ** [to_json]: the title and the sections *)

Section JsonSections.

Import Py AIDataProcessor.

Local Arguments startswith : simpl never.
Local Arguments contains : simpl never.

Lemma startswith_nil (p : string) : startswith "" p = true → p = "".
Proof. by destruct p. Qed.

Lemma startswith_cons (c d : ascii) (s p : string) :
  startswith (String c s) (String d p) = Ascii.eqb d c && startswith s p.
Proof. done. Qed.

(** [dot_star] takes the line at the start of a text. *)
Lemma dot_star_line (line rest : string) :
  single_line line → rest = "" ∨ startswith rest nl = true →
  dot_star (line +:+ rest) = line.
Proof.
  intros Hline Hrest. induction line as [|c line IH].
  - rewrite append_nil_l. destruct Hrest as [-> | Hrest]; [done |].
    apply startswith_inv in Hrest as [rest' ->]. done.
  - destruct Hline as [Hc Hline]. rewrite append_cons. simpl.
    destruct (Ascii.eqb_spec c LF) as [-> | _]; [done |]. by rewrite IH.
Qed.

Lemma dot_star_spec (s : string) :
  single_line (dot_star s) ∧
  ∃ rest, s = dot_star s +:+ rest ∧ (rest = "" ∨ startswith rest nl = true).
Proof.
  induction s as [|c s (Hline & rest & Hs & Hrest)]; simpl.
  - split; [done |]. exists "". by split; [|left].
  - destruct (Ascii.eqb_spec c LF) as [-> | Hc].
    + split; [done |]. exists (String LF s). by split; [|right].
    + split; [done |]. exists rest. split; [|done].
      by rewrite append_cons, <- Hs.
Qed.

Lemma drop_append (s t : string) : drop (String.length s) (s +:+ t) = t.
Proof. induction s as [|c s IH]; [by rewrite append_nil_l |]. by rewrite append_cons. Qed.

Lemma dot_plus_Some (s line rest : string) :
  dot_plus s = Some (line, rest) ↔
  line ≠ "" ∧ single_line line ∧ s = line +:+ rest ∧
  (rest = "" ∨ startswith rest nl = true).
Proof.
  unfold dot_plus. split.
  - destruct (dot_star_spec s) as (Hline & rest' & Hs & Hrest).
    destruct (dot_star s) as [|c line'] eqn:Hstar; [done |].
    assert (drop (String.length (String c line')) s = rest') as Hdrop
      by (rewrite Hs; apply drop_append).
    rewrite Hdrop. by intros [= <- <-].
  - intros (Hne & Hline & -> & Hrest). rewrite dot_star_line by done.
    destruct line; [done |]. by rewrite drop_append.
Qed.

(** X18: the title that [to_json] records is the rest of the first line
    after the header and one space, when there is such a rest; without the
    space, or with nothing after it on the line, no title is recorded. *)
Theorem to_json_title_spec (content title : string) :
  to_json_title (Some content) = Some title ↔
  title ≠ "" ∧ single_line title ∧
  ∃ rest, content = "# AI LEARNING FILE: " +:+ title +:+ rest ∧
          (rest = "" ∨ startswith rest nl = true).
Proof.
  assert (to_json_title (Some content) = file_title content) as ->
    by (by destruct content).
  unfold file_title. split.
  - destruct (startswith content "# AI LEARNING FILE: ") eqn:Hstart; [|done].
    apply startswith_inv in Hstart as [after ->].
    change 20 with (String.length "# AI LEARNING FILE: "). rewrite drop_append.
    destruct (dot_plus after) as [[line rest]|] eqn:Hplus; [|done].
    intros [= <-]. apply dot_plus_Some in Hplus as (Hne & Hline & -> & Hrest).
    split; [done |]. split; [done |]. by exists rest.
  - intros (Hne & Hline & rest & -> & Hrest). rewrite startswith_append.
    change 20 with (String.length "# AI LEARNING FILE: "). rewrite drop_append.
    by rewrite (proj2 (dot_plus_Some _ title rest)).
Qed.

(** No match of the section pattern starts in a text without marker, not
    even one that runs into a marker that follows the text. *)
Lemma section_line_before (pre after : string) :
  ¬ occurs "## " pre → pre ≠ "" →
  section_line (pre +:+ "## " +:+ after) = None.
Proof.
  intros Hpre Hne. unfold section_line.
  destruct (startswith (pre +:+ "## " +:+ after) "## ") eqn:Hstart; [|done].
  destruct Hpre.
  destruct pre as [|c1 [|c2 [|c3 pre]]]; [done | | |].
  - rewrite append_cons, append_nil_l in Hstart. rewrite !startswith_cons in Hstart.
    by repeat (apply andb_true_iff in Hstart as [? Hstart]).
  - rewrite !append_cons, append_nil_l in Hstart. rewrite !startswith_cons in Hstart.
    by repeat (apply andb_true_iff in Hstart as [? Hstart]).
  - rewrite !append_cons in Hstart. rewrite !startswith_cons in Hstart.
    apply andb_true_iff in Hstart as [H1%Ascii.eqb_eq Hstart].
    apply andb_true_iff in Hstart as [H2%Ascii.eqb_eq Hstart].
    apply andb_true_iff in Hstart as [H3%Ascii.eqb_eq _].
    subst. by exists "", pre.
Qed.

Lemma occurs_cons (sub s : string) (c : ascii) : occurs sub s → occurs sub (String c s).
Proof. intros (pre & post & ->). by exists (String c pre), post. Qed.

Lemma search_by_here (matcher : string → option (string * string)) (s m rest : string) :
  matcher s = Some (m, rest) → Re.search_by matcher s = Some ("", m, rest).
Proof. intros H. destruct s; simpl; by rewrite H. Qed.

Lemma search_section_line (pre title rest : string) :
  ¬ occurs "## " pre → title ≠ "" → single_line title →
  rest = "" ∨ startswith rest nl = true →
  Re.search_by section_line (pre +:+ "## " +:+ title +:+ rest) =
  Some (pre, "## " +:+ title, rest).
Proof.
  intros Hpre Hne Hline Hrest. induction pre as [|c pre IH].
  - rewrite append_nil_l.
    assert (section_line ("## " +:+ title +:+ rest) = Some ("## " +:+ title, rest)) as Hm.
    { unfold section_line. rewrite startswith_append.
      change 3 with (String.length "## "). rewrite drop_append.
      by rewrite (proj2 (dot_plus_Some _ title rest)). }
    by apply search_by_here.
  - rewrite append_cons. simpl. rewrite <- append_cons.
    rewrite section_line_before by done. rewrite IH; [done |].
    intros Hocc. by apply Hpre, occurs_cons.
Qed.

Lemma search_section_line_None (s : string) :
  ¬ occurs "## " s → Re.search_by section_line s = None.
Proof.
  intros Hs. induction s as [|c s IH]; simpl.
  - done.
  - unfold section_line at 1.
    destruct (startswith (String c s) "## ") eqn:Hstart.
    { destruct Hs. apply startswith_inv in Hstart as [rest ->]. by exists "", rest. }
    rewrite IH; [done |]. intros Hocc. by apply Hs, occurs_cons.
Qed.

Lemma sectioned_cons (pre : string) (s : string * string) (secs : list (string * string)) :
  sectioned pre (s :: secs) = pre +:+ "## " +:+ s.1 +:+ sectioned s.2 secs.
Proof.
  unfold sectioned, section_text. rewrite fmap_cons, concat_cons.
  by rewrite !append_assoc.
Qed.

Lemma sectioned_nil (pre : string) : sectioned pre [] = pre.
Proof. unfold sectioned. simpl. apply append_nil_r. Qed.

(** [re.split] cuts a document at its section lines. *)
Lemma split_sectioned (fuel : nat) (pre : string) (secs : list (string * string)) :
  ¬ occurs "## " pre → well_sectioned secs → length secs ≤ fuel →
  Re.split_by fuel section_line (sectioned pre secs) =
  pre :: (secs ≫= λ s, ["## " +:+ s.1; s.2]).
Proof.
  revert fuel pre. induction secs as [|[title text] secs IH]; intros fuel pre Hpre Hsecs Hfuel.
  - rewrite sectioned_nil. destruct fuel; simpl; [done |].
    by rewrite search_section_line_None.
  - destruct fuel as [|fuel]; [simpl in Hfuel; lia |].
    destruct Hsecs as (Hne & Hline & Htext & Hstart & Hsecs). simpl in *.
    rewrite sectioned_cons. simpl.
    rewrite search_section_line; [| done | done | done |].
    + rewrite IH by (done || lia). done.
    + destruct Hstart as [Hstart | [-> ->]]; [right | by left].
      apply startswith_inv in Hstart as [rest ->].
      unfold sectioned. by rewrite append_assoc, startswith_append.
Qed.

Lemma length_sectioned (pre : string) (secs : list (string * string)) :
  length secs ≤ String.length (sectioned pre secs).
Proof.
  revert pre. induction secs as [|s secs IH]; intros pre; simpl; [lia |].
  rewrite sectioned_cons, !length_append. specialize (IH s.2). simpl. lia.
Qed.

(** The name of a section: its title without the white space at its end. *)
Lemma section_name_rstrip (title : string) :
  drop 3 (strip ("## " +:+ title)) = rstrip title.
Proof.
  unfold strip. change (lstrip ("## " +:+ title)) with ("## " +:+ title).
  change ("## " +:+ title) with (String "#" (String "#" (String " " title))).
  simpl. by destruct (rstrip title).
Qed.

Lemma add_sections_foldl (secs : list (string * string)) (sections : gmap string string) :
  add_sections (secs ≫= λ s, ["## " +:+ s.1; s.2]) sections =
  foldl (λ m s, <[rstrip s.1 := strip s.2]> m) sections secs.
Proof.
  revert sections. induction secs as [|[title text] secs IH]; intros sections; [done |].
  rewrite bind_cons. cbn [app add_sections foldl fst snd].
  by rewrite IH, section_name_rstrip.
Qed.

(** X19: [to_json] reads the sections of a document in which [## ] stands
    only where a section starts.  Each title, without the white space at
    its end, is mapped to the text up to the next section, stripped; of two
    sections with the same title the later one stays.  A subsection line
    [### name] is such a start after one [#]. *)
Theorem to_json_sections_parsed (pre : string) (secs : list (string * string)) :
  sectioned pre secs ≠ "" →
  ¬ occurs "## " pre →
  well_sectioned secs →
  to_json_sections (Some (sectioned pre secs)) =
  Some (foldl (λ m s, <[rstrip s.1 := strip s.2]> m) ∅ secs).
Proof.
  intros Hne Hpre Hsecs. unfold to_json_sections.
  destruct (sectioned pre secs) as [|c content] eqn:Hdoc; [done |].
  rewrite <- Hdoc. rewrite split_sectioned by (done || apply length_sectioned).
  cbn [tail]. by rewrite add_sections_foldl.
Qed.

Lemma to_json_sections_parsed_witness :
  to_json_sections
    (Some (sectioned ("# AI LEARNING FILE: notes" +:+ nl) tracked_sections)) =
  Some (foldl (λ m s, <[rstrip s.1 := strip s.2]> m) ∅ tracked_sections).
Proof.
  apply (to_json_sections_parsed ("# AI LEARNING FILE: notes" +:+ nl) tracked_sections).
  - by vm_compute.
  - apply not_contains_occurs. vm_compute. reflexivity.
  - repeat split; try (by vm_compute);
      try (apply not_contains_occurs; vm_compute; reflexivity).
    + left. vm_compute. reflexivity.
    + left. vm_compute. reflexivity.
    + right. done.
Defined.

End JsonSections.

(** ** [class AIDataValidator]: the structure checks and the section lists *)

Section StructureValidator.

Import Py AIDataValidator.

Local Arguments startswith : simpl never.
Local Arguments contains : simpl never.

(** The first line of a text and the lines after it. *)
Lemma split_lines_first (line rest : string) :
  single_line line → rest = "" ∨ startswith rest nl = true →
  split_lines (line +:+ rest) = line :: tail (split_lines rest).
Proof.
  intros Hline [-> | [rest' ->]%startswith_inv].
  - rewrite append_nil_r. by rewrite split_lines_one.
  - by rewrite split_lines_append.
Qed.

Lemma heading_Some (s title rest : string) :
  heading s = Some (title, rest) ↔
  title ≠ "" ∧ single_line title ∧ s = "## " +:+ title +:+ rest ∧
  (rest = "" ∨ startswith rest nl = true).
Proof.
  unfold heading. split.
  - destruct (startswith s "## ") eqn:Hstart; [|done].
    apply startswith_inv in Hstart as [after ->].
    change 3 with (String.length "## "). rewrite drop_append.
    by intros (? & ? & -> & ?)%dot_plus_Some.
  - intros (Hne & Hline & -> & Hrest). rewrite startswith_append.
    change 3 with (String.length "## "). rewrite drop_append.
    by apply dot_plus_Some.
Qed.

Lemma heading_title_Some (line title : string) :
  heading_title line = Some title ↔ title ≠ "" ∧ line = "## " +:+ title.
Proof.
  unfold heading_title. split.
  - destruct (startswith line "## ") eqn:Hstart; [|done].
    apply startswith_inv in Hstart as [after ->].
    change 3 with (String.length "## "). rewrite drop_append. simpl.
    destruct (String.eqb_spec after ""); [done |]. by intros [= <-].
  - intros [Hne ->]. rewrite startswith_append.
    change 3 with (String.length "## "). rewrite drop_append. simpl.
    by destruct (String.eqb_spec title "").
Qed.

(** Where the pattern does not match at the start of a text, the first
    line of the text names no section. *)
Lemma heading_None (line rest : string) :
  single_line line → rest = "" ∨ startswith rest nl = true →
  heading (line +:+ rest) = None → heading_title line = None.
Proof.
  intros Hline Hrest Hnone.
  destruct (heading_title line) as [title|] eqn:Htitle; [|done].
  apply heading_title_Some in Htitle as [Hne ->].
  rewrite (proj2 (heading_Some _ title rest)) in Hnone; [done |].
  split; [done |]. split; [|by rewrite append_assoc].
  by apply (single_line_append "## " title) in Hline as [_ ?].
Qed.

Lemma split_lines_cons (c : ascii) (s : string) :
  split_lines (String c s) =
  if Ascii.eqb c LF then "" :: split_lines s
  else match split_lines s with
       | line :: rest => String c line :: rest
       | [] => [String c ""]
       end.
Proof. done. Qed.

(** [re.findall] with the anchored pattern reads the text line by line. *)
Lemma findall_headings_lines (fuel : nat) (line_start : bool) (s : string) :
  String.length s ≤ fuel →
  findall_headings fuel line_start s =
  omap heading_title (if line_start then split_lines s else tail (split_lines s)).
Proof.
  revert line_start s. induction fuel as [|fuel IH]; intros line_start s Hfuel.
  { destruct s; [|simpl in Hfuel; lia]. by destruct line_start. }
  cbn [findall_headings].
  destruct (dot_star_spec s) as (Hline & rest & Hs & Hrest).
  pose proof (split_lines_first _ _ Hline Hrest) as Hsplit. rewrite <- Hs in Hsplit.
  assert (match s with
          | "" => []
          | String c s' => findall_headings fuel (Ascii.eqb c LF) s'
          end = omap heading_title (tail (split_lines s))) as Hskip.
  { destruct s as [|c s']; [done |]. rewrite IH by (simpl in Hfuel; lia).
    rewrite split_lines_cons. destruct (Ascii.eqb c LF); [done |].
    pose proof (split_lines_nonempty s'). by destruct (split_lines s'). }
  destruct line_start; [|exact Hskip].
  destruct (heading s) as [[title after]|] eqn:Hheading.
  - apply heading_Some in Hheading as (Hne & Htitle & -> & Hafter).
    rewrite IH.
    2:{ rewrite !length_append in Hfuel. simpl in Hfuel. lia. }
    rewrite <- append_assoc, split_lines_first; [| |done].
    + cbn [omap list_omap]. by rewrite (proj2 (heading_title_Some _ title)).
    + by apply single_line_append.
  - rewrite Hskip, Hsplit. cbn [omap list_omap tail].
    rewrite Hs in Hheading. by rewrite (heading_None _ _ Hline Hrest Hheading).
Qed.

(** X20: [list_sections] lists, in their order, the texts after [## ] of
    the lines that start with [## ] and go on: a subsection line [### name]
    and a bare [## ] are not listed. *)
Theorem list_sections_lines (file_path content error : string) :
  (list_sections file_path (Some content) error).2 =
  omap heading_title (split_lines content).
Proof. cbn [list_sections snd]. by rewrite findall_headings_lines. Qed.

Lemma filter_nil_length {A} (f : A → bool) (l : list A) :
  bool_decide (length (List.filter f l) = 0) = true ↔ ∀ x, x ∈ l → f x = false.
Proof.
  rewrite bool_decide_eq_true. split.
  - intros Hlen. apply filter_nil_inv. by destruct (List.filter f l).
  - intros Hl. by rewrite filter_nil_intro.
Qed.

(** X21: [compare_with_template] answers yes exactly when every section
    listed in the file is listed in the template and every mandatory
    section listed in the template is listed in the file.  Order and
    repetition play no part, sections of the template that are not
    mandatory may be missing, and a file that cannot be read counts as one
    without sections. *)
Theorem compare_with_template_spec
    (file_path template_path : string) (content template : option string)
    (error template_error : string) :
  (compare_with_template file_path template_path content template
                         error template_error).2 = true ↔
  (∀ s, s ∈ (list_sections file_path content error).2 →
        s ∈ (list_sections template_path template template_error).2) ∧
  (∀ s, s ∈ (list_sections template_path template template_error).2 →
        s ∈ mandatory_sections →
        s ∈ (list_sections file_path content error).2).
Proof.
  unfold compare_with_template.
  destruct (list_sections file_path content error) as [file_output file_sections].
  destruct (list_sections template_path template template_error)
    as [template_output template_sections].
  cbn [snd]. rewrite andb_true_iff, !filter_nil_length.
  split; intros [Hextra Hmissing]; split.
  - intros s Hs. apply Hextra in Hs. apply negb_false_iff in Hs.
    by apply bool_decide_eq_true in Hs.
  - intros s Hs Hmandatory. apply Hmissing in Hs.
    apply andb_false_iff in Hs as [Hs | Hs].
    + apply negb_false_iff in Hs. by apply bool_decide_eq_true in Hs.
    + by apply bool_decide_eq_false in Hs.
  - intros s Hs. apply negb_false_iff, bool_decide_eq_true. by apply Hextra.
  - intros s Hs. destruct (bool_decide_reflect (s ∈ mandatory_sections)) as [Hm | Hm].
    + rewrite andb_true_r. apply negb_false_iff, bool_decide_eq_true. by apply Hmissing.
    + apply andb_false_r.
Qed.

Lemma readline_startswith (content p : string) :
  single_line p → startswith content p = true → startswith (readline content) p = true.
Proof.
  revert content. induction p as [|c p IH]; intros content Hp; [done |].
  destruct content as [|d content]; [done |]. destruct Hp as [Hc Hp].
  rewrite startswith_cons. intros [Hd%Ascii.eqb_eq Hstart]%andb_true_iff. subst d.
  simpl. destruct (Ascii.eqb_spec c LF) as [-> | _]; [done |].
  rewrite startswith_cons, Ascii.eqb_refl. by apply IH.
Qed.

Lemma rstrip_append (a b : string) :
  rstrip (a +:+ b) = if String.eqb (rstrip b) "" then rstrip a else a +:+ rstrip b.
Proof.
  induction a as [|c a IH].
  - rewrite !append_nil_l. simpl. by destruct (String.eqb_spec (rstrip b) "").
  - rewrite !append_cons. simpl. rewrite IH.
    destruct (String.eqb_spec (rstrip b) "") as [Hb | Hb]; [done |].
    destruct a; [rewrite append_nil_l; by destruct (rstrip b) | by rewrite append_cons].
Qed.

Lemma strip_header (s : string) :
  startswith s "# AI LEARNING FILE:" = true →
  startswith (strip s) "# AI LEARNING FILE:" = true.
Proof.
  intros [rest ->]%startswith_inv. unfold strip.
  change (lstrip ("# AI LEARNING FILE:" +:+ rest)) with ("# AI LEARNING FILE:" +:+ rest).
  rewrite rstrip_append. destruct (String.eqb (rstrip rest) "").
  - by vm_compute.
  - apply startswith_append.
Qed.

(** What [validate_syntax] has checked when it passes a document. *)
Lemma validate_syntax_checks (content msg : string) :
  AIDataProcessor.validate_syntax (Some content) = (true, msg) →
  List.filter (λ section, negb (contains content ("## " +:+ section)))
              mandatory_sections = [] ∧
  startswith content "# AI LEARNING FILE:" = true ∧
  contains content "## CREATED" = true.
Proof.
  unfold AIDataProcessor.validate_syntax.
  destruct content as [|c content]; [done |].
  change AIDataProcessor.mandatory_sections with mandatory_sections.
  destruct (bool_decide_reflect
              (List.filter (λ section, negb (contains (String c content) ("## " +:+ section)))
                           mandatory_sections = [])) as [Hmissing | _]; [|done].
  destruct (startswith (String c content) "# AI LEARNING FILE:"); [|done].
  destruct (contains (String c content) "## CREATED"); done.
Qed.

(** X22: the validator is no stricter than the processor.  A document that
    [validate_syntax] of the command-line processor passes also passes
    [validate_file_structure], with its three checks of the header, the
    CREATED marker and the mandatory sections. *)
Theorem validate_syntax_implies_structure (file_path content error msg : string) :
  AIDataProcessor.validate_syntax (Some content) = (true, msg) →
  (validate_file_structure file_path (Some content) error).2 = true.
Proof.
  intros (Hsections & Hheader & Hcreated)%validate_syntax_checks.
  unfold validate_file_structure, validate_file_header, validate_created_section,
    validate_sections.
  rewrite strip_header by (by apply readline_startswith).
  rewrite Hcreated, sort_sections_spec, Hsections. done.
Qed.

Lemma validate_syntax_implies_structure_witness :
  (validate_file_structure "notes.aidata" (Some scenario_A) "").2 = true.
Proof.
  apply (validate_syntax_implies_structure "notes.aidata" scenario_A ""
           "Syntax validation passed.").
  vm_compute. reflexivity.
Defined.

End StructureValidator.

(** ** [class AIDataCryptoCLI]: encryption and decryption of files *)

Section CryptoFiles.

Import AIDataCryptoCLI.

Lemma pad_length_bounds (n : nat) : 1 ≤ 16 - n mod 16 ≤ 16.
Proof. pose proof (Nat.mod_upper_bound n 16). lia. Qed.

Lemma to_nat_pad_byte (n : nat) : n ≤ 16 → Byte.to_nat (pad_byte n) = n.
Proof.
  intros Hn. unfold pad_byte.
  assert (is_Some (Byte.of_nat n)) as [b Hb].
  { do 17 (destruct n as [|n]; [by eexists |]). lia. }
  rewrite Hb. by apply Byte.to_of_nat.
Qed.

Lemma length_pkcs7_pad (data : bytes) : length (pkcs7_pad data) mod 16 = 0.
Proof.
  unfold pkcs7_pad. rewrite length_app, length_replicate.
  pose proof (Nat.div_mod_eq (length data) 16).
  pose proof (Nat.mod_upper_bound (length data) 16).
  replace (length data + (16 - length data mod 16))
    with ((length data / 16 + 1) * 16) by lia.
  apply Nat.Div0.mod_mul.
Qed.

(** The padding of PKCS7 comes off again. *)
Lemma pkcs7_unpad_pad (data : bytes) : pkcs7_unpad (pkcs7_pad data) = Some data.
Proof.
  pose proof (length_pkcs7_pad data) as Hblocks. unfold pkcs7_unpad.
  unfold pkcs7_pad in *. set (n := 16 - length data mod 16) in *.
  pose proof (pad_length_bounds (length data)) as Hn. fold n in Hn.
  assert (last (data ++ replicate n (pad_byte n)) = Some (pad_byte n)) as ->.
  { destruct n as [|n']; [lia |]. rewrite replicate_S_end.
    by rewrite app_assoc, last_snoc. }
  cbv zeta. rewrite to_nat_pad_byte by lia. rewrite Hblocks.
  rewrite length_app, length_replicate.
  replace (length data + n - n) with (length data) by lia.
  rewrite drop_app_length, take_app_length.
  assert (forallb (λ x, Byte.to_nat x =? n) (replicate n (pad_byte n)) = true) as ->.
  { assert ((Byte.to_nat (pad_byte n) =? n) = true) as Hpad
      by (rewrite to_nat_pad_byte by lia; apply Nat.eqb_refl).
    generalize n at 2. intros m. induction m as [|m IH]; [done |].
    simpl. by rewrite Hpad, IH. }
  destruct Hn as [H1%Nat.leb_le H2%Nat.leb_le]. by rewrite H1, H2.
Qed.

Lemma read_Some (fs : gmap string bytes) (path : string) (data : bytes) :
  read fs path = Some data ↔ path ≠ "" ∧ fs !! path = Some data.
Proof.
  unfold read. destruct path as [|c path]; simpl.
  - split; [done | by intros [? _]].
  - split; [by intros -> | by intros [_ ->]].
Qed.

Lemma given_Some (path : string) : path ≠ "" → given (Some path) = Some path.
Proof. by destruct path. Qed.

Lemma write_named (fs : gmap string bytes) (path : string) (data : bytes) :
  path ≠ "" → write fs path data = inr (<[path := data]> fs).
Proof. by destruct path. Qed.

Lemma append_nonempty (s t : string) : t ≠ "" → s +:+ t ≠ "".
Proof.
  intros Ht. destruct s; [by rewrite append_nil_l | by rewrite append_cons].
Qed.

Lemma endswith_append (s suffix : string) : endswith (s +:+ suffix) suffix = true.
Proof.
  unfold endswith. rewrite length_append.
  replace (String.length s + String.length suffix - String.length suffix)
    with (String.length s) by lia.
  rewrite drop_append, String.eqb_refl, andb_true_r. apply Nat.leb_le. lia.
Qed.

Lemma take_append (s t : string) : Py.take (String.length s) (s +:+ t) = s.
Proof.
  induction s as [|c s IH]; [by destruct t |]. rewrite append_cons. simpl. by rewrite IH.
Qed.

(** The name that [decrypt_file] chooses for the output of [encrypt_file]
    is the name of the file that was encrypted. *)
Lemma default_names (input_file : string) :
  (if endswith (input_file +:+ ".enc") ".enc"
   then Py.take (String.length (input_file +:+ ".enc") - 4) (input_file +:+ ".enc")
   else (input_file +:+ ".enc") +:+ ".dec") = input_file.
Proof.
  rewrite endswith_append, length_append.
  replace (String.length input_file + String.length ".enc" - 4)
    with (String.length input_file) by (simpl; lia).
  apply take_append.
Qed.

(** What [encrypt_file] does with a key file and no password. *)
Lemma encrypt_file_with_key_file
    (lib : library) (salt iv : bytes) (fs : gmap string bytes)
    (input_file key_file : string) (output_file : option string)
    (plaintext key : bytes) :
  read fs input_file = Some plaintext →
  read fs key_file = Some key →
  length key = 32 →
  encrypt_file lib salt iv fs input_file output_file None (Some key_file) =
  let output_file := default (input_file +:+ ".enc") (given output_file) in
  Outcome true ("File encrypted successfully: " +:+ output_file)
          (<[output_file := iv ++ aes_cbc_encrypt lib key iv (pkcs7_pad plaintext)]> fs).
Proof.
  intros Hinput Hkeyfile Hkey.
  pose proof Hinput as [Hinput_named _]%read_Some.
  pose proof Hkeyfile as [Hkey_named _]%read_Some.
  assert (default (input_file +:+ ".enc") (given output_file) ≠ "") as Houtput.
  { destruct output_file as [[|c name]|]; [|done|]; by apply append_nonempty. }
  unfold encrypt_file. rewrite Hinput, (given_Some key_file), Hkeyfile, Hkey by done.
  cbn [given negb Nat.eqb]. by rewrite !write_named.
Qed.

(** What [encrypt_file] does with a password and no key file. *)
Lemma encrypt_file_with_password
    (lib : library) (salt iv : bytes) (fs : gmap string bytes)
    (input_file password : string) (output_file : option string) (plaintext : bytes) :
  read fs input_file = Some plaintext →
  password ≠ "" →
  encrypt_file lib salt iv fs input_file output_file (Some password) None =
  let output_file := default (input_file +:+ ".enc") (given output_file) in
  Outcome true ("File encrypted successfully: " +:+ output_file)
          (<[output_file := salt ++ iv ++
               aes_cbc_encrypt lib (derive_key lib password salt) iv
                               (pkcs7_pad plaintext)]> fs).
Proof.
  intros Hinput Hpassword.
  pose proof Hinput as [Hinput_named _]%read_Some.
  assert (default (input_file +:+ ".enc") (given output_file) ≠ "") as Houtput.
  { destruct output_file as [[|c name]|]; [|done|]; by apply append_nonempty. }
  unfold encrypt_file. rewrite Hinput, (given_Some password) by done.
  cbn [given]. by rewrite !write_named.
Qed.

(** What [decrypt_file] does with the bytes that decrypt to padded data. *)
Lemma decrypt_file_written
    (lib : library) (fs : gmap string bytes) (output_file : string)
    (key iv ciphertext plaintext : bytes) :
  cipher_inverts lib →
  output_file ≠ "" → length key = 32 → length iv = 16 →
  ciphertext = aes_cbc_encrypt lib key iv (pkcs7_pad plaintext) →
  (if negb (length iv =? 16) then inl InvalidIVSize
   else if negb (length ciphertext mod 16 =? 0) then inl NotBlockMultiple
   else match pkcs7_unpad (aes_cbc_decrypt lib key iv ciphertext) with
        | None => inl InvalidPadding
        | Some plaintext => write fs output_file plaintext
        end) = inr (<[output_file := plaintext]> fs).
Proof.
  intros Hcipher Houtput Hkey Hiv ->.
  destruct (Hcipher key iv (pkcs7_pad plaintext) Hkey Hiv (length_pkcs7_pad _))
    as [Hlength Hinverse].
  rewrite Hiv, Hlength, length_pkcs7_pad, Hinverse, pkcs7_unpad_pad.
  by rewrite write_named.
Qed.

(** X23: encryption and decryption with a key file undo each other.  With
    the names left to the methods, [encrypt_file] writes the file with
    [.enc] added to its name, and [decrypt_file] on that file puts the bytes
    of the file that was encrypted back under its name. *)
Theorem encrypt_decrypt_with_key_file
    (lib : library) (salt iv : bytes) (fs : gmap string bytes)
    (input_file key_file : string) (plaintext key : bytes) :
  cipher_inverts lib →
  read fs input_file = Some plaintext →
  read fs key_file = Some key →
  length key = 32 →
  length iv = 16 →
  key_file ≠ input_file +:+ ".enc" →
  let encrypted := encrypt_file lib salt iv fs input_file None None (Some key_file) in
  let decrypted :=
    decrypt_file lib (files_after encrypted) (input_file +:+ ".enc") None None
                 (Some key_file) in
  returned encrypted = true ∧
  returned decrypted = true ∧
  read (files_after decrypted) input_file = Some plaintext.
Proof.
  intros Hcipher Hinput Hkeyfile Hkey Hiv Hnames encrypted decrypted.
  pose proof Hinput as [Hinput_named _]%read_Some.
  pose proof Hkeyfile as [Hkey_named Hkey_lookup]%read_Some.
  assert (input_file +:+ ".enc" ≠ "") as Houtput by (by apply append_nonempty).
  subst decrypted encrypted.
  rewrite (encrypt_file_with_key_file lib salt iv fs input_file key_file None
                                      plaintext key) by done.
  cbn [given default from_option returned files_after]. split; [done |].
  set (ciphertext := aes_cbc_encrypt lib key iv (pkcs7_pad plaintext)).
  set (fs' := <[input_file +:+ ".enc" := iv ++ ciphertext]> fs).
  assert (read fs' (input_file +:+ ".enc") = Some (iv ++ ciphertext)) as Hencrypted.
  { apply read_Some. split; [done |]. apply lookup_insert_eq. }
  assert (read fs' key_file = Some key) as Hkeyfile'.
  { apply read_Some. split; [done |]. unfold fs'. by rewrite lookup_insert_ne. }
  unfold decrypt_file. rewrite Hencrypted, (given_Some key_file), Hkeyfile', Hkey by done.
  cbn [given negb Nat.eqb]. rewrite default_names.
  assert (take 16 (iv ++ ciphertext) = iv) as ->
    by (rewrite <- Hiv; apply take_app_length).
  assert (drop 16 (iv ++ ciphertext) = ciphertext) as ->
    by (rewrite <- Hiv; apply drop_app_length).
  rewrite (decrypt_file_written lib fs' input_file key iv ciphertext plaintext) by done.
  cbn [returned files_after]. split; [done |].
  apply read_Some. split; [done |]. apply lookup_insert_eq.
Qed.

Lemma cipher_inverts_plain : cipher_inverts plain_library.
Proof. by intros key iv data _ _ _. Qed.

Lemma encrypt_decrypt_with_key_file_witness :
  let encrypted :=
    encrypt_file plain_library [] (replicate 16 Byte.x01) two_files
                 "notes.aidata" None None (Some "secret.key") in
  let decrypted :=
    decrypt_file plain_library (files_after encrypted) ("notes.aidata" +:+ ".enc")
                 None None (Some "secret.key") in
  returned encrypted = true ∧
  returned decrypted = true ∧
  read (files_after decrypted) "notes.aidata" = Some [Byte.x41; Byte.x42; Byte.x43].
Proof.
  apply (encrypt_decrypt_with_key_file plain_library [] (replicate 16 Byte.x01) two_files
           "notes.aidata" "secret.key" [Byte.x41; Byte.x42; Byte.x43]
           (replicate 32 Byte.x07)).
  - exact cipher_inverts_plain.
  - vm_compute. reflexivity.
  - vm_compute. reflexivity.
  - reflexivity.
  - reflexivity.
  - by vm_compute.
Defined.

(** X24: encryption and decryption with a password undo each other.  The
    encrypted file holds the salt, the initialization vector and the
    encrypted bytes, in this order, and [decrypt_file] with the same
    password reads them back and puts the bytes of the file that was
    encrypted under its name. *)
Theorem encrypt_decrypt_with_password
    (lib : library) (salt iv : bytes) (fs : gmap string bytes)
    (input_file password : string) (plaintext : bytes) :
  cipher_inverts lib →
  derives_keys lib →
  read fs input_file = Some plaintext →
  password ≠ "" →
  length salt = 16 →
  length iv = 16 →
  let encrypted := encrypt_file lib salt iv fs input_file None (Some password) None in
  let decrypted :=
    decrypt_file lib (files_after encrypted) (input_file +:+ ".enc") None
                 (Some password) None in
  returned encrypted = true ∧
  read (files_after encrypted) (input_file +:+ ".enc") =
    Some (salt ++ iv ++
          aes_cbc_encrypt lib (derive_key lib password salt) iv (pkcs7_pad plaintext)) ∧
  returned decrypted = true ∧
  read (files_after decrypted) input_file = Some plaintext.
Proof.
  intros Hcipher Hderive Hinput Hpassword Hsalt Hiv encrypted decrypted.
  pose proof Hinput as [Hinput_named _]%read_Some.
  assert (input_file +:+ ".enc" ≠ "") as Houtput by (by apply append_nonempty).
  subst decrypted encrypted.
  rewrite (encrypt_file_with_password lib salt iv fs input_file password None plaintext)
    by done.
  cbn [given default from_option returned files_after]. split; [done |].
  set (key := derive_key lib password salt).
  set (ciphertext := aes_cbc_encrypt lib key iv (pkcs7_pad plaintext)).
  set (fs' := <[input_file +:+ ".enc" := salt ++ iv ++ ciphertext]> fs).
  assert (read fs' (input_file +:+ ".enc") = Some (salt ++ iv ++ ciphertext))
    as Hencrypted.
  { apply read_Some. split; [done |]. apply lookup_insert_eq. }
  split; [done |].
  unfold decrypt_file. rewrite Hencrypted, (given_Some password) by done.
  cbn [given]. rewrite default_names.
  assert (take 16 (salt ++ iv ++ ciphertext) = salt) as ->
    by (rewrite <- Hsalt; apply take_app_length).
  assert (drop 16 (salt ++ iv ++ ciphertext) = iv ++ ciphertext) as ->
    by (rewrite <- Hsalt; apply drop_app_length).
  assert (take 16 (iv ++ ciphertext) = iv) as ->
    by (rewrite <- Hiv; apply take_app_length).
  assert (drop 16 (iv ++ ciphertext) = ciphertext) as ->
    by (rewrite <- Hiv; apply drop_app_length).
  fold key.
  rewrite (decrypt_file_written lib fs' input_file key iv ciphertext plaintext)
    by (done || apply Hderive).
  cbn [returned files_after]. split; [done |].
  apply read_Some. split; [done |]. apply lookup_insert_eq.
Qed.

Lemma encrypt_decrypt_with_password_witness :
  let encrypted :=
    encrypt_file plain_library (replicate 16 Byte.x02) (replicate 16 Byte.x01) two_files
                 "notes.aidata" None (Some "pass") None in
  let decrypted :=
    decrypt_file plain_library (files_after encrypted) ("notes.aidata" +:+ ".enc")
                 None (Some "pass") None in
  returned encrypted = true ∧
  read (files_after encrypted) ("notes.aidata" +:+ ".enc") =
    Some (replicate 16 Byte.x02 ++ replicate 16 Byte.x01 ++
          aes_cbc_encrypt plain_library
            (derive_key plain_library "pass" (replicate 16 Byte.x02))
            (replicate 16 Byte.x01) (pkcs7_pad [Byte.x41; Byte.x42; Byte.x43])) ∧
  returned decrypted = true ∧
  read (files_after decrypted) "notes.aidata" = Some [Byte.x41; Byte.x42; Byte.x43].
Proof.
  apply (encrypt_decrypt_with_password plain_library (replicate 16 Byte.x02)
           (replicate 16 Byte.x01) two_files "notes.aidata" "pass"
           [Byte.x41; Byte.x42; Byte.x43]).
  - exact cipher_inverts_plain.
  - by intros password salt.
  - vm_compute. reflexivity.
  - done.
  - reflexivity.
  - reflexivity.
Defined.

(** X25: with both a key file and a password, [encrypt_file] encrypts
    nothing.  The salt is bound only where the password gives the key, the
    key file comes first, and the write of the salt dies after the output
    file is opened: the method returns failure and leaves the output file
    empty, whatever it held. *)
Theorem encrypt_with_key_file_and_password
    (lib : library) (salt iv : bytes) (fs : gmap string bytes)
    (input_file password key_file : string) (output_file : option string)
    (plaintext key : bytes) :
  read fs input_file = Some plaintext →
  read fs key_file = Some key →
  length key = 32 →
  password ≠ "" →
  encrypt_file lib salt iv fs input_file output_file (Some password) (Some key_file) =
  Outcome false ("Error during encryption: " +:+ error_text lib UnboundLocalError)
          (<[default (input_file +:+ ".enc") (given output_file) := []]> fs).
Proof.
  intros Hinput Hkeyfile Hkey Hpassword.
  pose proof Hinput as [Hinput_named _]%read_Some.
  pose proof Hkeyfile as [Hkey_named _]%read_Some.
  assert (default (input_file +:+ ".enc") (given output_file) ≠ "") as Houtput.
  { destruct output_file as [[|c name]|]; [|done|]; by apply append_nonempty. }
  unfold encrypt_file. rewrite Hinput, (given_Some key_file), Hkeyfile, Hkey by done.
  rewrite (given_Some password) by done.
  cbn [negb Nat.eqb]. by rewrite !write_named.
Qed.

Lemma encrypt_with_key_file_and_password_witness :
  encrypt_file plain_library (replicate 16 Byte.x02) (replicate 16 Byte.x01) two_files
               "notes.aidata" (Some "notes.aidata") (Some "pass") (Some "secret.key") =
  Outcome false ("Error during encryption: " +:+ error_text plain_library UnboundLocalError)
          (<[default ("notes.aidata" +:+ ".enc") (given (Some "notes.aidata")) := []]>
             two_files).
Proof.
  apply (encrypt_with_key_file_and_password plain_library (replicate 16 Byte.x02)
           (replicate 16 Byte.x01) two_files "notes.aidata" "pass" "secret.key"
           (Some "notes.aidata") [Byte.x41; Byte.x42; Byte.x43] (replicate 32 Byte.x07)).
  - vm_compute. reflexivity.
  - vm_compute. reflexivity.
  - reflexivity.
  - done.
Defined.

(** X26: a [decrypt_file] that returns failure has changed no file. *)
Theorem decrypt_failure_changes_nothing
    (lib : library) (fs : gmap string bytes)
    (input_file : string) (output_file password key_file : option string) :
  returned (decrypt_file lib fs input_file output_file password key_file) = false →
  files_after (decrypt_file lib fs input_file output_file password key_file) = fs.
Proof.
  unfold decrypt_file. destruct (read fs input_file) as [file_data|]; [|done].
  destruct (given key_file) as [name|].
  - destruct (read fs name) as [key|]; [|done].
    destruct (negb (length key =? 32)); [done |].
    destruct (negb (length (take 16 file_data) =? 16)); [done |].
    destruct (negb (length (drop 16 file_data) mod 16 =? 0)); [done |].
    destruct (pkcs7_unpad _); [|done]. unfold write.
    by destruct (Py.truthy _).
  - destruct (given password) as [word|]; [|done].
    destruct (negb (length (take 16 (drop 16 file_data)) =? 16)); [done |].
    destruct (negb (length (drop 16 (drop 16 file_data)) mod 16 =? 0)); [done |].
    destruct (pkcs7_unpad _); [|done]. unfold write.
    by destruct (Py.truthy _).
Qed.

Lemma decrypt_failure_changes_nothing_witness :
  files_after (decrypt_file plain_library two_files "notes.aidata" None None
                            (Some "secret.key")) = two_files.
Proof.
  apply (decrypt_failure_changes_nothing plain_library two_files "notes.aidata"
           None None (Some "secret.key")).
  vm_compute. reflexivity.
Defined.

End CryptoFiles.

(** ** [to_json]: the metadata of any document *)

Section JsonMetadataEmpty.

Import Py AIDataProcessor.

(** X27: [to_json] records no metadata, whatever the document holds: the
    FILE METADATA pattern can only capture backslashes and the letters [s]
    and [S], so that no line of what it captures starts with [- **], and
    the mapping stays empty. *)
Theorem to_json_records_no_metadata (content : option string) (metadata : gmap string string) :
  to_json_metadata content = Some metadata → metadata = ∅.
Proof.
  destruct content as [content|]; [|done].
  destruct (decide (content = "")) as [-> | Hne]; [done |].
  rewrite to_json_metadata_empty by done. by intros [= <-].
Qed.

Lemma to_json_records_no_metadata_witness :
  foldl add_metadata_line ∅ (split_lines (String backslash "")) = ∅.
Proof.
  apply (to_json_records_no_metadata
           (Some (join nl ["## FILE METADATA"; String backslash (String backslash "Z")]))).
  vm_compute. reflexivity.
Defined.

End JsonMetadataEmpty.

(** ** Checkpoints one after the other *)

Section CheckpointsInTurn.

Import Py AIDataProcessor.

Local Arguments startswith : simpl never.
Local Arguments contains : simpl never.

Lemma rstrip_prefix (s : string) : ∃ t, s = rstrip s +:+ t.
Proof.
  induction s as [|c s [t IH]]; [by exists "" |]. simpl.
  destruct (rstrip s) as [|d r] eqn:Hr.
  - destruct (is_space c); [by exists (String c s) |].
    exists s. by rewrite append_cons, append_nil_l.
  - exists t. rewrite append_cons. by rewrite <- IH.
Qed.

Lemma single_line_rstrip (s : string) : single_line s → single_line (rstrip s).
Proof.
  intros Hs. destruct (rstrip_prefix s) as [t Ht]. rewrite Ht in Hs.
  by apply single_line_append in Hs as [? _].
Qed.

(** The entry without the line feed at its end is one line when the time
    and the description are, and it is no top-level marker. *)
Lemma checkpoint_line (timestamp description : string) :
  single_line timestamp → single_line description →
  single_line (rstrip (checkpoint_entry timestamp description)) ∧
  startswith (rstrip (checkpoint_entry timestamp description)) "## " = false.
Proof.
  intros Htime Hdescription. unfold checkpoint_entry. split.
  - rewrite <- !append_assoc, rstrip_append.
    change (String.eqb (rstrip nl) "") with true. cbv iota.
    apply single_line_rstrip. rewrite !append_assoc.
    repeat (apply single_line_append; split); try done; by vm_compute.
  - change ("- **" +:+ timestamp +:+ "**: " +:+ description +:+ nl)
      with (String "-" (" **" +:+ timestamp +:+ "**: " +:+ description +:+ nl)).
    simpl. by destruct (rstrip _).
Qed.

(** Inside the Checkpoint History, a line that is no top-level marker and
    stands right before one: the entry goes in between the two. *)
Lemma find_checkpoint_slot_last_entry (i : nat) (line next : string) (after : list string) :
  startswith line "## " = false →
  startswith next "## " = true →
  contains next "## EVOLUTION TRACKING" = false →
  contains next "### Checkpoint History" = false →
  find_checkpoint_slot i (line :: next :: after) true true true = (Some (S i), true).
Proof.
  intros Hline Hnext1 Hnext2 Hnext3. simpl.
  rewrite Hline, Hnext1, Hnext2, Hnext3. simpl.
  by destruct (contains line "## EVOLUTION TRACKING"),
              (contains line "### Checkpoint History"), (contains line "- ****:").
Qed.

Lemma find_checkpoint_slot_heading (i : nat) (rest : list string) :
  find_checkpoint_slot i ("### Checkpoint History" :: rest) true false false =
  find_checkpoint_slot (S i) rest true true true.
Proof. done. Qed.

(** On a text without Checkpoint History and with a top-level marker after
    the EVOLUTION TRACKING section, a first [add_checkpoint] starts the
    history, and a second one on the text that the first wrote puts its
    entry right after the first, in front of that marker. *)
Lemma add_checkpoint_twice_text
    (file timestamp1 description1 timestamp2 description2 : string)
    (before mid after : list string) (evolution next : string) :
  split_lines file = before ++ evolution :: mid ++ next :: after →
  (∀ line, line ∈ before → contains line "## EVOLUTION TRACKING" = false) →
  contains evolution "## EVOLUTION TRACKING" = true →
  (∀ line, line ∈ mid ++ next :: after →
           contains line "## EVOLUTION TRACKING" = true ∨
           contains line "### Checkpoint History" = false) →
  (∀ line, line ∈ mid →
           startswith line "## " = false ∨
           contains line "## EVOLUTION TRACKING" = true) →
  startswith next "## " = true →
  contains next "## EVOLUTION TRACKING" = false →
  single_line timestamp1 →
  single_line description1 →
  add_checkpoint_on timestamp2 description2
    (add_checkpoint_on timestamp1 description1 file).2 =
  (inr (true, "Checkpoint added: " +:+ description2),
   join nl (before ++ evolution :: mid ++
            "" :: "### Checkpoint History" ::
            rstrip (checkpoint_entry timestamp1 description1) ::
            checkpoint_entry timestamp2 description2 :: next :: after)).
Proof.
  intros Hsplit Hbefore Hevolution Hhistory Hmid Hnext1 Hnext2 Htime Hdescription.
  destruct (checkpoint_line _ _ Htime Hdescription) as [Hline1 Hline2].
  set (line := rstrip (checkpoint_entry timestamp1 description1)) in *.
  assert (contains next "### Checkpoint History" = false) as Hnext3.
  { destruct (Hhistory next) as [H | H]; [|congruence | done].
    apply elem_of_app. right. by left. }
  set (lines := before ++ evolution :: (mid ++ [""]) ++
                "### Checkpoint History" :: [line] ++ next :: after).
  assert ((add_checkpoint_on timestamp1 description1 file).2 = join nl lines) as ->.
  { unfold add_checkpoint_on, run_on.
    rewrite (add_checkpoint_creates_history
               file timestamp1 description1 before mid after evolution next) by done.
    cbn [run snd]. fold (checkpoint_entry timestamp1 description1). fold line.
    assert (before ++ evolution :: mid ≠ []) as Hne by (by destruct before).
    assert (∀ l, before ++ evolution :: mid ++ l = (before ++ evolution :: mid) ++ l)
      as Hassoc by (intros l; by rewrite <- app_assoc).
    unfold lines. rewrite <- (app_assoc mid). cbn [app].
    rewrite !Hassoc, !(join_app (before ++ evolution :: mid)) by done.
    by rewrite !join_cons_cons, append_nil_l, append_assoc. }
  assert (Forall single_line lines) as Hlines.
  { pose proof (split_lines_single_line file) as Hfile. rewrite Hsplit in Hfile.
    apply Forall_app in Hfile as [Hb Hfile].
    apply Forall_cons in Hfile as [He Hfile].
    apply Forall_app in Hfile as [Hm Hfile].
    unfold lines. apply Forall_app. split; [done |].
    apply Forall_cons. split; [done |].
    apply Forall_app. split; [apply Forall_app; split; [done | by repeat constructor] |].
    apply Forall_cons. split; [by vm_compute |].
    apply Forall_cons. split; done. }
  assert (lines ≠ []) as Hne by (unfold lines; by destruct before).
  unfold add_checkpoint_on, run_on, add_checkpoint.
  destruct (join nl lines) as [|c content] eqn:Hjoin.
  { apply (f_equal split_lines) in Hjoin. rewrite split_lines_join in Hjoin by done.
    unfold lines in Hjoin. destruct before as [|x [|y before]]; simplify_eq/=. }
  rewrite <- Hjoin, split_lines_join by done. unfold lines.
  rewrite find_checkpoint_slot_before by done. simpl find_checkpoint_slot.
  rewrite Hevolution, find_checkpoint_slot_tracking.
  2:{ intros l [Hl | ->%list_elem_of_singleton]%elem_of_app; [|by right].
      apply Hhistory. apply elem_of_app. by left. }
  rewrite find_checkpoint_slot_heading. cbn [app].
  rewrite find_checkpoint_slot_last_entry by done.
  cbn [run]. f_equal. f_equal.
  rewrite (insert_at_split _ (before ++ evolution :: (mid ++ [""]) ++
                              ["### Checkpoint History"; line])
                           (next :: after)).
  - by repeat (rewrite <- ?app_assoc; cbn [app]).
  - by repeat (rewrite <- ?app_assoc; cbn [app]).
  - rewrite !length_app. simpl. rewrite !length_app. simpl. lia.
Qed.

End CheckpointsInTurn.

(** ** The sections that the validator lists and the sections of [to_json] *)

Section ListedSections.

Import Py AIDataProcessor.

Local Arguments startswith : simpl never.
Local Arguments contains : simpl never.

(** The pattern of [list_sections] matches where the pattern of [to_json]
    does, with the same title. *)
Lemma heading_section_line (s title rest : string) :
  AIDataValidator.heading s = Some (title, rest) ↔
  section_line s = Some ("## " +:+ title, rest).
Proof.
  unfold AIDataValidator.heading, section_line.
  destruct (startswith s "## "); [|done].
  destruct (dot_plus (drop 3 s)) as [[line after]|]; [|done]. simpl. split.
  - by intros [= -> ->].
  - intros [= Heq ->]. rewrite !append_nil_l in Heq. by subst.
Qed.

Lemma section_line_Some (s m rest : string) :
  section_line s = Some (m, rest) →
  ∃ title, m = "## " +:+ title ∧ title ≠ "" ∧ single_line title ∧
           s = m +:+ rest ∧ (rest = "" ∨ startswith rest nl = true).
Proof.
  unfold section_line. destruct (startswith s "## ") eqn:Hstart; [|done].
  apply startswith_inv in Hstart as [after ->].
  change 3 with (String.length "## "). rewrite drop_append.
  destruct (dot_plus after) as [[title rest']|] eqn:Hplus; [|done].
  intros [= <- <-]. apply dot_plus_Some in Hplus as (Hne & Hline & -> & Hrest).
  exists title. by rewrite append_assoc.
Qed.

(** The sections listed from a place of a text, with the fuel that the
    text needs. *)
Lemma findall_headings_step (line_start : bool) (c : ascii) (s : string) :
  AIDataValidator.findall_headings (String.length (String c s)) line_start (String c s) =
  match (if line_start then AIDataValidator.heading (String c s) else None) with
  | Some (title, rest) =>
      title :: AIDataValidator.findall_headings (String.length rest) false rest
  | None => AIDataValidator.findall_headings (String.length s) (Ascii.eqb c LF) s
  end.
Proof.
  cbn [String.length AIDataValidator.findall_headings].
  destruct (if line_start then AIDataValidator.heading (String c s) else None)
    as [[title rest]|] eqn:Hheading; [|done].
  f_equal. destruct line_start; [|done].
  apply heading_Some in Hheading as (_ & _ & Hs & _).
  apply (f_equal String.length) in Hs. rewrite !length_append in Hs.
  cbn [String.length] in Hs.
  by rewrite !findall_headings_lines by lia.
Qed.

(** Where the pattern of [to_json] finds nothing, nothing is listed. *)
Lemma findall_headings_none (line_start : bool) (s : string) :
  Re.search_by section_line s = None →
  AIDataValidator.findall_headings (String.length s) line_start s = [].
Proof.
  revert line_start. induction s as [|c s IH]; intros line_start; [done |].
  cbn [Re.search_by]. destruct (section_line (String c s)) as [[m rest]|] eqn:Hm; [done |].
  destruct (Re.search_by section_line s) as [[[pre m] rest]|] eqn:Hs; [done |].
  intros _. rewrite findall_headings_step.
  destruct line_start; [|by apply IH].
  destruct (AIDataValidator.heading (String c s)) as [[title rest]|] eqn:Hheading;
    [|by apply IH].
  apply heading_section_line in Hheading. congruence.
Qed.

(** Past a line without line feed, from inside the line. *)
Lemma findall_headings_skip (line rest : string) :
  single_line line →
  AIDataValidator.findall_headings (String.length (line +:+ rest)) false (line +:+ rest) =
  AIDataValidator.findall_headings (String.length rest) false rest.
Proof.
  induction line as [|c line IH]; intros Hline; [by rewrite append_nil_l |].
  destruct Hline as [Hc Hline]. rewrite append_cons, findall_headings_step.
  cbv iota. destruct (Ascii.eqb_spec c LF) as [-> | _]; [done |]. by apply IH.
Qed.

(** Up to the first match of the pattern of [to_json], the only section
    that can be listed is the one of that match. *)
Lemma findall_headings_first (line_start : bool) (s pre m rest title : string) :
  Re.search_by section_line s = Some (pre, m, rest) →
  title ∈ AIDataValidator.findall_headings (String.length s) line_start s →
  m = "## " +:+ title ∨
  title ∈ AIDataValidator.findall_headings (String.length rest) false rest.
Proof.
  revert line_start pre. induction s as [|c s IH]; intros line_start pre.
  { by intros _ ?%elem_of_nil. }
  cbn [Re.search_by].
  destruct (section_line (String c s)) as [[m' rest']|] eqn:Hm.
  - intros [= <- -> ->]. destruct line_start.
    + rewrite findall_headings_step.
      destruct (section_line_Some _ _ _ Hm) as (title' & -> & _).
      rewrite (proj2 (heading_section_line _ title' rest) Hm).
      intros [-> | Hin]%elem_of_cons; [by left | by right].
    + destruct (section_line_Some _ _ _ Hm) as (title' & -> & _ & Hline & Hs & _).
      rewrite Hs, findall_headings_skip; [by right |].
      apply single_line_append. by split.
  - destruct (Re.search_by section_line s) as [[[pre' m'] rest']|] eqn:Hs; [|done].
    intros [= <- <- <-]. rewrite findall_headings_step.
    assert ((if line_start then AIDataValidator.heading (String c s) else None) = None)
      as ->.
    { destruct line_start; [|done].
      destruct (AIDataValidator.heading (String c s)) as [[t r]|] eqn:Hheading; [|done].
      apply heading_section_line in Hheading. congruence. }
    by apply (IH _ pre').
Qed.

Lemma add_sections_keeps (pairs : list string) (sections : gmap string string)
    (name : string) :
  is_Some (sections !! name) → is_Some (add_sections pairs sections !! name).
Proof.
  revert sections. induction pairs as [|x|header text pairs IH] using pairs_ind;
    intros sections Hname; [done | done |].
  cbn [add_sections]. apply IH. apply lookup_insert_is_Some'. by right.
Qed.

Lemma split_by_nonempty (fuel : nat) (matcher : string → option (string * string))
    (s : string) : Re.split_by fuel matcher s ≠ [].
Proof. destruct fuel; simpl; [done |]. by destruct (Re.search_by matcher s) as [[[??]?]|]. Qed.

Lemma search_by_shorter (s pre m rest : string) :
  Re.search_by section_line s = Some (pre, m, rest) →
  String.length rest < String.length s.
Proof.
  revert pre. induction s as [|c s IH]; intros pre; cbn [Re.search_by].
  - intros H. by vm_compute in H.
  - destruct (section_line (String c s)) as [[m' rest']|] eqn:Hm.
    + intros [= <- <- <-].
      apply section_line_Some in Hm as (title & -> & Hne & _ & Hs & _).
      rewrite Hs, !length_append. simpl. lia.
    + destruct (Re.search_by section_line s) as [[[pre' m'] rest']|] eqn:Hs; [|done].
      intros [= <- <- <-]. specialize (IH _ eq_refl). simpl. lia.
Qed.

(** The sections listed in a text are among the sections that the loop of
    [to_json] records. *)
Lemma listed_in_sections (fuel : nat) (line_start : bool) (s title : string)
    (sections : gmap string string) :
  String.length s ≤ fuel →
  title ∈ AIDataValidator.findall_headings (String.length s) line_start s →
  is_Some (add_sections (tail (Re.split_by fuel section_line s)) sections
             !! rstrip title).
Proof.
  revert line_start s sections.
  induction fuel as [|fuel IH]; intros line_start s sections Hfuel Hin.
  { destruct s; [|simpl in Hfuel; lia]. by apply elem_of_nil in Hin. }
  cbn [Re.split_by].
  destruct (Re.search_by section_line s) as [[[pre m] rest]|] eqn:Hs.
  2:{ rewrite findall_headings_none in Hin by done. by apply elem_of_nil in Hin. }
  pose proof (search_by_shorter _ _ _ _ Hs) as Hshorter.
  pose proof (split_by_nonempty fuel section_line rest) as Hne.
  destruct (Re.split_by fuel section_line rest) as [|first pairs] eqn:Hsplit; [done |].
  cbn [tail add_sections].
  destruct (findall_headings_first _ _ _ _ _ _ Hs Hin) as [-> | Hrest].
  - apply add_sections_keeps. rewrite section_name_rstrip. apply lookup_insert_is_Some'.
    by left.
  - specialize (IH false rest (<[drop 3 (strip m) := strip first]> sections)).
    rewrite Hsplit in IH. apply IH; [lia | done].
Qed.

(** X29: every section that [list_sections] of the validator lists has an
    entry among the sections of [to_json], under its title without the
    white space at its end. *)
Theorem listed_sections_in_json (content title : string) (sections : gmap string string) :
  to_json_sections (Some content) = Some sections →
  title ∈ listed_sections content →
  is_Some (sections !! rstrip title).
Proof.
  intros Hjson Hin.
  assert (sections =
          add_sections
            (tail (Re.split_by (String.length content) section_line content)) ∅) as ->.
  { unfold to_json_sections in Hjson. destruct content; [done |].
    by injection Hjson as <-. }
  apply (listed_in_sections _ true); [done | exact Hin].
Qed.

Lemma listed_sections_in_json_witness :
  is_Some (default ∅ (to_json_sections (Some tracked_with_history))
             !! rstrip "EVOLUTION TRACKING").
Proof.
  apply (listed_sections_in_json tracked_with_history "EVOLUTION TRACKING").
  - vm_compute. reflexivity.
  - apply (bool_decide_unpack _). vm_compute. exact I.
Defined.

End ListedSections.

(** ** Files as they are stored: line ends *)

Section FilesAsStored.

Import Py AIDataProcessor.

Local Arguments startswith : simpl never.
Local Arguments contains : simpl never.
Local Arguments SHA256.hexdigest : simpl never.

(** Text read in text mode holds no carriage return. *)
Lemma universal_newlines_free (s : string) : no_carriage_return (universal_newlines s).
Proof.
  assert (no_carriage_return (universal_newlines s) ∧
          ∀ c, no_carriage_return (universal_newlines (String c s))) as [H _]; [|done].
  induction s as [|d s [IH1 IH2]].
  - split; [done |]. intros c. simpl. destruct (Ascii.eqb_spec c CR); by split.
  - split; [apply IH2 |]. intros c. cbn [universal_newlines].
    destruct (Ascii.eqb_spec c CR) as [-> | Hc].
    + split; [done |]. destruct (Ascii.eqb d LF); [done | apply IH2].
    + split; [done | apply IH2].
Qed.

(** Text without carriage return is read as it is. *)
Lemma universal_newlines_id (s : string) :
  no_carriage_return s → universal_newlines s = s.
Proof.
  induction s as [|c s IH]; [done |]. intros [Hc Hs]. simpl.
  destruct (Ascii.eqb_spec c CR); [done |]. by rewrite IH.
Qed.

Lemma universal_newlines_fixed (s : string) :
  universal_newlines s = s ↔ no_carriage_return s.
Proof.
  split; [|apply universal_newlines_id].
  intros <-. apply universal_newlines_free.
Qed.

Lemma universal_newlines_nil (s : string) : universal_newlines s = "" → s = "".
Proof. destruct s as [|c s]; [done |]. simpl. by destruct (Ascii.eqb c CR). Qed.

Lemma no_carriage_return_append (s t : string) :
  no_carriage_return (s +:+ t) ↔ no_carriage_return s ∧ no_carriage_return t.
Proof.
  induction s as [|c s IH].
  - rewrite append_nil_l. simpl. tauto.
  - rewrite append_cons. simpl. tauto.
Qed.

Lemma no_carriage_return_join (l : list string) :
  Forall no_carriage_return l → no_carriage_return (join nl l).
Proof.
  induction 1 as [|x l Hx Hl IH]; [done |]. destruct l as [|y l]; [done |].
  rewrite join_cons_cons. apply no_carriage_return_append. split; [done |].
  apply no_carriage_return_append. split; [by vm_compute | done].
Qed.

Lemma no_carriage_return_split_lines (s : string) :
  no_carriage_return s → Forall no_carriage_return (split_lines s).
Proof.
  induction s as [|c s IH]; [by repeat constructor |]. intros [Hc Hs].
  specialize (IH Hs). rewrite split_lines_cons.
  destruct (Ascii.eqb c LF); [by constructor |].
  destruct (split_lines s) as [|line rest]; [by repeat constructor |].
  apply Forall_cons in IH as [Hline Hrest]. by repeat constructor.
Qed.



(** On a file without carriage return, the text read is the characters of
    the file. *)
Lemma run_on_file_run_on {A} (op : option string → io A) (file : string)
    (stdin : list string) :
  no_carriage_return file → run_on_file op file stdin = run_on op file stdin.
Proof. intros Hfile. unfold run_on_file, run_on. by rewrite universal_newlines_id. Qed.



Lemma sections_missing_check (content : string) (missing : list string) :
  missing ≠ [] →
  missing = List.filter
              (λ section, negb (bool_decide (("## " +:+ section) ∈ split_lines content)))
              mandatory_sections →
  sections_missing content missing.
Proof.
  intros Hne ->. split; [done |]. split; [apply filter_sublist |].
  intros section Hin. unfold has_section.
  rewrite list_elem_of_In, filter_In, <- list_elem_of_In, negb_true_iff.
  rewrite bool_decide_eq_false. tauto.
Qed.




(** Where a marker stands only inside a longer line the code takes the
    section to be there: a document that names the seven mandatory
    sections in subsection lines only has none of them and passes. *)
Lemma validate_syntax_passes_subsections :
  sections_missing subsections_only mandatory_sections ∧
  validate_syntax (Some subsections_only) = (true, "Syntax validation passed.").
Proof.
  split.
  - apply sections_missing_check; [done | vm_compute; reflexivity].
  - vm_compute. reflexivity.
Qed.

(** What [generate_hash] leaves of a file without hash line and without
    FILE METADATA line. *)
Lemma generate_hash_writes_text_read (file : string) :
  file ≠ "" →
  no_hash_line_no_metadata (universal_newlines file) →
  run_on_file generate_hash file [] =
  (inr (true, "Integrity hash updated: SHA256-" +:+
              SHA256.hexdigest (universal_newlines file)),
   universal_newlines file).
Proof.
  intros Hne Hlines. unfold run_on_file.
  assert (universal_newlines file ≠ "") as Hread
    by (intros Hnil; by apply universal_newlines_nil in Hnil).
  by rewrite (generate_hash_rewrites_text _ Hread Hlines).
Qed.

(** C10, for the documents that are not empty and for the text as it is
    read: on a file that is not empty and whose text, read with its line
    ends as line feeds, has no hash line and no line equal to the FILE
    METADATA marker, [generate_hash] returns success, reports the hash of
    the text read and inserts no hash line; what it writes back is the text
    read, and the file is left with the very characters it had exactly
    when it holds no carriage return. *)
Theorem generate_hash_without_metadata (file : string) :
  file ≠ "" →
  no_hash_line_no_metadata (universal_newlines file) →
  run_on_file generate_hash file [] =
    (inr (true, "Integrity hash updated: SHA256-" +:+
                SHA256.hexdigest (universal_newlines file)),
     universal_newlines file) ∧
  (writes_back_identical file ↔ no_carriage_return file).
Proof.
  intros Hne Hlines.
  pose proof (generate_hash_writes_text_read file Hne Hlines) as Hrun.
  split; [done |]. unfold writes_back_identical. rewrite Hrun. split.
  - intros [h [= _ Hfile]]. by apply universal_newlines_fixed.
  - intros Hfile. rewrite (universal_newlines_id _ Hfile). by eexists.
Qed.

(** A file with line ends of two characters: the text goes back with line
    feeds alone. *)
Lemma generate_hash_without_metadata_witness :
  run_on_file generate_hash notes_with_carriage_returns [] =
    (inr (true, "Integrity hash updated: SHA256-" +:+
                SHA256.hexdigest (universal_newlines notes_with_carriage_returns)),
     universal_newlines notes_with_carriage_returns) ∧
  (writes_back_identical notes_with_carriage_returns ↔
   no_carriage_return notes_with_carriage_returns).
Proof.
  apply (generate_hash_without_metadata notes_with_carriage_returns).
  - by vm_compute.
  - unfold no_hash_line_no_metadata.
    apply Forall_forall, (bool_decide_unpack _). vm_compute. exact I.
Defined.

(** C10 as stated fails on the empty file, on which [generate_hash]
    returns failure and writes nothing, and on a file with carriage
    returns, which is written back without them; neither has a hash line
    or a FILE METADATA line, whether its lines are taken from the
    characters of the file or from the text read. *)
Lemma generate_hash_not_identical :
  (no_hash_line_no_metadata "" ∧ ¬ writes_back_identical "") ∧
  (no_hash_line_no_metadata notes_with_carriage_returns ∧
   no_hash_line_no_metadata (universal_newlines notes_with_carriage_returns) ∧
   ¬ writes_back_identical notes_with_carriage_returns).
Proof.
  split; [split | split; [|split]].
  - unfold no_hash_line_no_metadata.
    apply Forall_forall, (bool_decide_unpack _). vm_compute. exact I.
  - intros [h Hh]. by vm_compute in Hh.
  - unfold no_hash_line_no_metadata.
    apply Forall_forall, (bool_decide_unpack _). vm_compute. exact I.
  - unfold no_hash_line_no_metadata.
    apply Forall_forall, (bool_decide_unpack _). vm_compute. exact I.
  - intros [h Hh]. apply (f_equal snd) in Hh. by vm_compute in Hh.
Qed.

(** X10: on a file that is not empty and in whose text no line holds
    [## EVOLUTION TRACKING], [add_checkpoint] adds nothing and still answers
    that the checkpoint was added: it writes back the text it read, so
    that the file is left as it was but for its line ends, and with the
    very characters it had exactly when it holds no carriage return. *)
Theorem add_checkpoint_without_tracking (timestamp description file : string) :
  file ≠ "" →
  (∀ line, line ∈ split_lines (universal_newlines file) →
           contains line "## EVOLUTION TRACKING" = false) →
  add_checkpoint_on_file timestamp description file =
    (inr (true, "Checkpoint added: " +:+ description), universal_newlines file) ∧
  ((add_checkpoint_on_file timestamp description file).2 = file ↔
   no_carriage_return file).
Proof.
  intros Hne Hlines.
  assert (universal_newlines file ≠ "") as Hread
    by (intros Hnil; by apply universal_newlines_nil in Hnil).
  assert (add_checkpoint_on_file timestamp description file =
          (inr (true, "Checkpoint added: " +:+ description), universal_newlines file))
    as Hrun.
  { unfold add_checkpoint_on_file, run_on_file.
    by rewrite (add_checkpoint_rewrites_text _ timestamp description Hread Hlines). }
  split; [done |]. rewrite Hrun. apply universal_newlines_fixed.
Qed.

Lemma add_checkpoint_without_tracking_witness :
  add_checkpoint_on_file "2024-06-01T00:00:00Z" "second" notes_with_carriage_returns =
    (inr (true, "Checkpoint added: " +:+ "second"),
     universal_newlines notes_with_carriage_returns) ∧
  ((add_checkpoint_on_file "2024-06-01T00:00:00Z" "second"
      notes_with_carriage_returns).2 = notes_with_carriage_returns ↔
   no_carriage_return notes_with_carriage_returns).
Proof.
  apply (add_checkpoint_without_tracking "2024-06-01T00:00:00Z" "second"
           notes_with_carriage_returns).
  - by vm_compute.
  - apply Forall_forall, (bool_decide_unpack _). vm_compute. exact I.
Defined.

Lemma no_carriage_return_rstrip (s : string) :
  no_carriage_return s → no_carriage_return (rstrip s).
Proof.
  intros Hs. destruct (rstrip_prefix s) as [t Ht]. rewrite Ht in Hs.
  by apply no_carriage_return_append in Hs as [? _].
Qed.

(** X28: checkpoints add up in their order.  On a file whose text has no
    Checkpoint History and has a top-level marker after the EVOLUTION
    TRACKING section, a first [add_checkpoint], with a time and a
    description that hold no line feed and no carriage return, succeeds and
    starts the history, and a second one, which reads the file that the
    first wrote, succeeds and puts its entry right after the first, in
    front of that marker. *)
Theorem add_checkpoint_twice
    (file timestamp1 description1 timestamp2 description2 : string)
    (before mid after : list string) (evolution next : string) :
  split_lines (universal_newlines file) = before ++ evolution :: mid ++ next :: after →
  (∀ line, line ∈ before → contains line "## EVOLUTION TRACKING" = false) →
  contains evolution "## EVOLUTION TRACKING" = true →
  (∀ line, line ∈ mid ++ next :: after →
           contains line "## EVOLUTION TRACKING" = true ∨
           contains line "### Checkpoint History" = false) →
  (∀ line, line ∈ mid →
           startswith line "## " = false ∨
           contains line "## EVOLUTION TRACKING" = true) →
  startswith next "## " = true →
  contains next "## EVOLUTION TRACKING" = false →
  single_line timestamp1 → no_carriage_return timestamp1 →
  single_line description1 → no_carriage_return description1 →
  (add_checkpoint_on_file timestamp1 description1 file).1 =
    inr (true, "Checkpoint added: " +:+ description1) ∧
  add_checkpoint_on_file timestamp2 description2
    (add_checkpoint_on_file timestamp1 description1 file).2 =
  (inr (true, "Checkpoint added: " +:+ description2),
   join nl (before ++ evolution :: mid ++
            "" :: "### Checkpoint History" ::
            rstrip (checkpoint_entry timestamp1 description1) ::
            checkpoint_entry timestamp2 description2 :: next :: after)).
Proof.
  intros Hsplit Hbefore Hevolution Hhistory Hmid Hnext1 Hnext2
         Htime1 Htime2 Hdescription1 Hdescription2.
  set (content := universal_newlines file) in *.
  set (written := join nl (before ++ evolution :: mid ++
                           (nl +:+ "### Checkpoint History") ::
                           rstrip (checkpoint_entry timestamp1 description1) ::
                           next :: after)).
  assert (add_checkpoint (Some content) timestamp1 description1 =
          WriteFile written (checkpoint_added description1)) as Hfirst.
  { by apply (add_checkpoint_creates_history
                content timestamp1 description1 before mid after evolution next). }
  assert (add_checkpoint_on_file timestamp1 description1 file =
          (inr (true, "Checkpoint added: " +:+ description1), written)) as ->.
  { unfold add_checkpoint_on_file, run_on_file. fold content. by rewrite Hfirst. }
  split; [done |]. cbn [snd].
  assert (written = (add_checkpoint_on timestamp1 description1 content).2) as Hwritten.
  { unfold add_checkpoint_on, run_on. by rewrite Hfirst. }
  assert (no_carriage_return written) as Hfree.
  { pose proof (no_carriage_return_split_lines content (universal_newlines_free file))
      as Hlines.
    rewrite Hsplit in Hlines.
    apply Forall_app in Hlines as [Hb Hlines].
    apply Forall_cons in Hlines as [He Hlines].
    apply Forall_app in Hlines as [Hm Hlines].
    apply no_carriage_return_join.
    apply Forall_app. split; [done |]. apply Forall_cons. split; [done |].
    apply Forall_app. split; [done |]. apply Forall_cons. split; [by vm_compute |].
    apply Forall_cons. split; [|done].
    apply no_carriage_return_rstrip. unfold checkpoint_entry.
    repeat (apply no_carriage_return_append; split); try done; by vm_compute. }
  unfold add_checkpoint_on_file, run_on_file.
  rewrite (universal_newlines_id _ Hfree).
  change (run (add_checkpoint (Some written) timestamp2 description2) written [])
    with (add_checkpoint_on timestamp2 description2 written).
  rewrite Hwritten.
  by apply (add_checkpoint_twice_text content).
Qed.

Lemma add_checkpoint_twice_witness :
  (add_checkpoint_on_file "2024-06-01T00:00:00Z" "second"
     tracked_with_carriage_returns).1 =
    inr (true, "Checkpoint added: " +:+ "second") ∧
  add_checkpoint_on_file "2024-07-01T00:00:00Z" "third"
    (add_checkpoint_on_file "2024-06-01T00:00:00Z" "second"
       tracked_with_carriage_returns).2 =
  (inr (true, "Checkpoint added: " +:+ "third"),
   join nl (["# AI LEARNING FILE: notes"] ++ "## EVOLUTION TRACKING" :: ["notes"] ++
            "" :: "### Checkpoint History" ::
            rstrip (checkpoint_entry "2024-06-01T00:00:00Z" "second") ::
            checkpoint_entry "2024-07-01T00:00:00Z" "third" ::
            "## AUTOMATED LEARNINGS" :: [])).
Proof.
  apply (add_checkpoint_twice
           tracked_with_carriage_returns "2024-06-01T00:00:00Z" "second"
           "2024-07-01T00:00:00Z" "third"
           ["# AI LEARNING FILE: notes"] ["notes"] []
           "## EVOLUTION TRACKING" "## AUTOMATED LEARNINGS").
  - vm_compute. reflexivity.
  - intros line ->%list_elem_of_singleton. vm_compute. reflexivity.
  - vm_compute. reflexivity.
  - intros line Hline. right. revert line Hline.
    apply Forall_forall, (bool_decide_unpack _). vm_compute. exact I.
  - intros line ->%list_elem_of_singleton. left. vm_compute. reflexivity.
  - vm_compute. reflexivity.
  - vm_compute. reflexivity.
  - by vm_compute.
  - by vm_compute.
  - by vm_compute.
  - by vm_compute.
Defined.

End FilesAsStored.
